(** * Summary audit of radio-network configuration tables

    A shallow embedding of [build_summary_audit]
    (src/modules/ConfigurationAudit/ca_excel_summary.py) and of the frame
    helpers of src/utils/utils_dataframe.py, with proofs of the properties
    the specification states and of further properties of the code.

    Modelling conventions.
    - A pandas [DataFrame] is a list of column labels together with a list
      of records; a record maps every label of the frame to a cell.  Labels
      are pairwise distinct strings, as they are when a table is read from
      a file with a header line.  Columns hold Python objects: a cell is an
      integer, a string or the missing value (NaN), and [astype(str)] turns
      it into [str(cell)].
    - A column is only read under a label that the resolver returned or
      that was assigned just before, so reading a column never fails
      ([resolve_in_columns]).
    - The nested checker functions of the source append to the list [rows]
      they share; here a checker is a computation of the monad [Chk], which
      carries the rows appended so far and either a value or the exception
      that interrupted the computation.
    - Python sets have no fixed iteration order.  The order in which a set is
      iterated is a parameter ([Py.SetOrder]) of every definition that
      iterates one, so that what the report owes to that order is visible.
    - The helpers that [src.utils.utils_frequency] provides are not among
      the sources.  The three that read a cell are parameters ([FreqUtils]);
      the column resolver is modelled from the specification.
    - A Python string is kept as its UTF-8 encoding, so that the white
      space [str.strip] removes is the white space of Unicode.
    - The three frequencies of the configuration are integers, as the
      signature says.  The two lists of allowed frequencies have no type in
      the signature: a value is given with what [int] makes of each of its
      items ([Allowed]).
    - Of utils_dataframe.py, [make_index_by_keys] is left out: what the
      row-wise [agg] of pandas gives on a frame without lines or without
      key columns is not fixed by the source.  The date parser of
      [select_latest_by_date] is a parameter. *)

From Stdlib Require Import List String Ascii ZArith Bool Arith Lia.
From Stdlib Require Import Permutation Sorted DecimalString.
From Stdlib Require OrdersEx.
Import ListNotations.

Local Open Scope string_scope.
Local Open Scope list_scope.

Set Implicit Arguments.

(* ===================================================================== *)
(** ** Python values and built-ins *)
(* ===================================================================== *)

Module Py.

(** [str(n)] for an integer. *)
Definition str_of_Z (z : Z) : string :=
  NilEmpty.string_of_int (Z.to_int z).

(** [sep.join(items)]. *)
Fixpoint join (sep : string) (items : list string) : string :=
  match items with
  | [] => ""
  | [x] => x
  | x :: rest => (x ++ sep ++ join sep rest)%string
  end.

(** [len(items)] as a Python integer. *)
Definition len {A} (items : list A) : Z := Z.of_nat (List.length items).

(** A Python string is kept as its UTF-8 encoding.  [isspace ch]: [ch] is
    the encoding of one character that [str.isspace] accepts.  These are
    the characters [str.strip()] removes: U+0009 to U+000D, U+001C to
    U+0020, U+0085, U+00A0, U+1680, U+2000 to U+200A, U+2028, U+2029,
    U+202F, U+205F and U+3000. *)
Definition isspace (ch : string) : bool :=
  match ch with
  | String a EmptyString =>
      let x := nat_of_ascii a in
      (((9 <=? x) && (x <=? 13)) || ((28 <=? x) && (x <=? 32)))%nat
  | String a (String b EmptyString) =>
      let x := nat_of_ascii a in
      let y := nat_of_ascii b in
      ((x =? 194) && ((y =? 133) || (y =? 160)))%nat
  | String a (String b (String c EmptyString)) =>
      let x := nat_of_ascii a in
      let y := nat_of_ascii b in
      let z := nat_of_ascii c in
      (((x =? 225) && (y =? 154) && (z =? 128))
       || ((x =? 226) && (y =? 128)
           && (((128 <=? z) && (z <=? 138)) || (z =? 168) || (z =? 169) || (z =? 175)))
       || ((x =? 226) && (y =? 129) && (z =? 159))
       || ((x =? 227) && (y =? 128) && (z =? 128)))%nat
  | _ => false
  end.

(** [s.lstrip()]: the white-space characters at the start are dropped, one
    after the other, whether they take one, two or three bytes. *)
Fixpoint lstrip (s : string) : string :=
  match s with
  | String a r1 =>
      if isspace (String a EmptyString) then lstrip r1
      else
        match r1 with
        | String b r2 =>
            if isspace (String a (String b EmptyString)) then lstrip r2
            else
              match r2 with
              | String c r3 =>
                  if isspace (String a (String b (String c EmptyString)))
                  then lstrip r3 else s
              | EmptyString => s
              end
        | EmptyString => s
        end
  | EmptyString => EmptyString
  end.

(** [s.rstrip()]: going from the end to the start, what is kept so far is
    dropped when, with the byte in front of it, it is one white-space
    character. *)
Fixpoint rstrip (s : string) : string :=
  match s with
  | EmptyString => EmptyString
  | String c rest =>
      let kept := String c (rstrip rest) in
      if isspace kept then EmptyString else kept
  end.

(** [s.strip()]. *)
Definition strip (s : string) : string := rstrip (lstrip s).

Definition lower_ascii (c : ascii) : ascii :=
  let n := nat_of_ascii c in
  if ((65 <=? n) && (n <=? 90))%nat then ascii_of_nat (n + 32) else c.

(** [s.lower()] on the letters A to Z.  Every other character is left as
    it is; no other character has a lower case made of the letters a to z
    only, but for U+212A, whose lower case is k.  So, compared with a word
    of the source (none of them has a k), the result is equal exactly when
    the result of [str.lower] is. *)
Fixpoint lower (s : string) : string :=
  match s with
  | EmptyString => EmptyString
  | String c rest => String (lower_ascii c) (lower rest)
  end.

(** [any(p(v) for v in items)] and [all(p(v) for v in items)]. *)
Definition any {A} (p : A -> bool) (items : list A) : bool := existsb p items.
Definition all {A} (p : A -> bool) (items : list A) : bool := forallb p items.

(** Membership test [x in items]. *)
Definition mem {A} (eqb : A -> A -> bool) (x : A) (items : list A) : bool :=
  existsb (eqb x) items.

(** The elements of a list without repetition, first occurrences kept. *)
Fixpoint dedup {A} (eqb : A -> A -> bool) (items : list A) : list A :=
  match items with
  | [] => []
  | x :: rest => x :: filter (fun y => negb (eqb x y)) (dedup eqb rest)
  end.

(** Insertion into a list ordered by [leb], in front of the first element
    that is not smaller. *)
Fixpoint insert {A} (leb : A -> A -> bool) (x : A) (l : list A) : list A :=
  match l with
  | [] => [x]
  | y :: rest => if leb x y then x :: l else y :: insert leb x rest
  end.

(** [sorted(items)] for the order [leb]: a stable sort (elements that
    compare equal keep the order they had in [items]). *)
Fixpoint sorted_by {A} (leb : A -> A -> bool) (items : list A) : list A :=
  match items with
  | [] => []
  | x :: rest => insert leb x (sorted_by leb rest)
  end.

(** [sorted] on strings: code-point order. *)
Definition sorted (items : list string) : list string :=
  sorted_by String.leb items.

(** Order of tuples of two strings. *)
Definition pair_leb (a b : string * string) : bool :=
  match String.compare (fst a) (fst b) with
  | Lt => true
  | Gt => false
  | Eq => String.leb (snd a) (snd b)
  end.

Definition pair_eqb (a b : string * string) : bool :=
  String.eqb (fst a) (fst b) && String.eqb (snd a) (snd b).

Definition sorted_pairs (items : list (string * string)) : list (string * string) :=
  sorted_by pair_leb items.

(** A Python set is kept as the list of its elements, each once.
    [set(items)], [a & b], [a - b] and [a | b]: *)
Definition set_of {A} (eqb : A -> A -> bool) (items : list A) : list A :=
  dedup eqb items.
Definition set_and {A} (eqb : A -> A -> bool) (a b : list A) : list A :=
  filter (fun x => mem eqb x b) a.
Definition set_sub {A} (eqb : A -> A -> bool) (a b : list A) : list A :=
  filter (fun x => negb (mem eqb x b)) a.
Definition set_or {A} (eqb : A -> A -> bool) (a b : list A) : list A :=
  a ++ set_sub eqb b a.

(** The order in which the elements of a set come out when it is iterated
    ([sorted(s)], [list(s)], [for x in s]) depends on the hashes of the
    elements, which change from one interpreter run to the next.  All that
    is known of it is that every element comes out once. *)
Record SetOrder : Type := mkSetOrder {
  iter : forall A : Type, list A -> list A;
  iter_perm : forall (A : Type) (s : list A), Permutation (iter s) s;
}.

(** [f"..."]: the pieces of a formatted string, put together. *)
Definition fstr (pieces : list string) : string := String.concat "" pieces.

End Py.

(* ===================================================================== *)
(** ** The part of pandas the audit uses *)
(* ===================================================================== *)

Module Pd.

(** A cell of a table. *)
Inductive Cell : Type :=
| CInt (z : Z)
| CStr (s : string)
| CNaN.

Definition cell_eqb (a b : Cell) : bool :=
  match a, b with
  | CInt x, CInt y => Z.eqb x y
  | CStr x, CStr y => String.eqb x y
  | CNaN, CNaN => true
  | _, _ => false
  end.

(** [str(cell)], which is also what [Series.astype(str)] stores. *)
Definition astype_str (c : Cell) : string :=
  match c with
  | CInt z => Py.str_of_Z z
  | CStr s => s
  | CNaN => "nan"
  end.

(** One line of a frame: the cell under every label. *)
Definition Record_ : Type := list (string * Cell).

Record DataFrame : Type := mkFrame {
  columns : list string;
  records : list Record_;
}.

(** A frame from its header and its lines. *)
Definition frame (header : list string) (lines : list (list Cell)) : DataFrame :=
  mkFrame header (map (combine header) lines).

(** [df.empty]: an axis of length 0. *)
Definition empty (df : DataFrame) : bool :=
  match columns df, records df with
  | [], _ => true
  | _, [] => true
  | _, _ => false
  end.

(** The cell of a record under a label. *)
Fixpoint get (r : Record_) (label : string) : Cell :=
  match r with
  | [] => CNaN
  | (l, c) :: rest => if String.eqb l label then c else get rest label
  end.

(** [df[label]] as the list of its cells. *)
Definition getitem (df : DataFrame) (label : string) : list Cell :=
  map (fun r => get r label) (records df).

(** [df[[a, b]]] as the list of the pairs of cells. *)
Definition getitem2 (df : DataFrame) (a b : string) : list (Cell * Cell) :=
  map (fun r => (get r a, get r b)) (records df).

Fixpoint set_cell (r : Record_) (label : string) (v : Cell) : Record_ :=
  match r with
  | [] => [(label, v)]
  | (l, c) :: rest =>
      if String.eqb l label then (l, v) :: rest else (l, c) :: set_cell rest label v
  end.

(** [df[label] = values], the value of a line computed from the line: an
    existing column is overwritten, a new one is added behind the others. *)
Definition assign (label : string) (f : Record_ -> Cell) (df : DataFrame) : DataFrame :=
  mkFrame
    (if Py.mem String.eqb label (columns df) then columns df else columns df ++ [label])
    (map (fun r => set_cell r label (f r)) (records df)).

(** [df[label] = df[label].astype(str)]. *)
Definition astype_str_col (label : string) (df : DataFrame) : DataFrame :=
  assign label (fun r => CStr (astype_str (get r label))) df.

(** [df.loc[mask]], the mask computed line by line. *)
Definition loc (mask : Record_ -> bool) (df : DataFrame) : DataFrame :=
  mkFrame (columns df) (filter mask (records df)).

(** [df.drop(columns=labels, errors="ignore")]. *)
Definition drop (labels : list string) (df : DataFrame) : DataFrame :=
  let keep (l : string) := negb (Py.mem String.eqb l labels) in
  mkFrame (filter keep (columns df))
          (map (filter (fun lc : string * Cell => keep (fst lc))) (records df)).

Definition entry_eqb (a b : string * Cell) : bool :=
  String.eqb (fst a) (fst b) && cell_eqb (snd a) (snd b).

Fixpoint list_eqb {A} (eqb : A -> A -> bool) (a b : list A) : bool :=
  match a, b with
  | [], [] => true
  | x :: a', y :: b' => eqb x y && list_eqb eqb a' b'
  | _, _ => false
  end.

Definition record_eqb (a b : Record_) : bool := list_eqb entry_eqb a b.

(** [df.drop_duplicates().reset_index(drop=True)]: first occurrences kept. *)
Definition drop_duplicates (df : DataFrame) : DataFrame :=
  mkFrame (columns df) (Py.dedup record_eqb (records df)).

(** [df.reindex(labels, axis=1)]. *)
Definition reindex (labels : list string) (df : DataFrame) : DataFrame :=
  mkFrame labels (map (fun r => map (fun l => (l, get r l)) labels) (records df)).

(** [a.equals(b)] for two frames cut from the same frame (so the types of
    their columns agree) and indexed from 0: same labels, same cells line by
    line, missing values at the same places being equal. *)
Definition equals (a b : DataFrame) : bool :=
  list_eqb String.eqb (columns a) (columns b)
  && list_eqb record_eqb (records a) (records b).

(** [series.unique()] on strings: first occurrences, in order. *)
Definition unique (items : list string) : list string := Py.dedup String.eqb items.

(** [frame.groupby(key)[value]], iterated: the keys in increasing order,
    each with the values of its lines in the order of the frame. *)
Definition groupby (lines : list (string * Cell)) : list (string * list Cell) :=
  map (fun k => (k, map snd (filter (fun kv => String.eqb (fst kv) k) lines)))
      (Py.sorted (unique (map fst lines))).

Definition count_occ_by {A} (eqb : A -> A -> bool) (x : A) (items : list A) : nat :=
  List.length (filter (eqb x) items).

(** [series.value_counts(dropna=False)]: every distinct value with the
    number of its occurrences, larger counts first; values with the same
    count are left in the order of their first occurrence. *)
Definition value_counts {A} (eqb : A -> A -> bool) (items : list A) : list (A * nat) :=
  Py.sorted_by (fun a b => Nat.leb (snd b) (snd a))
    (map (fun x => (x, count_occ_by eqb x items)) (Py.dedup eqb items)).

(** [counts.max()]. *)
Definition counts_max {A} (counts : list (A * nat)) : nat :=
  fold_right (fun kc m => Nat.max (snd kc) m) 0%nat counts.

(** [rows.sort_values(key, kind="mergesort")]: stable, increasing keys. *)
Definition sort_values_mergesort {A} (key : A -> nat) (rows : list A) : list A :=
  Py.sorted_by (fun a b => Nat.leb (key a) (key b)) rows.

End Pd.
Import Pd.

(* ===================================================================== *)
(** ** Report rows, exceptions and the checker monad *)
(* ===================================================================== *)

(** The [Value] of a row: a count or a text. *)
Inductive Value : Type :=
| VInt (z : Z)
| VStr (s : string).

Record Row : Type := mkRow {
  Category : string;
  SubCategory : string;
  Metric : string;
  Val : Value;
  ExtraInfo : string;
}.

Definition Report : Type := list Row.

(** A raised exception, with the text [str(ex)] gives. *)
Record Exn : Type := mkExn { exn_text : string }.

(** A computation that appends rows to the shared list [rows] and either
    ends with a value or is interrupted by an exception.  The rows appended
    before the exception stay in the list. *)
Definition Chk (A : Type) : Type := (list Row * (A + Exn))%type.

Definition ret {A} (a : A) : Chk A := ([], inl a).

Definition raise {A} (e : Exn) : Chk A := ([], inr e).

Definition bind {A B} (m : Chk A) (k : A -> Chk B) : Chk B :=
  match m with
  | (w, inl a) => let (w', r) := k a in (w ++ w', r)
  | (w, inr e) => (w, inr e)
  end.

(** [try: body / except Exception as ex: handler]. *)
Definition try_except {A} (body : Chk A) (handler : Exn -> Chk A) : Chk A :=
  match body with
  | (w, inl a) => (w, inl a)
  | (w, inr e) => let (w', r) := handler e in (w ++ w', r)
  end.

Notation "x <- m ;; k" := (bind m (fun x => k))
  (at level 61, m at next level, right associativity).
Notation "m ;; k" := (bind m (fun _ => k))
  (at level 61, right associativity).

(** [add_row(category, subcategory, metric, value, extra)]. *)
Definition add_row (category subcategory metric : string) (value : Value)
  (extra : string) : Chk unit :=
  ([mkRow category subcategory metric value extra], inl tt).

(** The rows a computation appended and how it ended. *)
Definition appended {A} (m : Chk A) : list Row := fst m.
Definition outcome {A} (m : Chk A) : A + Exn := snd m.

(** An input table: [None], an object that is not a frame (reading an
    attribute of it raises [AttributeError] with the given text), or a
    frame. *)
Inductive Table : Type :=
| TNone
| TObject (complaint : string)
| TFrame (df : DataFrame).

(** The test [df is not None and not df.empty], giving the frame when it
    holds. *)
Definition not_none_and_not_empty (t : Table) : Chk (option DataFrame) :=
  match t with
  | TNone => ret None
  | TObject complaint => raise (mkExn complaint)
  | TFrame df => ret (if empty df then None else Some df)
  end.

(* ===================================================================== *)
(** ** Helpers of [src.utils.utils_frequency] *)
(* ===================================================================== *)

(** The three helpers that read a cell are parameters: [parse_int_frequency]
    gives an integer or nothing, [is_n77_from_string] a truth value,
    [extract_sync_frequencies] a set of strings. *)
Class FreqUtils : Type := mkFreqUtils {
  parse_int_frequency : Cell -> option Z;
  is_n77_from_string : Cell -> bool;
  extract_sync_frequencies : string -> list string;
}.

(** Modelled from the spec: [resolve_column_case_insensitive] is not among
    the sources.  Section 4.2: the candidate names are tried in order, a
    candidate matches a column label when the two are equal up to case, the
    first match is returned, nothing when no candidate matches. *)
Fixpoint resolve_column_case_insensitive (df : DataFrame) (candidates : list string)
  : option string :=
  match candidates with
  | [] => None
  | cand :: rest =>
      match find (fun c => String.eqb (Py.lower c) (Py.lower cand)) (columns df) with
      | Some c => Some c
      | None => resolve_column_case_insensitive df rest
      end
  end.

(** The test [if col] on what the resolver returned: nothing and the empty
    label both count as false. *)
Definition as_label (col : option string) : option string :=
  match col with
  | Some EmptyString => None
  | other => other
  end.

(* ===================================================================== *)
(** ** [build_summary_audit] *)
(* ===================================================================== *)

(** A value given for [allowed_n77_ssb] or [allowed_n77_arfcn]: [None] or
    another value that counts as false; or a collection, given by its items
    in the order in which they are iterated, each with what [int(item)]
    gives, an integer or the exception that [int] raises; or a value that
    counts as true and cannot be iterated, given by the exception that
    iterating it raises. *)
Inductive Allowed : Type :=
| nothing
| collection (items : list (Z + Exn))
| not_iterable (complaint : Exn).

(** [int(v) for v in items]: the first item that [int] refuses ends the
    loop with its exception. *)
Fixpoint int_each (items : list (Z + Exn)) : list Z + Exn :=
  match items with
  | [] => inl []
  | inl z :: rest =>
      match int_each rest with
      | inl zs => inl (z :: zs)
      | inr ex => inr ex
      end
  | inr ex :: _ => inr ex
  end.

(** [{int(v) for v in (allowed or [])}]. *)
Definition int_set (allowed : Allowed) : list Z + Exn :=
  match allowed with
  | nothing => inl []
  | collection items =>
      match int_each items with
      | inl zs => inl (Py.set_of Z.eqb zs)
      | inr ex => inr ex
      end
  | not_iterable ex => inr ex
  end.

Section Audit.

Context {utils : FreqUtils}.
Variable hash : Py.SetOrder.

Variables df_nr_cell_du df_nr_freq df_nr_freq_rel df_freq_prio_nr : Table.
Variables df_gu_sync_signal_freq df_gu_freq_rel : Table.
Variables df_nr_sector_carrier df_endc_distr_profile : Table.
Variables old_arfcn new_arfcn n77b_ssb : Z.

(** The two sets [build_summary_audit] computes before it defines the
    checkers, which read them. *)
Variables allowed_n77_ssb_set allowed_n77_arfcn_set : list Z.

(** [freq == n] for the result of the parser and an integer: [None] equals
    no integer. *)
Definition freq_is (freq : option Z) (n : Z) : bool :=
  match freq with
  | Some f => Z.eqb f n
  | None => false
  end.

Definition is_not_old_not_new (v : Cell) : bool :=
  let freq := parse_int_frequency v in
  negb (freq_is freq old_arfcn || freq_is freq new_arfcn).

Definition series_only_not_old_not_new (series : list Cell) : bool :=
  Py.all is_not_old_not_new series.

Definition is_new (v : Cell) : bool :=
  let freq := parse_int_frequency v in
  freq_is freq new_arfcn.

Definition is_old (v : Cell) : bool :=
  let freq := parse_int_frequency v in
  freq_is freq old_arfcn.

Definition has_value (v : Cell) : bool :=
  match parse_int_frequency v with
  | Some _ => true
  | None => false
  end.

Definition is_allowed_n77_ssb (v : Cell) : bool :=
  match parse_int_frequency v with
  | Some freq => Py.mem Z.eqb freq allowed_n77_ssb_set
  | None => false
  end.

Definition is_allowed_n77_arfcn (v : Cell) : bool :=
  match parse_int_frequency v with
  | Some freq => Py.mem Z.eqb freq allowed_n77_arfcn_set
  | None => false
  end.

Definition str (n : Z) : string := Py.str_of_Z n.

(** [sorted(str(node) for node, series in grouped if test(series))]. *)
Definition nodes_where (test : list Cell -> bool) (grouped : list (string * list Cell))
  : list string :=
  Py.sorted (map fst (filter (fun g => test (snd g)) grouped)).

(** [sorted(a & b)] and [sorted(a - b)] for two sets of strings. *)
Definition sorted_and (a b : list string) : list string :=
  Py.sorted (Py.iter hash (Py.set_and String.eqb a b)).
Definition sorted_sub (a b : list string) : list string :=
  Py.sorted (Py.iter hash (Py.set_sub String.eqb a b)).

(** [df[[node_col, value_col]]] with [node_col] turned into strings. *)
Definition node_value_pairs (df : DataFrame) (node_col value_col : string)
  : list (string * Cell) :=
  map (fun nv => (astype_str (fst nv), snd nv)) (getitem2 df node_col value_col).

Definition is_nil {A} (l : list A) : bool :=
  match l with [] => true | _ => false end.

(* ----------------------------- NRFrequency ----------------------------- *)

Definition process_nr_freq : Chk unit :=
  try_except
    (present <- not_none_and_not_empty df_nr_freq ;;
     match present with
     | Some df =>
       let node_col := resolve_column_case_insensitive df ["NodeId"] in
       let arfcn_col := resolve_column_case_insensitive df
                          ["arfcnValueNRDl"; "NRFrequencyId"; "nRFrequencyId"] in
       match as_label node_col, as_label arfcn_col with
       | Some node_col, Some arfcn_col =>
         let work := node_value_pairs df node_col arfcn_col in
         let n77_work := filter (fun nv => is_n77_from_string (snd nv)) work in
         if negb (is_nil n77_work) then
           let grouped := groupby n77_work in
           let all_nodes_with_freq :=
             Py.sorted (unique (map (fun nv => astype_str (fst nv))
               (filter (fun nv => has_value (snd nv)) (getitem2 df node_col arfcn_col)))) in
           add_row "NR Frequency Audit" "NRFrequency"
             "NR nodes with ARFCN defined in NRFrequency"
             (VInt (Py.len all_nodes_with_freq)) (Py.join ", " all_nodes_with_freq) ;;
           let old_nodes := nodes_where (Py.any is_old) grouped in
           add_row "NR Frequency Audit" "NRFrequency"
             (Py.fstr ["NR nodes with the old ARFCN ("; str old_arfcn; ") in NRFrequency"])
             (VInt (Py.len old_nodes)) (Py.join ", " old_nodes) ;;
           let new_nodes := nodes_where (Py.any is_new) grouped in
           add_row "NR Frequency Audit" "NRFrequency"
             (Py.fstr ["NR nodes with the new ARFCN ("; str new_arfcn; ") in NRFrequency"])
             (VInt (Py.len new_nodes)) (Py.join ", " new_nodes) ;;
           let old_set := Py.set_of String.eqb old_nodes in
           let new_set := Py.set_of String.eqb new_nodes in
           let nodes_old_and_new := sorted_and old_set new_set in
           add_row "NR Frequency Audit" "NRFrequency"
             (Py.fstr ["NR nodes with both, the old ARFCN ("; str old_arfcn;
                       ") and the new ARFCN ("; str new_arfcn; ") in NRFrequency"])
             (VInt (Py.len nodes_old_and_new)) (Py.join ", " nodes_old_and_new) ;;
           let nodes_old_without_new := sorted_sub old_set new_set in
           add_row "NR Frequency Inconsistencies" "NRFrequency"
             (Py.fstr ["NR nodes with the old ARFCN ("; str old_arfcn;
                       ") but without the new ARFCN ("; str new_arfcn; ") in NRFrequency"])
             (VInt (Py.len nodes_old_without_new)) (Py.join ", " nodes_old_without_new) ;;
           let not_old_not_new_nodes := nodes_where series_only_not_old_not_new grouped in
           add_row "NR Frequency Inconsistencies" "NRFrequency"
             (Py.fstr ["NR nodes with the ARFCN not in ("; str old_arfcn; ", ";
                       str new_arfcn; ") in NRFrequency"])
             (VInt (Py.len not_old_not_new_nodes)) (Py.join ", " not_old_not_new_nodes)
         else
           add_row "NR Frequency Audit" "NRFrequency"
             "NRFrequency table has no N77 rows" (VInt 0) ""
       | _, _ =>
         add_row "NR Frequency Audit" "NRFrequency"
           "NRFrequency table present but required columns missing" (VStr "N/A") ""
       end
     | None =>
       add_row "NR Frequency Audit" "NRFrequency"
         "NRFrequency table" (VStr "Table not found or empty") ""
     end)
    (fun ex =>
       add_row "NR Frequency Audit" "NRFrequency"
         "Error while checking NRFrequency" (VStr (Py.fstr ["ERROR: "; exn_text ex])) "").

(* ---------------------------- NRFreqRelation --------------------------- *)

Definition cell_of_freq (freq : option Z) : Cell :=
  match freq with
  | Some f => CInt f
  | None => CNaN
  end.

(** [cell == n] for an integer [n], and [cell == s] for a string [s]. *)
Definition cell_is_int (c : Cell) (n : Z) : bool :=
  match c with
  | CInt z => Z.eqb z n
  | _ => false
  end.
Definition cell_is_str (c : Cell) (s : string) : bool :=
  match c with
  | CStr t => String.eqb t s
  | _ => false
  end.

(** [rows.drop(columns=list(cols_to_ignore), errors="ignore")
         .drop_duplicates().reset_index(drop=True)], then
    [.reindex(sorted(columns), axis=1)]. *)
Definition clean (cols_to_ignore : list string) (rows : DataFrame) : DataFrame :=
  let cleaned := drop_duplicates (drop (Py.iter hash cols_to_ignore) rows) in
  reindex (Py.sorted (columns cleaned)) cleaned.

(** The body of the loop [for cell_id in cells_both] of the two relation
    checkers: does the cell go into [bad_cells_params]? *)
Definition params_differ (cols_to_ignore : list string) (cell_col : string)
  (old_mask new_mask : Record_ -> bool) (full : DataFrame) (cell_id : string) : bool :=
  let cell_rows := loc (fun r => String.eqb (astype_str (get r cell_col)) cell_id) full in
  let old_rows := loc old_mask cell_rows in
  let new_rows := loc new_mask cell_rows in
  if empty old_rows || empty new_rows then false
  else negb (equals (clean cols_to_ignore old_rows) (clean cols_to_ignore new_rows)).

(** [cols_to_ignore]: the relation column and the columns whose lower-cased
    label is one of [names]. *)
Definition ignored_columns (arfcn_col : string) (names : list string) (full : DataFrame)
  : list string :=
  Py.set_or String.eqb [arfcn_col]
    (Py.set_of String.eqb
       (filter (fun name => Py.mem String.eqb (Py.lower name) names) (columns full))).

Definition process_nr_freq_rel : Chk unit :=
  try_except
    (present <- not_none_and_not_empty df_nr_freq_rel ;;
     match present with
     | Some df =>
       let node_col := resolve_column_case_insensitive df ["NodeId"] in
       let arfcn_col := resolve_column_case_insensitive df ["NRFreqRelationId"] in
       match as_label node_col, as_label arfcn_col with
       | Some node_col, Some arfcn_col =>
         let work := node_value_pairs df node_col arfcn_col in
         let n77_work := filter (fun nv => is_n77_from_string (snd nv)) work in
         if negb (is_nil n77_work) then
           let grouped := groupby n77_work in
           let old_nodes := nodes_where (Py.any is_old) grouped in
           add_row "NR Frequency Audit" "NRFreqRelation"
             (Py.fstr ["NR nodes with the old ARFCN ("; str old_arfcn; ") in NRFreqRelation"])
             (VInt (Py.len old_nodes)) (Py.join ", " old_nodes) ;;
           let new_nodes := nodes_where (Py.any is_new) grouped in
           add_row "NR Frequency Audit" "NRFreqRelation"
             (Py.fstr ["NR nodes with the new ARFCN ("; str new_arfcn; ") in NRFreqRelation"])
             (VInt (Py.len new_nodes)) (Py.join ", " new_nodes) ;;
           let old_set := Py.set_of String.eqb old_nodes in
           let new_set := Py.set_of String.eqb new_nodes in
           let nodes_old_and_new := sorted_and old_set new_set in
           add_row "NR Frequency Audit" "NRFreqRelation"
             (Py.fstr ["NR nodes with both, the old ARFCN ("; str old_arfcn;
                       ") and the new ARFCN ("; str new_arfcn; ") in NRFreqRelation"])
             (VInt (Py.len nodes_old_and_new)) (Py.join ", " nodes_old_and_new) ;;
           let nodes_old_without_new := sorted_sub old_set new_set in
           add_row "NR Frequency Inconsistencies" "NRFreqRelation"
             (Py.fstr ["NR nodes with the old ARFCN ("; str old_arfcn;
                       ") but without the new ARFCN ("; str new_arfcn; ") in NRFreqRelation"])
             (VInt (Py.len nodes_old_without_new)) (Py.join ", " nodes_old_without_new) ;;
           let not_old_not_new_nodes := nodes_where series_only_not_old_not_new grouped in
           add_row "NR Frequency Inconsistencies" "NRFreqRelation"
             (Py.fstr ["NR nodes with the ARFCN not in ("; str old_arfcn; ", ";
                       str new_arfcn; ") in NRFreqRelation"])
             (VInt (Py.len not_old_not_new_nodes)) (Py.join ", " not_old_not_new_nodes) ;;
           let cell_col := resolve_column_case_insensitive df
                             ["NRCellCUId"; "NRCellId"; "CellId"] in
           match as_label cell_col with
           | Some cell_col =>
             let full := astype_str_col cell_col (astype_str_col node_col df) in
             let full_n77 := loc (fun r => is_n77_from_string (get r arfcn_col)) full in
             let full_n77 :=
               assign "_arfcn_int_"
                 (fun r => cell_of_freq (parse_int_frequency (get r arfcn_col))) full_n77 in
             let old_mask r := cell_is_int (get r "_arfcn_int_") old_arfcn in
             let new_mask r := cell_is_int (get r "_arfcn_int_") new_arfcn in
             let cells_with_old :=
               Py.set_of String.eqb (map astype_str (getitem (loc old_mask full_n77) cell_col)) in
             let cells_with_new :=
               Py.set_of String.eqb (map astype_str (getitem (loc new_mask full_n77) cell_col)) in
             let cells_both := sorted_and cells_with_old cells_with_new in
             let cells_old_without_new := sorted_sub cells_with_old cells_with_new in
             add_row "NR Frequency Audit" "NRFreqRelation"
               (Py.fstr ["NR cells with the old ARFCN ("; str old_arfcn;
                         ") and the new ARFCN ("; str new_arfcn; ") in NRFreqRelation"])
               (VInt (Py.len cells_both)) (Py.join ", " cells_both) ;;
             add_row "NR Frequency Inconsistencies" "NRFreqRelation"
               (Py.fstr ["NR cells with the old ARFCN ("; str old_arfcn;
                         ") but without new ARFCN ("; str new_arfcn; ") in NRFreqRelation"])
               (VInt (Py.len cells_old_without_new)) (Py.join ", " cells_old_without_new) ;;
             let cols_to_ignore :=
               ignored_columns arfcn_col
                 ["nrfreqrelationid"; "nrfrequencyref"; "reservedby"] full_n77 in
             let bad_cells_params :=
               filter (params_differ cols_to_ignore cell_col old_mask new_mask full_n77)
                      cells_both in
             let bad_cells_params :=
               Py.sorted (Py.iter hash (Py.set_of String.eqb bad_cells_params)) in
             add_row "NR Frequency Inconsistencies" "NRFreqRelation"
               (Py.fstr ["NR cells with mismatching params between old ARFCN ("; str old_arfcn;
                         ") and the new ARFCN ("; str new_arfcn; ") in NRFreqRelation"])
               (VInt (Py.len bad_cells_params)) (Py.join ", " bad_cells_params)
           | None =>
             add_row "NR Frequency Audit" "NRFreqRelation"
               "NRFreqRelation cell-level check skipped (NRCellCUId/NRCellId/CellId missing)"
               (VStr "N/A") ""
           end
         else
           add_row "NR Frequency Audit" "NRFreqRelation"
             "NRFreqRelation table has no N77 rows" (VInt 0) ""
       | _, _ =>
         add_row "NR Frequency Audit" "NRFreqRelation"
           "NRFreqRelation table present but ARFCN/NodeId missing" (VStr "N/A") ""
       end
     | None =>
       add_row "NR Frequency Audit" "NRFreqRelation"
         "NRFreqRelation table" (VStr "Table not found or empty") ""
     end)
    (fun ex =>
       add_row "NR Frequency Audit" "NRFreqRelation"
         "Error while checking NRFreqRelation"
         (VStr (Py.fstr ["ERROR: "; exn_text ex])) "").

(* --------------------------- NRSectorCarrier --------------------------- *)

Definition process_nr_sector_carrier : Chk unit :=
  try_except
    (present <- not_none_and_not_empty df_nr_sector_carrier ;;
     match present with
     | Some df =>
       let node_col := resolve_column_case_insensitive df ["NodeId"] in
       let arfcn_col := resolve_column_case_insensitive df ["arfcnDL"] in
       match as_label node_col, as_label arfcn_col with
       | Some node_col, Some arfcn_col =>
         let work :=
           map (fun nv => (Py.strip (astype_str (fst nv)), snd nv))
               (getitem2 df node_col arfcn_col) in
         let n77_rows := filter (fun nv => is_n77_from_string (snd nv)) work in
         let n77_nodes := Py.sorted (unique (map fst n77_rows)) in
         add_row "NR Frequency Audit" "NRSectorCarrier"
           "NR nodes with ARFCN in N77 band (646600-660000) in NRSectorCarrier"
           (VInt (Py.len n77_nodes)) (Py.join ", " n77_nodes) ;;
         if negb (is_nil allowed_n77_arfcn_set) then
           let bad_rows := filter (fun nv => negb (is_allowed_n77_arfcn (snd nv))) n77_rows in
           let bad_nodes := Py.sorted (unique (map fst bad_rows)) in
           let unique_pairs :=
             Py.sorted_pairs
               (Py.iter hash
                  (Py.set_of Py.pair_eqb
                     (map (fun nv => (Py.strip (fst nv), Py.strip (astype_str (snd nv))))
                          bad_rows))) in
           let extra :=
             Py.join "; "
               (map (fun na => Py.fstr [fst na; ": "; snd na]) unique_pairs) in
           add_row "NR Frequency Inconsistencies" "NRSectorCarrier"
             "NR nodes with ARFCN not in allowed list (from NRSectorCarrier table)"
             (VInt (Py.len bad_nodes)) extra
         else
           add_row "NR Frequency Inconsistencies" "NRSectorCarrier"
             "NR nodes with ARFCN not in allowed list (no allowed list configured)"
             (VStr "N/A") ""
       | _, _ =>
         add_row "NR Frequency Audit" "NRSectorCarrier"
           "NRSectorCarrier table present but required columns missing" (VStr "N/A") ""
       end
     | None =>
       add_row "NR Frequency Audit" "NRSectorCarrier"
         "NRSectorCarrier table" (VStr "Table not found or empty") ""
     end)
    (fun ex =>
       add_row "NR Frequency Audit" "NRSectorCarrier"
         "Error while checking NRSectorCarrier"
         (VStr (Py.fstr ["ERROR: "; exn_text ex])) "").

(* ------------------------------- NRCellDU ------------------------------ *)

Definition process_nr_cell_du : Chk unit :=
  try_except
    (present <- not_none_and_not_empty df_nr_cell_du ;;
     match present with
     | Some df =>
       let node_col := resolve_column_case_insensitive df ["NodeId"] in
       let ssb_col := resolve_column_case_insensitive df ["ssbFrequency"] in
       match as_label node_col, as_label ssb_col with
       | Some node_col, Some ssb_col =>
         let work :=
           map (fun nv => (Py.strip (astype_str (fst nv)), snd nv))
               (getitem2 df node_col ssb_col) in
         let unique_nodes :=
           Py.sorted (unique (map fst (filter (fun nv => is_n77_from_string (snd nv)) work))) in
         add_row "NR Frequency Audit" "NRCellDU"
           "NR nodes with SSB in N77 band (646600-660000) in NRCellDU"
           (VInt (Py.len unique_nodes)) (Py.join ", " unique_nodes)
       | _, _ =>
         add_row "NR Frequency Audit" "NRCellDU"
           "NRCellDU table present but required columns missing" (VStr "N/A") ""
       end
     | None =>
       add_row "NR Frequency Audit" "NRCellDU"
         "NRCellDU table" (VStr "Table not found or empty") ""
     end)
    (fun ex =>
       add_row "NR Frequency Audit" "NRCellDU"
         "Error while checking NRCellDU" (VStr (Py.fstr ["ERROR: "; exn_text ex])) "").

(* ------------------------------ FreqPrioNR ----------------------------- *)

Definition process_freq_prio_nr : Chk unit :=
  try_except
    (present <- not_none_and_not_empty df_freq_prio_nr ;;
     match present with
     | Some df =>
       let node_col := resolve_column_case_insensitive df ["NodeId"] in
       let freq_col := resolve_column_case_insensitive df ["FreqPrioNRId"] in
       let ratfreqprio_col := resolve_column_case_insensitive df ["RATFreqPrioId"] in
       match as_label node_col, as_label freq_col, as_label ratfreqprio_col with
       | Some node_col, Some freq_col, Some ratfreqprio_col =>
         (* a line of [work]: node, frequency cell, role *)
         let work :=
           map (fun r => (Py.strip (astype_str (get r node_col)),
                          get r freq_col,
                          Py.lower (Py.strip (astype_str (get r ratfreqprio_col)))))
               (records df) in
         let node (w : string * Cell * string) := fst (fst w) in
         let role (w : string * Cell * string) := snd w in
         let n77_work := filter (fun w => is_n77_from_string (snd (fst w))) work in
         if negb (is_nil n77_work) then
           let mask_fwa w := String.eqb (role w) "fwa" in
           let fwa_nodes := Py.sorted (unique (map node (filter mask_fwa n77_work))) in
           add_row "NR Frequency Audit" "FreqPrioNR"
             "NR nodes with RATFreqPrioId = 'fwa' in N77 FreqPrioNR"
             (VInt (Py.len fwa_nodes)) (Py.join ", " fwa_nodes) ;;
           let mask_publicsafety w := String.eqb (role w) "publicsafety" in
           let publicsafety_nodes :=
             Py.sorted (unique (map node (filter mask_publicsafety n77_work))) in
           add_row "NR Frequency Audit" "FreqPrioNR"
             "NR nodes with RATFreqPrioId = 'publicsafety' in N77 FreqPrioNR"
             (VInt (Py.len publicsafety_nodes)) (Py.join ", " publicsafety_nodes) ;;
           let mask_other w := negb (mask_fwa w || mask_publicsafety w) in
           let other_nodes := Py.sorted (unique (map node (filter mask_other n77_work))) in
           add_row "NR Frequency Inconsistencies" "FreqPrioNR"
             "NR nodes with RATFreqPrioId different from 'fwa'/'publicsafety' in N77 FreqPrioNR"
             (VInt (Py.len other_nodes)) (Py.join ", " other_nodes)
         else
           add_row "NR Frequency Audit" "FreqPrioNR"
             "FreqPrioNR table has no N77 rows (based on FreqPrioNRId)" (VInt 0) ""
       | _, _, _ =>
         add_row "NR Frequency Audit" "FreqPrioNR"
           "FreqPrioNR table present but NodeId/FreqPrioNRId/RATFreqPrioId missing"
           (VStr "N/A") ""
       end
     | None =>
       add_row "NR Frequency Audit" "FreqPrioNR"
         "FreqPrioNR table" (VStr "Table not found or empty") ""
     end)
    (fun ex =>
       add_row "NR Frequency Audit" "FreqPrioNR"
         "Error while checking FreqPrioNR" (VStr (Py.fstr ["ERROR: "; exn_text ex])) "").

(* ---------------------- GUtranSyncSignalFrequency ---------------------- *)

Definition process_gu_sync_signal_freq : Chk unit :=
  try_except
    (present <- not_none_and_not_empty df_gu_sync_signal_freq ;;
     match present with
     | Some df =>
       let node_col := resolve_column_case_insensitive df ["NodeId"] in
       let arfcn_col := resolve_column_case_insensitive df ["arfcn"; "arfcnDL"] in
       match as_label node_col, as_label arfcn_col with
       | Some node_col, Some arfcn_col =>
         let work := node_value_pairs df node_col arfcn_col in
         let all_nodes_with_freq :=
           Py.sorted (unique (map fst (filter (fun nv => has_value (snd nv)) work))) in
         add_row "LTE Frequency Audit" "GUtranSyncSignalFrequency"
           "LTE nodes with GUtranSyncSignalFrequency defined:"
           (VInt (Py.len all_nodes_with_freq)) (Py.join ", " all_nodes_with_freq) ;;
         let grouped := groupby work in
         let old_nodes := nodes_where (Py.any is_old) grouped in
         add_row "LTE Frequency Audit" "GUtranSyncSignalFrequency"
           (Py.fstr ["LTE nodes with the old ARFCN ("; str old_arfcn;
                     ") in GUtranSyncSignalFrequency"])
           (VInt (Py.len old_nodes)) (Py.join ", " old_nodes) ;;
         let new_nodes := nodes_where (Py.any is_new) grouped in
         add_row "LTE Frequency Audit" "GUtranSyncSignalFrequency"
           (Py.fstr ["LTE nodes with the new ARFCN ("; str new_arfcn;
                     ") in GUtranSyncSignalFrequency"])
           (VInt (Py.len new_nodes)) (Py.join ", " new_nodes) ;;
         let old_set := Py.set_of String.eqb old_nodes in
         let new_set := Py.set_of String.eqb new_nodes in
         let nodes_old_and_new := sorted_and old_set new_set in
         add_row "LTE Frequency Audit" "GUtranSyncSignalFrequency"
           (Py.fstr ["LTE nodes with both, the old ARFCN ("; str old_arfcn;
                     ") and the new ARFCN ("; str new_arfcn;
                     ") in GUtranSyncSignalFrequency"])
           (VInt (Py.len nodes_old_and_new)) (Py.join ", " nodes_old_and_new) ;;
         let nodes_old_without_new := sorted_sub old_set new_set in
         add_row "LTE Frequency Inconsistences" "GUtranSyncSignalFrequency"
           (Py.fstr ["LTE nodes with the old ARFCN ("; str old_arfcn;
                     ") but without the new ARFCN ("; str new_arfcn;
                     ") in GUtranSyncSignalFrequency"])
           (VInt (Py.len nodes_old_without_new)) (Py.join ", " nodes_old_without_new) ;;
         let not_old_not_new_nodes := nodes_where series_only_not_old_not_new grouped in
         add_row "LTE Frequency Inconsistences" "GUtranSyncSignalFrequency"
           (Py.fstr ["LTE nodes with the ARFCN not in ("; str old_arfcn; ", ";
                     str new_arfcn; ") in GUtranSyncSignalFrequency"])
           (VInt (Py.len not_old_not_new_nodes)) (Py.join ", " not_old_not_new_nodes)
       | _, _ =>
         add_row "LTE Frequency Audit" "GUtranSyncSignalFrequency"
           "GUtranSyncSignalFrequency table present but required columns missing"
           (VStr "N/A") ""
       end
     | None =>
       add_row "LTE Frequency Audit" "GUtranSyncSignalFrequency"
         "GUtranSyncSignalFrequency table" (VStr "Table not found or empty") ""
     end)
    (fun ex =>
       add_row "LTE Frequency Audit" "GUtranSyncSignalFrequency"
         "Error while checking GUtranSyncSignalFrequency"
         (VStr (Py.fstr ["ERROR: "; exn_text ex])) "").

(* -------------------------- GUtranFreqRelation ------------------------- *)

Definition process_gu_freq_rel : Chk unit :=
  try_except
    (present <- not_none_and_not_empty df_gu_freq_rel ;;
     match present with
     | Some df =>
       let node_col := resolve_column_case_insensitive df ["NodeId"] in
       let arfcn_col := resolve_column_case_insensitive df
                          ["GUtranFreqRelationId"; "gUtranFreqRelationId"] in
       match as_label node_col, as_label arfcn_col with
       | Some node_col, Some arfcn_col =>
         let work := node_value_pairs df node_col arfcn_col in
         let grouped := groupby work in
         let old_nodes := nodes_where (Py.any is_old) grouped in
         add_row "LTE Frequency Audit" "GUtranFreqRelation"
           (Py.fstr ["LTE nodes with the old ARFCN ("; str old_arfcn;
                     ") in GUtranFreqRelation"])
           (VInt (Py.len old_nodes)) (Py.join ", " old_nodes) ;;
         let new_nodes := nodes_where (Py.any is_new) grouped in
         add_row "LTE Frequency Audit" "GUtranFreqRelation"
           (Py.fstr ["LTE nodes with the new ARFCN ("; str new_arfcn;
                     ") in GUtranFreqRelation"])
           (VInt (Py.len new_nodes)) (Py.join ", " new_nodes) ;;
         let old_set := Py.set_of String.eqb old_nodes in
         let new_set := Py.set_of String.eqb new_nodes in
         let nodes_old_and_new := sorted_and old_set new_set in
         add_row "LTE Frequency Audit" "GUtranFreqRelation"
           (Py.fstr ["LTE nodes with both, the old ARFCN ("; str old_arfcn;
                     ") and the new ARFCN ("; str new_arfcn; ") in GUtranFreqRelation"])
           (VInt (Py.len nodes_old_and_new)) (Py.join ", " nodes_old_and_new) ;;
         let nodes_old_without_new := sorted_sub old_set new_set in
         add_row "LTE Frequency Inconsistences" "GUtranFreqRelation"
           (Py.fstr ["LTE nodes with the old ARFCN ("; str old_arfcn;
                     ") but without the new ARFCN ("; str new_arfcn;
                     ") in GUtranFreqRelation"])
           (VInt (Py.len nodes_old_without_new)) (Py.join ", " nodes_old_without_new) ;;
         let not_old_not_new_nodes := nodes_where series_only_not_old_not_new grouped in
         add_row "LTE Frequency Inconsistences" "GUtranFreqRelation"
           (Py.fstr ["LTE nodes with the ARFCN not in ("; str old_arfcn; ", ";
                     str new_arfcn; ") in GUtranFreqRelation"])
           (VInt (Py.len not_old_not_new_nodes)) (Py.join ", " not_old_not_new_nodes) ;;
         let cell_col_gu := resolve_column_case_insensitive df
                              ["EUtranCellFDDId"; "EUtranCellId"; "CellId"; "GUCellId"] in
         let expected_old_rel_id := Py.fstr [str old_arfcn; "-30-20-0-1"] in
         let expected_new_rel_id := Py.fstr [str new_arfcn; "-30-20-0-1"] in
         match as_label cell_col_gu with
         | Some cell_col_gu =>
           let full :=
             astype_str_col arfcn_col
               (astype_str_col cell_col_gu (astype_str_col node_col df)) in
           let mask_old_rel r := cell_is_str (get r arfcn_col) expected_old_rel_id in
           let mask_new_rel r := cell_is_str (get r arfcn_col) expected_new_rel_id in
           let cells_with_old :=
             Py.set_of String.eqb (map astype_str (getitem (loc mask_old_rel full) cell_col_gu)) in
           let cells_with_new :=
             Py.set_of String.eqb (map astype_str (getitem (loc mask_new_rel full) cell_col_gu)) in
           let cells_both := sorted_and cells_with_old cells_with_new in
           let cells_old_without_new := sorted_sub cells_with_old cells_with_new in
           add_row "LTE Frequency Audit" "GUtranFreqRelation"
             (Py.fstr ["LTE cells with GUtranFreqRelationId "; expected_old_rel_id;
                       " and "; expected_new_rel_id; " in GUtranFreqRelation"])
             (VInt (Py.len cells_both)) (Py.join ", " cells_both) ;;
           add_row "LTE Frequency Inconsistences" "GUtranFreqRelation"
             (Py.fstr ["LTE cells with GUtranFreqRelationId "; expected_old_rel_id;
                       " but without "; expected_new_rel_id; " in GUtranFreqRelation"])
             (VInt (Py.len cells_old_without_new)) (Py.join ", " cells_old_without_new) ;;
           let cols_to_ignore :=
             ignored_columns arfcn_col
               ["gutranfreqrelationid"; "gutransyncsignalfrequencyref"] full in
           let bad_cells_params :=
             filter (params_differ cols_to_ignore cell_col_gu mask_old_rel mask_new_rel full)
                    cells_both in
           let bad_cells_params :=
             Py.sorted (Py.iter hash (Py.set_of String.eqb bad_cells_params)) in
           add_row "LTE Frequency Inconsistences" "GUtranFreqRelation"
             (Py.fstr ["LTE cells with mismatching params between GUtranFreqRelationId ";
                       expected_old_rel_id; " and "; expected_new_rel_id;
                       " in GUtranFreqRelation"])
             (VInt (Py.len bad_cells_params)) (Py.join ", " bad_cells_params)
         | None =>
           add_row "LTE Frequency Audit" "GUtranFreqRelation"
             "GUtranFreqRelation cell-level check skipped (EUtranCellFDDId/EUtranCellId/CellId/GUCellId missing)"
             (VStr "N/A") ""
         end
       | _, _ =>
         add_row "LTE Frequency Audit" "GUtranFreqRelation"
           "GUtranFreqRelation table present but ARFCN/NodeId missing" (VStr "N/A") ""
       end
     | None =>
       add_row "LTE Frequency Audit" "GUtranFreqRelation"
         "GUtranFreqRelation table" (VStr "Table not found or empty") ""
     end)
    (fun ex =>
       add_row "LTE Frequency Audit" "GUtranFreqRelation"
         "Error while checking GUtranFreqRelation"
         (VStr (Py.fstr ["ERROR: "; exn_text ex])) "").

(* --------------------------- EndcDistrProfile -------------------------- *)

Definition process_endc_distr_profile : Chk unit :=
  try_except
    (present <- not_none_and_not_empty df_endc_distr_profile ;;
     match present with
     | Some df =>
       let node_col_edp := resolve_column_case_insensitive df ["NodeId"] in
       let ref_col := resolve_column_case_insensitive df ["gUtranFreqRef"] in
       match as_label node_col_edp, as_label ref_col with
       | Some node_col_edp, Some ref_col =>
         (* a line of [work]: the node and the set read from its reference *)
         let work :=
           map (fun nr => (astype_str (fst nr), extract_sync_frequencies (astype_str (snd nr))))
               (getitem2 df node_col_edp ref_col) in
         let freq_set (w : string * list string) := snd w in
         let expected_old := str old_arfcn in
         let expected_new := str new_arfcn in
         let expected_n77b := str n77b_ssb in
         let contains (x : string) (s : list string) := Py.mem String.eqb x s in
         let mask_old_pair w :=
           contains expected_old (freq_set w) && contains expected_n77b (freq_set w) in
         let old_nodes := Py.sorted (unique (map fst (filter mask_old_pair work))) in
         add_row "EndcDistrProfile Audit" "EndcDistrProfile"
           (Py.fstr ["Nodes with gUtranFreqRef containing "; str old_arfcn; " and ";
                     str n77b_ssb; " in EndcDistrProfile"])
           (VInt (Py.len old_nodes)) (Py.join ", " old_nodes) ;;
         let mask_new_pair w :=
           contains expected_new (freq_set w) && contains expected_n77b (freq_set w) in
         let new_nodes := Py.sorted (unique (map fst (filter mask_new_pair work))) in
         add_row "EndcDistrProfile Audit" "EndcDistrProfile"
           (Py.fstr ["Nodes with gUtranFreqRef containing "; str new_arfcn; " and ";
                     str n77b_ssb; " in EndcDistrProfile"])
           (VInt (Py.len new_nodes)) (Py.join ", " new_nodes) ;;
         let mask_inconsistent w :=
           (negb (contains expected_old (freq_set w))
            && negb (contains expected_new (freq_set w)))
           || negb (contains expected_n77b (freq_set w)) in
         let bad_nodes := Py.sorted (unique (map fst (filter mask_inconsistent work))) in
         add_row "EndcDistrProfile Inconsistencies" "EndcDistrProfile"
           (Py.fstr ["Nodes with gUtranFreqRef not containing ("; str old_arfcn; " or ";
                     str new_arfcn; ") together with "; str n77b_ssb; " in EndcDistrProfile"])
           (VInt (Py.len bad_nodes)) (Py.join ", " bad_nodes)
       | _, _ =>
         add_row "EndcDistrProfile Audit" "EndcDistrProfile"
           "EndcDistrProfile table present but NodeId/gUtranFreqRef missing" (VStr "N/A") ""
       end
     | None =>
       add_row "EndcDistrProfile Audit" "EndcDistrProfile"
         "EndcDistrProfile table" (VStr "Table not found or empty") ""
     end)
    (fun ex =>
       add_row "EndcDistrProfile Audit" "EndcDistrProfile"
         "Error while checking EndcDistrProfile gUtranFreqRef"
         (VStr (Py.fstr ["ERROR: "; exn_text ex])) "").

(* ------------------------------ Cardinality ---------------------------- *)

Definition str_of_nat (n : nat) : string := Py.str_of_Z (Z.of_nat n).

(** [int(counts.max()) if not counts.empty else 0]. *)
Definition max_count_of {A} (counts : list (A * nat)) : nat :=
  if is_nil counts then 0%nat else counts_max counts.

(** [counts[counts >= limit]], replaced by [counts[counts == max_count]]
    when it is empty and [max_count > 0]. *)
Definition at_limit_or_above {A} (limit max_count : nat) (counts : list (A * nat))
  : list (A * nat) :=
  let above := filter (fun kc => Nat.leb limit (snd kc)) counts in
  if is_nil above && Nat.ltb 0 max_count
  then filter (fun kc => Nat.eqb (snd kc) max_count) counts
  else above.

(** [counts[counts == limit]]. *)
Definition at_limit {A} (limit : nat) (counts : list (A * nat)) : list (A * nat) :=
  filter (fun kc => Nat.eqb (snd kc) limit) counts.

(** ["; ".join(f"{idx}: {cnt}" for idx, cnt in selected.items())]. *)
Definition show_counts {A} (show : A -> string) (selected : list (A * nat)) : string :=
  Py.join "; " (map (fun kc => Py.fstr [show (fst kc); ": "; str_of_nat (snd kc)]) selected).

(** Max 16 NRFreqRelation per NR cell. *)
Definition cardinality_nr_freq_rel : Chk unit :=
  try_except
    (present <- not_none_and_not_empty df_nr_freq_rel ;;
     match present with
     | Some df =>
       let cell_col := resolve_column_case_insensitive df
                         ["NRCellCUId"; "NRCellId"; "CellId"] in
       match as_label cell_col with
       | Some cell_col =>
         let counts := value_counts cell_eqb (getitem df cell_col) in
         let max_count := max_count_of counts in
         let limit := 16%nat in
         let extra_audit := show_counts astype_str (at_limit_or_above limit max_count counts) in
         add_row "Cardinality Audit" "Cardinality"
           "Max NRFreqRelation per NR cell (limit 16)"
           (VInt (Z.of_nat max_count)) extra_audit ;;
         let extra_incons := show_counts astype_str (at_limit limit counts) in
         add_row "Cardinality Inconsistencies" "Cardinality"
           "NR cells with NRFreqRelation count at limit 16"
           (VInt (Py.len (at_limit limit counts))) extra_incons
       | None =>
         add_row "Cardinality Audit" "Cardinality"
           "NRFreqRelation per cell (required cell column missing)" (VStr "N/A") ""
       end
     | None =>
       add_row "Cardinality Audit" "Cardinality"
         "NRFreqRelation per cell" (VStr "Table not found or empty") ""
     end)
    (fun ex =>
       add_row "Cardinality Audit" "Cardinality"
         "Error while checking NRFreqRelation cardinality"
         (VStr (Py.fstr ["ERROR: "; exn_text ex])) "").

(** Max 64 NRFrequency per node. *)
Definition cardinality_nr_freq : Chk unit :=
  try_except
    (present <- not_none_and_not_empty df_nr_freq ;;
     match present with
     | Some df =>
       let node_col := resolve_column_case_insensitive df ["NodeId"] in
       match as_label node_col with
       | Some node_col =>
         let counts := value_counts String.eqb (map astype_str (getitem df node_col)) in
         let max_count := max_count_of counts in
         let limit := 64%nat in
         let extra_audit :=
           show_counts (fun s => s) (at_limit_or_above limit max_count counts) in
         add_row "Cardinality Audit" "Cardinality"
           "Max NRFrequency definitions per node (limit 64)"
           (VInt (Z.of_nat max_count)) extra_audit ;;
         let extra_incons := show_counts (fun s => s) (at_limit limit counts) in
         add_row "Cardinality Inconsistencies" "Cardinality"
           "NR nodes with NRFrequency definitions at limit 64"
           (VInt (Py.len (at_limit limit counts))) extra_incons
       | None =>
         add_row "Cardinality Audit" "Cardinality"
           "NRFrequency per node (NodeId missing)" (VStr "N/A") ""
       end
     | None =>
       add_row "Cardinality Audit" "Cardinality"
         "NRFrequency per node" (VStr "Table not found or empty") ""
     end)
    (fun ex =>
       add_row "Cardinality Audit" "Cardinality"
         "Error while checking NRFrequency cardinality"
         (VStr (Py.fstr ["ERROR: "; exn_text ex])) "").

(** Max 16 GUtranFreqRelation per LTE cell. *)
Definition cardinality_gu_freq_rel : Chk unit :=
  try_except
    (present <- not_none_and_not_empty df_gu_freq_rel ;;
     match present with
     | Some df =>
       let cell_col_gu := resolve_column_case_insensitive df
                            ["EUtranCellFDDId"; "EUtranCellId"; "CellId"; "GUCellId"] in
       match as_label cell_col_gu with
       | Some cell_col_gu =>
         let counts := value_counts cell_eqb (getitem df cell_col_gu) in
         let max_count := max_count_of counts in
         let limit := 16%nat in
         let extra_audit := show_counts astype_str (at_limit_or_above limit max_count counts) in
         add_row "Cardinality Audit" "Cardinality"
           "Max GUtranFreqRelation per LTE cell (limit 16)"
           (VInt (Z.of_nat max_count)) extra_audit ;;
         let extra_incons := show_counts astype_str (at_limit limit counts) in
         add_row "Cardinality Inconsistencies" "Cardinality"
           "LTE cells with GUtranFreqRelation count at limit 16"
           (VInt (Py.len (at_limit limit counts))) extra_incons
       | None =>
         add_row "Cardinality Audit" "Cardinality"
           "GUtranFreqRelation per LTE cell (required cell column missing)" (VStr "N/A") ""
       end
     | None =>
       add_row "Cardinality Audit" "Cardinality"
         "GUtranFreqRelation per LTE cell" (VStr "Table not found or empty") ""
     end)
    (fun ex =>
       add_row "Cardinality Audit" "Cardinality"
         "Error while checking GUtranFreqRelation cardinality"
         (VStr (Py.fstr ["ERROR: "; exn_text ex])) "").

(** Max 24 GUtranSyncSignalFrequency per node. *)
Definition cardinality_gu_sync_signal_freq : Chk unit :=
  try_except
    (present <- not_none_and_not_empty df_gu_sync_signal_freq ;;
     match present with
     | Some df =>
       let node_col := resolve_column_case_insensitive df ["NodeId"] in
       match as_label node_col with
       | Some node_col =>
         let counts := value_counts String.eqb (map astype_str (getitem df node_col)) in
         let max_count := max_count_of counts in
         let limit := 24%nat in
         let extra_audit :=
           show_counts (fun s => s) (at_limit_or_above limit max_count counts) in
         add_row "Cardinality Audit" "Cardinality"
           "Max GUtranSyncSignalFrequency definitions per node (limit 24)"
           (VInt (Z.of_nat max_count)) extra_audit ;;
         let extra_incons := show_counts (fun s => s) (at_limit limit counts) in
         add_row "Cardinality Inconsistencies" "Cardinality"
           "LTE nodes with GUtranSyncSignalFrequency definitions at limit 24"
           (VInt (Py.len (at_limit limit counts))) extra_incons
       | None =>
         add_row "Cardinality Audit" "Cardinality"
           "GUtranSyncSignalFrequency per node (NodeId missing)" (VStr "N/A") ""
       end
     | None =>
       add_row "Cardinality Audit" "Cardinality"
         "GUtranSyncSignalFrequency per node" (VStr "Table not found or empty") ""
     end)
    (fun ex =>
       add_row "Cardinality Audit" "Cardinality"
         "Error while checking GUtranSyncSignalFrequency cardinality"
         (VStr (Py.fstr ["ERROR: "; exn_text ex])) "").

(** The four blocks of [process_cardinalities], each with its own [try]. *)
Definition process_cardinalities : Chk unit :=
  cardinality_nr_freq_rel ;;
  cardinality_nr_freq ;;
  cardinality_gu_freq_rel ;;
  cardinality_gu_sync_signal_freq.

(* --------------------------------- main -------------------------------- *)

Definition desired_order : list (string * string) :=
  [ ("NR Frequency Audit", "NRFrequency");
    ("NR Frequency Audit", "NRFreqRelation");
    ("NR Frequency Audit", "NRSectorCarrier");
    ("NR Frequency Audit", "NRCellDU");
    ("NR Frequency Audit", "FreqPrioNR");
    ("NR Frequency Inconsistencies", "NRFrequency");
    ("NR Frequency Inconsistencies", "NRFreqRelation");
    ("NR Frequency Inconsistencies", "NRSectorCarrier");
    ("NR Frequency Inconsistencies", "FreqPrioNR");
    ("LTE Frequency Audit", "GUtranSyncSignalFrequency");
    ("LTE Frequency Audit", "GUtranFreqRelation");
    ("LTE Frequency Inconsistences", "GUtranSyncSignalFrequency");
    ("LTE Frequency Inconsistences", "GUtranFreqRelation");
    ("EndcDistrProfile Audit", "EndcDistrProfile");
    ("EndcDistrProfile Inconsistencies", "EndcDistrProfile");
    ("Cardinality Audit", "Cardinality");
    ("Cardinality Inconsistencies", "Cardinality") ].

(** [enumerate(items)], counting from [start]. *)
Fixpoint enumerate {A} (start : nat) (items : list A) : list (nat * A) :=
  match items with
  | [] => []
  | x :: rest => (start, x) :: enumerate (S start) rest
  end.

(** [{key: idx for idx, key in pairs}.get(key)]: of two entries with the
    same key the later one counts. *)
Fixpoint dict_get (pairs : list (nat * (string * string))) (key : string * string)
  : option nat :=
  match pairs with
  | [] => None
  | (idx, k) :: rest =>
      match dict_get rest key with
      | Some later => Some later
      | None => if Py.pair_eqb k key then Some idx else None
      end
  end.

Definition order_map : list (nat * (string * string)) := enumerate 0 desired_order.

Definition order_row (r : Row) : nat :=
  let key := (Category r, SubCategory r) in
  match dict_get order_map key with
  | Some idx => idx
  | None => (List.length desired_order + 100)%nat
  end.

Definition info_row : Row :=
  mkRow "Info" "Info" "SummaryAudit" (VStr "No data available") "".

(** What [main] does with [rows] once the checkers have run: the fallback
    row, then the ordering of the frame built from the rows (every row
    carries the three columns the guard asks for). *)
Definition with_fallback (rows : list Row) : list Row :=
  if is_nil rows then rows ++ [info_row] else rows.

Definition assemble (rows : list Row) : Report :=
  let rows := with_fallback rows in
  if negb (is_nil rows) then sort_values_mergesort order_row rows else rows.

(** The place of a pair in the priority list, if it has one. *)
Fixpoint index_of (key : string * string) (l : list (string * string)) : option nat :=
  match l with
  | [] => None
  | k :: rest => if Py.pair_eqb k key then Some 0%nat else option_map S (index_of key rest)
  end.

Definition bucket_index (r : Row) : option nat :=
  index_of (Category r, SubCategory r) desired_order.

(** The nine calls of [main], in its order. *)
Definition run_checkers : Chk unit :=
  process_nr_freq ;;
  process_nr_freq_rel ;;
  process_nr_cell_du ;;
  process_nr_sector_carrier ;;
  process_freq_prio_nr ;;
  process_gu_sync_signal_freq ;;
  process_gu_freq_rel ;;
  process_endc_distr_profile ;;
  process_cardinalities.

(** [main()]: the report, or the exception that no checker caught. *)
Definition main : Report + Exn :=
  match run_checkers with
  | (rows, inl _) => inl (assemble rows)
  | (_, inr ex) => inr ex
  end.

End Audit.

Arguments main {utils} hash df_nr_cell_du df_nr_freq df_nr_freq_rel
  df_freq_prio_nr df_gu_sync_signal_freq df_gu_freq_rel df_nr_sector_carrier
  df_endc_distr_profile old_arfcn new_arfcn n77b_ssb allowed_n77_arfcn_set.

(** [build_summary_audit]: the two sets are computed first, outside every
    [try]; an exception raised there leaves the function.  Then come the
    definitions of the checkers and [return main()].  No checker calls
    [is_allowed_n77_ssb], the one function that reads the first set. *)
Definition build_summary_audit {utils : FreqUtils} (hash : Py.SetOrder)
  (df_nr_cell_du df_nr_freq df_nr_freq_rel df_freq_prio_nr
   df_gu_sync_signal_freq df_gu_freq_rel df_nr_sector_carrier
   df_endc_distr_profile : Table)
  (old_arfcn new_arfcn n77b_ssb : Z) (allowed_n77_ssb allowed_n77_arfcn : Allowed)
  : Report + Exn :=
  match int_set allowed_n77_ssb with
  | inr ex => inr ex
  | inl allowed_n77_ssb_set =>
      match int_set allowed_n77_arfcn with
      | inr ex => inr ex
      | inl allowed_n77_arfcn_set =>
          main hash df_nr_cell_du df_nr_freq df_nr_freq_rel df_freq_prio_nr
            df_gu_sync_signal_freq df_gu_freq_rel df_nr_sector_carrier
            df_endc_distr_profile old_arfcn new_arfcn n77b_ssb allowed_n77_arfcn_set
      end
  end.

(* ===================================================================== *)
(** ** An instance of the parameters *)
(* ===================================================================== *)

Module SpecUtils.

Definition is_digit (c : ascii) : bool :=
  let n := nat_of_ascii c in ((48 <=? n) && (n <=? 57))%nat.

(** The decimal digits a string starts with. *)
Fixpoint leading_digits (s : string) : string :=
  match s with
  | String c rest => if is_digit c then String c (leading_digits rest) else EmptyString
  | EmptyString => EmptyString
  end.

Definition int_of_digits (s : string) : option Z :=
  match s with
  | EmptyString => None
  | _ => option_map Z.of_uint (NilEmpty.uint_of_string s)
  end.

(** Modelled from the spec: [parse_int_frequency] is not among the sources.
    Section 4.1: numeric coercion of the value; of a composite string, the
    leading numeric token before the first separator; white space trimmed;
    nothing on any failure. *)
Definition parse_int_frequency (v : Cell) : option Z :=
  match v with
  | CInt z => Some z
  | CStr s => int_of_digits (leading_digits (Py.strip s))
  | CNaN => None
  end.

(** Modelled from the spec: [is_n77_from_string] is not among the sources.
    Section 4.1: true iff the parsed frequency is present and lies in
    [646600, 660000]. *)
Definition is_n77_from_string (v : Cell) : bool :=
  match parse_int_frequency v with
  | Some f => ((646600 <=? f) && (f <=? 660000))%Z
  | None => false
  end.

(** The maximal runs of decimal digits of a string, [cur] being the run
    under way. *)
Fixpoint digit_runs (cur : string) (s : string) : list string :=
  match s with
  | EmptyString => match cur with EmptyString => [] | _ => [cur] end
  | String c rest =>
      if is_digit c then digit_runs (cur ++ String c EmptyString)%string rest
      else match cur with
           | EmptyString => digit_runs EmptyString rest
           | _ => cur :: digit_runs EmptyString rest
           end
  end.

(** Modelled from the spec: [extract_sync_frequencies] is not among the
    sources.  Section 4.1: the numeric substrings of a reference string, as
    a set of strings in their textual form.  The spec leaves the shape of a
    frequency token open; here a token is a maximal run of digits. *)
Definition extract_sync_frequencies (s : string) : list string :=
  Py.set_of String.eqb (digit_runs EmptyString s).

Definition utils : FreqUtils :=
  mkFreqUtils parse_int_frequency is_n77_from_string extract_sync_frequencies.

(** Two iteration orders for sets: the order of insertion and its reverse. *)
Definition insertion_order : Py.SetOrder :=
  Py.mkSetOrder (fun A s => s) (fun A s => Permutation_refl s).

Definition reverse_order : Py.SetOrder :=
  Py.mkSetOrder (fun A s => rev s) (fun A s => Permutation_sym (Permutation_rev s)).

End SpecUtils.

(* ===================================================================== *)
(** ** Definitions used to state the properties *)
(* ===================================================================== *)

(** A test for [NoDup] on pairs of strings. *)
Fixpoint distinct_pairs (l : list (string * string)) : bool :=
  match l with
  | [] => true
  | k :: rest => negb (Py.mem Py.pair_eqb k rest) && distinct_pairs rest
  end.

(** Do the row and [p] name the same place of the priority list? *)
Definition same_bucket (p : option nat) (r : Row) : bool :=
  match bucket_index r, p with
  | Some i, Some j => Nat.eqb i j
  | None, None => true
  | _, _ => false
  end.

(** A table that is [None] or an empty frame. *)
Definition absent_or_empty (t : Table) : bool :=
  match t with
  | TNone => true
  | TObject _ => false
  | TFrame df => empty df
  end.

(** The row a checker appends for a table it does not find. *)
Definition not_found_row (category subcategory metric : string) : Row :=
  mkRow category subcategory metric (VStr "Table not found or empty") "".

Module Scenario.

(** An NRCellDU table with its header and no line. *)
Definition empty_nr_cell_du : Table :=
  TFrame (frame ["NodeId"; "ssbFrequency"] []).

(** An NRFrequency table whose frequencies all lie outside the N77 band. *)
Definition nr_freq_without_n77 : DataFrame :=
  frame ["NodeId"; "arfcnValueNRDl"]
        [ [CStr "N1"; CInt 430090]; [CStr "N2"; CStr "2079427"] ].

(** The NRFreqRelation table of the scenario of the specification: node N1
    with the relations 652000 (old) and 655000 (new). *)
Definition nr_freq_rel_two_lines : DataFrame :=
  frame ["NodeId"; "NRFreqRelationId"]
        [ [CStr "N1"; CStr "652000"]; [CStr "N1"; CStr "655000"] ].

(** An NRFreqRelation table in which the cell C17 has 17 lines, the cell
    C16 has 16 and the cell C2 has 2. *)
Definition nr_freq_rel_crowded : DataFrame :=
  frame ["NodeId"; "NRCellCUId"; "NRFreqRelationId"]
        (repeat [CStr "N1"; CStr "C17"; CInt 652000] 17
         ++ repeat [CStr "N1"; CStr "C16"; CInt 652000] 16
         ++ repeat [CStr "N1"; CStr "C2"; CInt 652000] 2).

(** The EndcDistrProfile table of the scenario of the specification: one
    line whose reference holds the new ARFCN 648672 and the N77B SSB 660001. *)
Definition endc_one_profile : DataFrame :=
  frame ["NodeId"; "gUtranFreqRef"]
        [ [CStr "N1"; CStr "GUtranSyncSignalFrequency=648672-30,GUtranSyncSignalFrequency=660001-30"] ].

(** The same table with a second line for the same node, whose reference is
    missing. *)
Definition endc_two_profiles : DataFrame :=
  frame ["NodeId"; "gUtranFreqRef"]
        [ [CStr "N1"; CStr "GUtranSyncSignalFrequency=648672-30,GUtranSyncSignalFrequency=660001-30"];
          [CStr "N1"; CNaN] ].

(** A GUtranFreqRelation table: the cell C1 is defined on the nodes N1 and
    N2, under the old relation on N1 then N2, under the new one on N2 then
    N1, with the same parameter on each node. *)
Definition gu_freq_rel_two_nodes : DataFrame :=
  frame ["NodeId"; "EUtranCellFDDId"; "GUtranFreqRelationId"; "cellReselectionPriority"]
        [ [CStr "N1"; CStr "C1"; CStr "652000-30-20-0-1"; CInt 5];
          [CStr "N2"; CStr "C1"; CStr "652000-30-20-0-1"; CInt 6];
          [CStr "N2"; CStr "C1"; CStr "655000-30-20-0-1"; CInt 6];
          [CStr "N1"; CStr "C1"; CStr "655000-30-20-0-1"; CInt 5] ].

(** An NRFreqRelation table: the cell C1 has the old and the new relation,
    with the same parameter. *)
Definition nr_freq_rel_same_params : DataFrame :=
  frame ["NodeId"; "NRCellCUId"; "NRFreqRelationId"; "cellReselectionPriority"]
        [ [CStr "N1"; CStr "C1"; CStr "652000"; CInt 5];
          [CStr "N1"; CStr "C1"; CStr "655000"; CInt 5] ].

(** Five rows, two of them with a (Category, SubCategory) pair that the
    priority list does not have. *)
Definition unordered_rows : list Row :=
  [ mkRow "Zeta" "Z" "m1" (VInt 1) "";
    mkRow "Cardinality Audit" "Cardinality" "m2" (VInt 2) "";
    mkRow "Alpha" "A" "m3" (VInt 3) "";
    mkRow "NR Frequency Audit" "NRCellDU" "m4" (VInt 4) "";
    mkRow "Cardinality Audit" "Cardinality" "m5" (VInt 5) "" ].

(** An NRFrequency table: N1 has the old and the new ARFCN, N2 the old
    one only, N3 another N77 ARFCN, N4 an ARFCN outside the N77 band. *)
Definition nr_freq_mixed : DataFrame :=
  frame ["NodeId"; "arfcnValueNRDl"]
        [ [CStr "N2"; CInt 652000]; [CStr "N1"; CInt 652000]; [CStr "N1"; CInt 655000];
          [CStr "N3"; CStr "650000"]; [CStr "N4"; CInt 430090] ].

(** A GUtranSyncSignalFrequency table: N1 has the old and the new ARFCN, N2
    the old one only, N3 another ARFCN, N4 a value that is no frequency. *)
Definition gu_sync_mixed : DataFrame :=
  frame ["NodeId"; "arfcn"]
        [ [CStr "N2"; CInt 652000]; [CStr "N1"; CInt 652000]; [CStr "N1"; CInt 655000];
          [CStr "N3"; CInt 1850]; [CStr "N4"; CNaN] ].

(** An NRCellDU table whose node names carry white space: N1 has two N77
    lines, N2 one, N3 none. *)
Definition nr_cell_du_blanks : DataFrame :=
  frame ["NodeId"; "ssbFrequency"]
        [ [CStr " N2"; CInt 650006]; [CStr "N1 "; CInt 650006]; [CStr "N1"; CInt 653952];
          [CStr "N3"; CInt 430090] ].

(** An NRSectorCarrier table: N1 has an allowed and a forbidden N77 ARFCN,
    the forbidden one on two lines, N2 an allowed one, N3 an ARFCN outside
    the band. *)
Definition nr_sector_carrier_mixed : DataFrame :=
  frame ["NodeId"; "arfcnDL"]
        [ [CStr "N2"; CInt 650006]; [CStr "N1 "; CInt 651000]; [CStr "N1"; CInt 650006];
          [CStr " N1"; CInt 651000]; [CStr "N3"; CInt 430090] ].

(** A FreqPrioNR table: N1 is FWA, N2 public safety, N3 has no role and N4
    is not in the N77 band. *)
Definition freq_prio_mixed : DataFrame :=
  frame ["NodeId"; "FreqPrioNRId"; "RATFreqPrioId"]
        [ [CStr "N2"; CInt 650006; CStr "PublicSafety"]; [CStr "N1"; CInt 650006; CStr " FWA "];
          [CStr "N3"; CInt 650006; CNaN]; [CStr "N4"; CInt 430090; CStr "fwa"] ].

(** A table with lines and without a node column. *)
Definition without_node_column : DataFrame :=
  frame ["Site"; "arfcn"] [ [CStr "N1"; CInt 652000] ].

(** A table of three columns and two lines, with blanks and missing values. *)
Definition three_columns : DataFrame :=
  frame ["NodeId"; "Cell"; "Comment"]
        [ [CStr " N1 "; CInt 7; CNaN]; [CStr "N2"; CStr "nan"; CStr " ok"] ].

(** The header of the same table, without lines. *)
Definition three_columns_no_line : DataFrame :=
  frame ["NodeId"; "Cell"; "Comment"] [].

(** A table of measurements taken before and after a change, on several
    days; one date is not a date. *)
Definition pre_post : DataFrame :=
  frame ["Pre/Post"; "Date"; "Node"]
        [ [CStr "Pre"; CStr "2"; CStr "N1"]; [CStr "POST"; CStr "3"; CStr "N1"];
          [CStr "post"; CStr "5"; CStr "N2"]; [CStr "Post"; CStr "x"; CStr "N3"];
          [CStr "Post"; CStr "5"; CStr "N4"] ].

(** A reader of dates for this table, whose dates are written as the
    number of a day. *)
Definition day_number (c : Cell) : option Z :=
  match c with
  | CStr s => SpecUtils.int_of_digits s
  | _ => None
  end.

(** The no-break space U+00A0, in UTF-8. *)
Definition nbsp : string :=
  String (ascii_of_nat 194) (String (ascii_of_nat 160) EmptyString).

(** An NRCellDU table in which the name of the node N1 is once followed by
    a no-break space. *)
Definition nr_cell_du_nbsp : DataFrame :=
  frame ["NodeId"; "ssbFrequency"]
        [ [CStr "N1"; CInt 650006]; [CStr ("N1" ++ nbsp); CInt 653952] ].

(** A FreqPrioNR table whose role is followed by a no-break space. *)
Definition freq_prio_nbsp : DataFrame :=
  frame ["NodeId"; "FreqPrioNRId"; "RATFreqPrioId"]
        [ [CStr "N1"; CInt 650006; CStr ("FWA" ++ nbsp)] ].

End Scenario.

(** The lines of a table that a node-level check looks at: the node as a
    string and the value, for the lines whose value is classified as N77. *)
Definition n77_lines {utils : FreqUtils} (df : DataFrame) (node_col value_col : string)
  : list (string * Cell) :=
  filter (fun nv => is_n77_from_string (snd nv)) (node_value_pairs df node_col value_col).

(** What the two rows of a cardinality block say, for the values [ids] of
    the identifier column (one per line of the table), [count k] being the
    number of lines of the identifier [k]: the first row carries the largest
    count and lists, with their counts, the identifiers that reach [limit]
    or, when none does, the identifiers with the largest count; the second
    lists the identifiers whose count is [limit], and carries their number. *)
Definition cardinality_rows_spec {A} (show : A -> string) (count : A -> nat)
  (ids : list A) (limit : nat) (audit_metric incons_metric : string)
  (rows : list Row) : Prop :=
  exists (max_count : nat) (offenders exact : list (A * nat)),
    rows = [ mkRow "Cardinality Audit" "Cardinality" audit_metric
               (VInt (Z.of_nat max_count)) (show_counts show offenders);
             mkRow "Cardinality Inconsistencies" "Cardinality" incons_metric
               (VInt (Py.len exact)) (show_counts show exact) ]
    /\ (exists k, In k ids /\ count k = max_count)
    /\ (forall k, In k ids -> count k <= max_count)
    /\ (forall k c, In (k, c) offenders <->
                    In k ids /\ c = count k
                    /\ (((exists k', In k' ids /\ limit <= count k') /\ limit <= c)
                        \/ ((forall k', In k' ids -> count k' < limit) /\ c = max_count)))
    /\ (forall k c, In (k, c) exact <-> In k ids /\ c = count k /\ c = limit)
    /\ NoDup (map fst offenders)
    /\ NoDup (map fst exact).

(** The lines of the EndcDistrProfile table as the checker reads them: the
    node as a string and the set of frequencies of the reference. *)
Definition endc_lines {utils : FreqUtils} (df : DataFrame) (node_col ref_col : string)
  : list (string * list string) :=
  map (fun nr => (astype_str (fst nr), extract_sync_frequencies (astype_str (snd nr))))
      (getitem2 df node_col ref_col).

(** The frame [full] of the LTE relation checker: the node, cell and
    relation columns turned into strings. *)
Definition gu_full (df : DataFrame) (node_col cell_col arfcn_col : string) : DataFrame :=
  astype_str_col arfcn_col (astype_str_col cell_col (astype_str_col node_col df)).

(** The lines of [full] of one cell and one relation identifier
    ([old_rows] and [new_rows] of the loop). *)
Definition gu_rows_of (full : DataFrame) (cell_col arfcn_col rel_id cell_id : string)
  : DataFrame :=
  loc (fun r => cell_is_str (get r arfcn_col) rel_id)
      (loc (fun r => String.eqb (astype_str (get r cell_col)) cell_id) full).

(** These lines without the ignored columns and without repeated lines,
    the columns in alphabetical order ([old_clean] and [new_clean]). *)
Definition gu_cleaned (hash : Py.SetOrder) (full : DataFrame)
  (cell_col arfcn_col rel_id cell_id : string) : DataFrame :=
  clean hash
    (ignored_columns arfcn_col ["gutranfreqrelationid"; "gutransyncsignalfrequencyref"] full)
    (gu_rows_of full cell_col arfcn_col rel_id cell_id).

(** The frame [full_n77] of the NR relation checker, with its helper column
    [_arfcn_int_]. *)
Definition nr_full {utils : FreqUtils} (df : DataFrame) (node_col cell_col arfcn_col : string)
  : DataFrame :=
  assign "_arfcn_int_" (fun r => cell_of_freq (parse_int_frequency (get r arfcn_col)))
    (loc (fun r => is_n77_from_string (get r arfcn_col))
         (astype_str_col cell_col (astype_str_col node_col df))).

Definition nr_rows_of (full : DataFrame) (cell_col : string) (freq : Z) (cell_id : string)
  : DataFrame :=
  loc (fun r => cell_is_int (get r "_arfcn_int_") freq)
      (loc (fun r => String.eqb (astype_str (get r cell_col)) cell_id) full).

Definition nr_cleaned (hash : Py.SetOrder) (full : DataFrame)
  (cell_col arfcn_col : string) (freq : Z) (cell_id : string) : DataFrame :=
  clean hash
    (ignored_columns arfcn_col ["nrfreqrelationid"; "nrfrequencyref"; "reservedby"] full)
    (nr_rows_of full cell_col freq cell_id).

(** ["<arfcn>-30-20-0-1"]. *)
Definition rel_id_of (arfcn : Z) : string := Py.fstr [str arfcn; "-30-20-0-1"].

(** All rows a computation appends carry a (Category, SubCategory) pair of
    the priority list. *)
Definition all_recognized {A} (m : Chk A) : Prop :=
  Forall (fun r => bucket_index r <> None) (appended m).

(** A computation that appends a row or is interrupted by an exception. *)
Definition appends_or_raises {A} (m : Chk A) : Prop :=
  appended m <> [] \/ exists ex, outcome m = inr ex.

(** A list of strings in strictly increasing order. *)
Definition ascending (l : list string) : Prop :=
  StronglySorted (fun a b => String.ltb a b = true) l.

(** What the node-level rows of a frequency checker list, for the lines
    (node, value) the checker groups by node: the nodes with an old value,
    the nodes with a new value, the nodes with both, the nodes with an old
    and no new value, and the nodes none of whose values is old or new. *)
Definition node_level_spec (old_test new_test : Cell -> bool)
  (lines : list (string * Cell))
  (old_nodes new_nodes both old_without_new neither : list string) : Prop :=
  (forall n, In n old_nodes <-> exists v, In (n, v) lines /\ old_test v = true)
  /\ (forall n, In n new_nodes <-> exists v, In (n, v) lines /\ new_test v = true)
  /\ (forall n, In n both <-> In n old_nodes /\ In n new_nodes)
  /\ (forall n, In n old_without_new <-> In n old_nodes /\ ~ In n new_nodes)
  /\ (forall n, In n neither <->
                In n (map fst lines) /\ ~ In n old_nodes /\ ~ In n new_nodes)
  /\ List.length both + List.length old_without_new = List.length old_nodes
  /\ ascending old_nodes /\ ascending new_nodes /\ ascending both
  /\ ascending old_without_new /\ ascending neither.

(** The lines of the NRCellDU and NRSectorCarrier tables as their checkers
    read them: the node as a string without the white space around it, and
    the value. *)
Definition stripped_lines (df : DataFrame) (node_col value_col : string)
  : list (string * Cell) :=
  map (fun nv => (Py.strip (astype_str (fst nv)), snd nv)) (getitem2 df node_col value_col).

(** The lines of the FreqPrioNR table as the checker reads them: the node
    without the white space around it, the frequency, and the role without
    white space around it and in lower case. *)
Definition freq_prio_lines (df : DataFrame) (node_col freq_col ratfreqprio_col : string)
  : list (string * Cell * string) :=
  map (fun r => (Py.strip (astype_str (get r node_col)),
                 get r freq_col,
                 Py.lower (Py.strip (astype_str (get r ratfreqprio_col)))))
      (records df).

(** The lines of [freq_prio_lines] whose frequency is classified as N77. *)
Definition n77_freq_prio_lines {utils : FreqUtils} (df : DataFrame)
  (node_col freq_col ratfreqprio_col : string) : list (string * Cell * string) :=
  filter (fun w => is_n77_from_string (snd (fst w)))
         (freq_prio_lines df node_col freq_col ratfreqprio_col).

(* ===================================================================== *)
(** ** [src/utils/utils_dataframe.py] *)
(* ===================================================================== *)

(** The list methods the column helpers use. *)
Module PyList.

(** [items.remove(x)]: the list without its first [x], nothing when [x] is
    not in the list (Python raises [ValueError]). *)
Fixpoint remove (x : string) (items : list string) : option (list string) :=
  match items with
  | [] => None
  | y :: rest =>
      if String.eqb y x then Some rest else option_map (cons y) (remove x rest)
  end.

(** [items.index(x)]: the place of the first [x], nothing when [x] is not in
    the list (Python raises [ValueError]). *)
Fixpoint index (x : string) (items : list string) : option nat :=
  match items with
  | [] => None
  | y :: rest => if String.eqb y x then Some 0%nat else option_map S (index x rest)
  end.

(** [items.insert(pos, x)] for [pos >= 0]: [x] comes in front of the element
    at place [pos], or at the end when the list is shorter. *)
Fixpoint insert (pos : nat) (x : string) (items : list string) : list string :=
  match pos, items with
  | O, _ => x :: items
  | S p, y :: rest => y :: insert p x rest
  | S _, [] => [x]
  end.

End PyList.

Module DataframeUtils.

(** The exception the helpers can raise: [ValueError], for a label that a
    list method does not find. *)
Inductive ValueError : Type :=
| not_in_list (label : string).

(** What [select_latest_by_date] can raise: [KeyError] for a column the
    frame does not have, [AttributeError] for the [.str] accessor on a
    column that holds numbers and no string. *)
Inductive Raised : Type :=
| KeyError (label : string)
| AttributeError.

(** [df[cols]] for a list of labels of the frame. *)
Definition select (cols : list string) (df : DataFrame) : DataFrame :=
  mkFrame cols (map (fun r => map (fun l => (l, get r l)) cols) (records df)).

(** The values [normalize_df] replaces by the empty string. *)
Definition blank_values : list string :=
  ["nan"; "NaN"; "None"; "none"; "NULL"; "null"].

(** [.replace({"nan": "", ...})] on one string: a full match is replaced. *)
Definition replace (s : string) : string :=
  if Py.mem String.eqb s blank_values then "" else s.

(** What [normalize_df] stores for a cell. *)
Definition normalize_cell (c : Cell) : Cell :=
  CStr (replace (Py.strip (astype_str c))).

Definition normalize_df (df : DataFrame) : DataFrame :=
  fold_left (fun out c => assign c (fun r => normalize_cell (get r c)) out)
            (columns df) df.

Definition ensure_column_before (df : option DataFrame) (col_to_move before_col : string)
  : option DataFrame + ValueError :=
  match df with
  | None => inl df
  | Some d =>
      if empty d then inl df
      else if Py.mem String.eqb col_to_move (columns d)
              && Py.mem String.eqb before_col (columns d)
      then
        match PyList.remove col_to_move (columns d) with
        | None => inr (not_in_list col_to_move)
        | Some cols =>
            match PyList.index before_col cols with
            | None => inr (not_in_list before_col)
            | Some insert_pos =>
                inl (Some (select (PyList.insert insert_pos col_to_move cols) d))
            end
        end
      else inl df
  end.

Definition ensure_column_after (df : option DataFrame) (col_to_move after_col : string)
  : option DataFrame + ValueError :=
  match df with
  | None => inl df
  | Some d =>
      if empty d then inl df
      else if Py.mem String.eqb col_to_move (columns d)
              && Py.mem String.eqb after_col (columns d)
      then
        match PyList.remove col_to_move (columns d) with
        | None => inr (not_in_list col_to_move)
        | Some cols =>
            match PyList.index after_col cols with
            | None => inr (not_in_list after_col)
            | Some found =>
                let insert_pos := (found + 1)%nat in
                inl (Some (select (PyList.insert insert_pos col_to_move cols) d))
            end
        end
      else inl df
  end.

Definition drop_columns (df : option DataFrame) (unwanted : list string)
  : option DataFrame :=
  match df with
  | None => df
  | Some d =>
      if empty d then df
      else Some (drop (filter (fun c => Py.mem String.eqb c (columns d)) unwanted) d)
  end.

(** [series.str] is refused on a column of object type whose values, the
    missing ones left aside, are all numbers. *)
Definition str_accessor_ok (cells : list Cell) : bool :=
  existsb (fun c => match c with CStr _ => true | _ => false end) cells
  || negb (existsb (fun c => match c with CInt _ => true | _ => false end) cells).

(** [series.str.lower() == text] on one cell: a cell that is no string
    compares unequal. *)
Definition str_lower_is (c : Cell) (text : string) : bool :=
  match c with
  | CStr s => String.eqb (Py.lower s) text
  | _ => false
  end.

(** [series.max()] on dates: missing dates are skipped, and the result is
    missing when there is no date. *)
Fixpoint series_max (dates : list (option Z)) : option Z :=
  match dates with
  | [] => None
  | d :: rest =>
      match d, series_max rest with
      | Some a, Some b => Some (Z.max a b)
      | Some a, None => Some a
      | None, m => m
      end
  end.

(** A date as a cell: the number of its day, or the missing value. *)
Definition date_cell (d : option Z) : Cell :=
  match d with
  | Some day => CInt day
  | None => CNaN
  end.

(** [cell == max_date] for a cell that holds a date: a missing date equals
    nothing, not even a missing date. *)
Definition date_is (c : Cell) (max_date : option Z) : bool :=
  match c, max_date with
  | CInt day, Some m => Z.eqb day m
  | _, _ => false
  end.

Section SelectLatest.

(** [pd.to_datetime(value, format="%Y-%m-%d", errors="coerce")] on one
    value: the day, or nothing when the value is not a date. *)
Variable to_datetime : Cell -> option Z.

Definition select_latest_by_date (df : DataFrame) (side_value : string)
  : DataFrame + Raised :=
  if negb (Py.mem String.eqb "Pre/Post" (columns df)) then inr (KeyError "Pre/Post")
  else if negb (str_accessor_ok (getitem df "Pre/Post")) then inr AttributeError
  else
    let subset :=
      loc (fun r => str_lower_is (get r "Pre/Post") (Py.lower side_value)) df in
    if empty subset then inl subset
    else if negb (Py.mem String.eqb "Date" (columns subset))
            || Py.all (fun c => Nat.eqb (String.length (astype_str c)) 0)
                      (getitem subset "Date")
    then inl subset
    else
      let subset :=
        assign "__Date_dt" (fun r => date_cell (to_datetime (get r "Date"))) subset in
      let max_date :=
        series_max (map (fun r => to_datetime (get r "Date")) (records subset)) in
      inl (drop ["__Date_dt"]
             (loc (fun r => date_is (get r "__Date_dt") max_date) subset)).

End SelectLatest.

End DataframeUtils.

(** The lines of a frame on one side (Pre or Post), and among them the
    lines of the day [day]. *)
Definition side_lines (df : DataFrame) (side_value : string) : list Record_ :=
  filter (fun r => DataframeUtils.str_lower_is (get r "Pre/Post") (Py.lower side_value))
         (records df).

Definition lines_of_day (to_datetime : Cell -> option Z) (df : DataFrame)
  (side_value : string) (day : Z) : list Record_ :=
  filter (fun r => match to_datetime (get r "Date") with
                   | Some d => Z.eqb d day
                   | None => false
                   end)
         (side_lines df side_value).

(** The text behind the white-space character a text starts with, when it
    starts with one. *)
Definition skip_space (s : string) : option string :=
  match s with
  | String a r1 =>
      if Py.isspace (String a EmptyString) then Some r1
      else
        match r1 with
        | String b r2 =>
            if Py.isspace (String a (String b EmptyString)) then Some r2
            else
              match r2 with
              | String c r3 =>
                  if Py.isspace (String a (String b (String c EmptyString)))
                  then Some r3 else None
              | EmptyString => None
              end
        | EmptyString => None
        end
  | EmptyString => None
  end.

(** A text that neither starts nor ends with a white-space character. *)
Definition no_space_around (s : string) : Prop :=
  forall ch rest : string,
    Py.isspace ch = true -> s <> (ch ++ rest)%string /\ s <> (rest ++ ch)%string.

(** A value for an allowed list whose items are integers, or [None]. *)
Definition integers (allowed : option (list Z)) : Allowed :=
  match allowed with
  | None => nothing
  | Some l => collection (map inl l)
  end.

(** The set [int_set] builds from such a value. *)
Definition set_of_integers (allowed : option (list Z)) : list Z :=
  match allowed with
  | None => []
  | Some l => Py.set_of Z.eqb l
  end.

(** What [int('abc')] raises. *)
Definition invalid_literal_abc : Exn :=
  mkExn "invalid literal for int() with base 10: 'abc'".

(* ===================================================================== *)
(** ** The definitions on small inputs *)
(* ===================================================================== *)

Example str_of_Z_samples :
  Py.str_of_Z 652000 = "652000" /\ Py.str_of_Z 0 = "0" /\ Py.str_of_Z (-7) = "-7".
Proof. repeat split; reflexivity. Qed.

Example strip_sample : Py.strip "  N1 " = "N1" /\ Py.lower "NodeId" = "nodeid".
Proof. split; reflexivity. Qed.

Example sorted_sample : Py.sorted ["b"; "a"; "c"; "B"] = ["B"; "a"; "b"; "c"].
Proof. reflexivity. Qed.

Example value_counts_sample :
  value_counts String.eqb ["a"; "b"; "a"; "c"; "b"; "a"] = [("a", 3%nat); ("b", 2%nat); ("c", 1%nat)]
  /\ value_counts String.eqb ["c"; "a"; "b"; "a"; "b"] = [("a", 2%nat); ("b", 2%nat); ("c", 1%nat)].
Proof. split; reflexivity. Qed.

Example groupby_sample :
  groupby [("N2", CInt 1); ("N1", CInt 2); ("N2", CInt 3)]
  = [("N1", [CInt 2]); ("N2", [CInt 1; CInt 3])].
Proof. reflexivity. Qed.

Example resolve_sample :
  resolve_column_case_insensitive (frame ["nodeid"; "ARFCNDL"] []) ["arfcn"; "arfcnDL"]
  = Some "ARFCNDL".
Proof. reflexivity. Qed.

Example parse_samples :
  SpecUtils.parse_int_frequency (CStr "646600") = Some 646600%Z
  /\ SpecUtils.parse_int_frequency (CStr " 652000-30-20-0-1") = Some 652000%Z
  /\ SpecUtils.parse_int_frequency (CStr "abc") = None
  /\ SpecUtils.is_n77_from_string (CInt 653952) = true
  /\ SpecUtils.is_n77_from_string (CStr "abc") = false
  /\ SpecUtils.is_n77_from_string (CInt 646600) = true
  /\ SpecUtils.is_n77_from_string (CInt 660000) = true
  /\ SpecUtils.is_n77_from_string (CInt 646599) = false
  /\ SpecUtils.is_n77_from_string (CStr "660001") = false.
Proof. repeat split; reflexivity. Qed.

Example extract_sample :
  SpecUtils.extract_sync_frequencies "GUtranSyncSignalFrequency=648672-30,NR=660001-30"
  = ["648672"; "30"; "660001"].
Proof. reflexivity. Qed.

(* ===================================================================== *)
(** ** Facts about the built-ins: sorting *)
(* ===================================================================== *)

Section SortedBy.

Variable A : Type.
Variable leb : A -> A -> bool.

Let le (a b : A) : Prop := leb a b = true.

Lemma insert_perm (x : A) (l : list A) : Permutation (Py.insert leb x l) (x :: l).
Proof.
  induction l as [|y l IH]; simpl.
  - apply Permutation_refl.
  - destruct (leb x y).
    + apply Permutation_refl.
    + apply Permutation_trans with (y :: x :: l).
      * now apply perm_skip.
      * apply perm_swap.
Qed.

Lemma sorted_by_perm (l : list A) : Permutation (Py.sorted_by leb l) l.
Proof.
  induction l as [|x l IH]; simpl.
  - apply perm_nil.
  - eapply Permutation_trans; [apply insert_perm | now apply perm_skip].
Qed.

Lemma sorted_by_In (x : A) (l : list A) : In x (Py.sorted_by leb l) <-> In x l.
Proof.
  split; apply Permutation_in;
    [apply sorted_by_perm | apply Permutation_sym, sorted_by_perm].
Qed.

Lemma sorted_by_length (l : list A) : List.length (Py.sorted_by leb l) = List.length l.
Proof. apply Permutation_length, sorted_by_perm. Qed.

Lemma sorted_by_NoDup (l : list A) : NoDup l -> NoDup (Py.sorted_by leb l).
Proof.
  intro H. eapply Permutation_NoDup; [apply Permutation_sym, sorted_by_perm | exact H].
Qed.

Hypothesis leb_total : forall a b, leb a b = true \/ leb b a = true.
Hypothesis leb_trans : forall a b c, le a b -> le b c -> le a c.

Lemma insert_sorted (x : A) (l : list A) :
  StronglySorted le l -> StronglySorted le (Py.insert leb x l).
Proof.
  induction 1 as [|y l Hl IH Hy]; simpl.
  - repeat constructor.
  - destruct (leb x y) eqn:Hxy.
    + constructor; [now constructor|].
      constructor; [exact Hxy|].
      rewrite Forall_forall in *. intros z Hz. eapply leb_trans; eauto.
    + constructor; [exact IH|].
      rewrite Forall_forall in *. intros z Hz.
      apply (Permutation_in _ (insert_perm x l)) in Hz.
      destruct Hz as [<-|Hz]; [|auto].
      destruct (leb_total y x) as [H|H]; [exact H | congruence].
Qed.

Lemma sorted_by_sorted (l : list A) : StronglySorted le (Py.sorted_by leb l).
Proof.
  induction l as [|x l IH]; simpl; [constructor | now apply insert_sorted].
Qed.

Hypothesis leb_antisym : forall a b, le a b -> le b a -> a = b.

Lemma sorted_perm_eq (l1 l2 : list A) :
  StronglySorted le l1 -> StronglySorted le l2 -> Permutation l1 l2 -> l1 = l2.
Proof.
  intros H1; revert l2.
  induction H1 as [|a l1 Hl1 IH Ha]; intros l2 H2 HP.
  - apply Permutation_nil in HP. now subst.
  - destruct H2 as [|b l2 Hl2 Hb].
    + apply Permutation_sym, Permutation_nil in HP. discriminate.
    + assert (a = b) as ->.
      { rewrite Forall_forall in Ha, Hb.
        assert (Hin1 : In a (b :: l2)) by (eapply Permutation_in; [exact HP | now left]).
        assert (Hin2 : In b (a :: l1))
          by (eapply Permutation_in; [apply Permutation_sym, HP | now left]).
        destruct Hin1 as [->|Hin1]; [reflexivity|].
        destruct Hin2 as [->|Hin2]; [reflexivity|].
        apply leb_antisym; [apply Ha, Hin2 | apply Hb, Hin1]. }
      f_equal. apply IH; [exact Hl2 | eapply Permutation_cons_inv, HP].
Qed.

Lemma sorted_by_canonical (l1 l2 : list A) :
  Permutation l1 l2 -> Py.sorted_by leb l1 = Py.sorted_by leb l2.
Proof.
  intro HP. apply sorted_perm_eq; try apply sorted_by_sorted.
  eapply Permutation_trans; [apply sorted_by_perm|].
  eapply Permutation_trans; [exact HP | apply Permutation_sym, sorted_by_perm].
Qed.

End SortedBy.

(** The stable sort on a numeric key. *)
Section SortValues.

Variable A : Type.
Variable key : A -> nat.

Lemma sort_values_perm (rows : list A) :
  Permutation (sort_values_mergesort key rows) rows.
Proof. apply sorted_by_perm. Qed.

Lemma sort_values_sorted (rows : list A) :
  StronglySorted (fun a b => key a <= key b) (sort_values_mergesort key rows).
Proof.
  unfold sort_values_mergesort.
  eapply StronglySorted_ind with
    (P := fun l => StronglySorted (fun a b => key a <= key b) l);
    [constructor | | apply sorted_by_sorted].
  - intros a l _ IH Ha. constructor; [exact IH|].
    eapply Forall_impl; [|exact Ha]. intros b Hb. now apply Nat.leb_le.
  - intros a b. destruct (Nat.leb_spec (key a) (key b)); [now left|right].
    apply Nat.leb_le. lia.
  - intros a b c Hab Hbc. apply Nat.leb_le in Hab, Hbc. apply Nat.leb_le. lia.
Qed.

(** In the sorted list, a row with a smaller key stands before every row
    with a larger key. *)
Lemma sort_values_before (rows : list A) (i j : nat) (r1 r2 : A) :
  nth_error (sort_values_mergesort key rows) i = Some r1 ->
  nth_error (sort_values_mergesort key rows) j = Some r2 ->
  key r1 < key r2 -> i < j.
Proof.
  generalize (sort_values_sorted rows).
  generalize (sort_values_mergesort key rows) as l.
  intros l Hs; revert i j.
  induction Hs as [|a l Hl IH Ha]; intros i j Hi Hj Hlt.
  - destruct i; discriminate.
  - destruct i as [|i], j as [|j]; simpl in *.
    + injection Hi as <-. injection Hj as <-. lia.
    + lia.
    + injection Hj as <-. apply nth_error_In in Hi.
      rewrite Forall_forall in Ha. specialize (Ha _ Hi). lia.
    + apply -> Nat.succ_lt_mono. eapply IH; eauto.
Qed.

Lemma filter_insert_key (k : nat) (x : A) (l : list A) :
  filter (fun r => Nat.eqb (key r) k)
         (Py.insert (fun a b => Nat.leb (key a) (key b)) x l)
  = filter (fun r => Nat.eqb (key r) k) (x :: l).
Proof.
  induction l as [|y l IH]; [reflexivity|].
  cbn [Py.insert]. destruct (Nat.leb_spec (key x) (key y)) as [Hle|Hlt]; [reflexivity|].
  cbn [filter] in *. rewrite IH.
  destruct (Nat.eqb_spec (key y) k), (Nat.eqb_spec (key x) k); try reflexivity.
  lia.
Qed.

(** Stability: the rows of one key come out in the order they went in. *)
Lemma sort_values_stable (k : nat) (rows : list A) :
  filter (fun r => Nat.eqb (key r) k) (sort_values_mergesort key rows)
  = filter (fun r => Nat.eqb (key r) k) rows.
Proof.
  unfold sort_values_mergesort.
  induction rows as [|x rows IH]; [reflexivity|].
  cbn [Py.sorted_by]. rewrite filter_insert_key. cbn [filter]. now rewrite IH.
Qed.

End SortValues.

(* ===================================================================== *)
(** ** Facts about the built-ins: the order on strings *)
(* ===================================================================== *)

Lemma string_compare_OT (a b : string) :
  String.compare a b = OrdersEx.String_as_OT.compare a b.
Proof. reflexivity. Qed.

Lemma string_lt_trans (a b c : string) :
  String.compare a b = Lt -> String.compare b c = Lt -> String.compare a c = Lt.
Proof.
  rewrite !string_compare_OT.
  apply (@RelationClasses.StrictOrder_Transitive _ _ OrdersEx.String_as_OT.lt_strorder).
Qed.

Lemma string_compare_refl (a : string) : String.compare a a = Eq.
Proof.
  destruct (String.compare a a) eqn:H; [reflexivity| |];
    pose proof (String.compare_antisym a a) as Ha; rewrite H in Ha; discriminate.
Qed.

Lemma string_leb_trans (a b c : string) :
  String.leb a b = true -> String.leb b c = true -> String.leb a c = true.
Proof.
  unfold String.leb.
  destruct (String.compare a b) eqn:Hab; try discriminate;
    destruct (String.compare b c) eqn:Hbc; try discriminate; intros _ _.
  - apply String.compare_eq_iff in Hab, Hbc. subst. now rewrite string_compare_refl.
  - apply String.compare_eq_iff in Hab. subst. now rewrite Hbc.
  - apply String.compare_eq_iff in Hbc. subst. now rewrite Hab.
  - now rewrite (string_lt_trans _ _ _ Hab Hbc).
Qed.

Lemma sorted_canonical (l1 l2 : list string) :
  Permutation l1 l2 -> Py.sorted l1 = Py.sorted l2.
Proof.
  apply sorted_by_canonical.
  - apply String.leb_total.
  - apply string_leb_trans.
  - apply String.leb_antisym.
Qed.

Lemma sorted_In (x : string) (l : list string) : In x (Py.sorted l) <-> In x l.
Proof. apply sorted_by_In. Qed.

Lemma pair_leb_total (a b : string * string) :
  Py.pair_leb a b = true \/ Py.pair_leb b a = true.
Proof.
  unfold Py.pair_leb. rewrite (String.compare_antisym (fst b) (fst a)).
  destruct (String.compare (fst a) (fst b)); simpl; auto using String.leb_total.
Qed.

Lemma pair_leb_trans (a b c : string * string) :
  Py.pair_leb a b = true -> Py.pair_leb b c = true -> Py.pair_leb a c = true.
Proof.
  unfold Py.pair_leb.
  destruct (String.compare (fst a) (fst b)) eqn:Hab; try discriminate;
    destruct (String.compare (fst b) (fst c)) eqn:Hbc; try discriminate.
  - apply String.compare_eq_iff in Hab, Hbc. rewrite Hab, Hbc, string_compare_refl.
    apply string_leb_trans.
  - apply String.compare_eq_iff in Hab. rewrite Hab, Hbc. auto.
  - apply String.compare_eq_iff in Hbc. rewrite <- Hbc, Hab. auto.
  - rewrite (string_lt_trans _ _ _ Hab Hbc). auto.
Qed.

Lemma pair_leb_antisym (a b : string * string) :
  Py.pair_leb a b = true -> Py.pair_leb b a = true -> a = b.
Proof.
  unfold Py.pair_leb. rewrite (String.compare_antisym (fst b) (fst a)).
  destruct a as [a1 a2], b as [b1 b2]; simpl.
  destruct (String.compare a1 b1) eqn:Hab; simpl; try discriminate.
  apply String.compare_eq_iff in Hab. subst. intros H1 H2. f_equal.
  now apply String.leb_antisym.
Qed.

Lemma sorted_pairs_canonical (l1 l2 : list (string * string)) :
  Permutation l1 l2 -> Py.sorted_pairs l1 = Py.sorted_pairs l2.
Proof.
  apply sorted_by_canonical.
  - apply pair_leb_total.
  - apply pair_leb_trans.
  - apply pair_leb_antisym.
Qed.

Lemma pair_eqb_eq (a b : string * string) : Py.pair_eqb a b = true <-> a = b.
Proof.
  destruct a as [a1 a2], b as [b1 b2]. unfold Py.pair_eqb. simpl.
  rewrite andb_true_iff, !String.eqb_eq. split; [intros [-> ->]; reflexivity|].
  intros [= -> ->]. auto.
Qed.

Section SortValuesBucket.

Variable A : Type.
Variable key : A -> nat.

(** Stability, for any test that singles out rows of one key. *)
Lemma sort_values_stable_on (p : A -> bool) (k : nat) (rows : list A) :
  (forall r, p r = true -> key r = k) ->
  filter p (sort_values_mergesort key rows) = filter p rows.
Proof.
  intro Hp.
  assert (narrow : forall l, filter p l = filter p (filter (fun r => Nat.eqb (key r) k) l)).
  { induction l as [|x l IH]; [reflexivity|]. cbn [filter].
    destruct (p x) eqn:Hx.
    - rewrite (Hp _ Hx), Nat.eqb_refl. cbn [filter]. now rewrite Hx, IH.
    - destruct (Nat.eqb (key x) k); cbn [filter]; now rewrite ?Hx, IH. }
  rewrite narrow, sort_values_stable. symmetry. apply narrow.
Qed.

End SortValuesBucket.

(* ===================================================================== *)
(** ** The column resolver *)
(* ===================================================================== *)

Lemma lower_length (s : string) : String.length (Py.lower s) = String.length s.
Proof. induction s as [|c s IH]; cbn [Py.lower String.length]; congruence. Qed.

(** The resolver returns a label of the frame, equal to one of the
    candidates up to case. *)
Lemma resolve_in_columns (df : DataFrame) (candidates : list string) (c : string) :
  resolve_column_case_insensitive df candidates = Some c ->
  In c (columns df)
  /\ exists cand, In cand candidates /\ Py.lower c = Py.lower cand.
Proof.
  induction candidates as [|cand rest IH]; cbn [resolve_column_case_insensitive];
    [discriminate|].
  destruct (find _ (columns df)) as [c'|] eqn:E.
  - intros [= ->]. apply find_some in E. destruct E as [Hin Heq].
    apply String.eqb_eq in Heq. split; [exact Hin|].
    exists cand. split; [now left | exact Heq].
  - intro H. destruct (IH H) as [Hin [cand' [Hc Hl]]].
    split; [exact Hin|]. exists cand'. split; [now right | exact Hl].
Qed.

(** With candidates that are not empty, the test [if col] fails only when
    the resolver found nothing. *)
Lemma as_label_resolved (df : DataFrame) (candidates : list string) (c : string) :
  ~ In EmptyString candidates ->
  resolve_column_case_insensitive df candidates = Some c ->
  as_label (resolve_column_case_insensitive df candidates) = Some c.
Proof.
  intros Hne H. rewrite H. destruct c as [|a c]; [|reflexivity].
  destruct (resolve_in_columns _ _ H) as [_ [cand [Hc Hl]]].
  apply (f_equal String.length) in Hl. rewrite !lower_length in Hl.
  destruct cand; [contradiction | discriminate].
Qed.

(* ===================================================================== *)
(** ** Facts about the checker monad *)
(* ===================================================================== *)

Lemma outcome_try_except (body : Chk unit) (handler : Exn -> Chk unit) :
  (forall ex, outcome (handler ex) = inl tt) ->
  outcome (try_except body handler) = inl tt.
Proof.
  intro Hh. destruct body as [w [[]|ex]]; [reflexivity|].
  unfold try_except, outcome. specialize (Hh ex).
  destruct (handler ex) as [w' r]. exact Hh.
Qed.

Lemma outcome_seq (m k : Chk unit) :
  outcome m = inl tt -> outcome k = inl tt -> outcome (m ;; k) = inl tt.
Proof.
  destruct m as [w r], k as [w' r']. unfold outcome, bind. simpl.
  intros -> ->. reflexivity.
Qed.

Lemma appended_seq (m k : Chk unit) :
  outcome m = inl tt -> appended (m ;; k) = appended m ++ appended k.
Proof.
  destruct m as [w r], k as [w' r']. unfold outcome, appended, bind. simpl.
  intros ->. reflexivity.
Qed.

Lemma bind_ret {A B} (a : A) (k : A -> Chk B) : bind (ret a) k = k a.
Proof. unfold bind, ret. destruct (k a) as [w r]. reflexivity. Qed.

Lemma present_frame (df : DataFrame) :
  empty df = false -> not_none_and_not_empty (TFrame df) = ret (Some df).
Proof. intro H. cbn [not_none_and_not_empty]. now rewrite H. Qed.

(** Entering the branch a checker takes for a frame with lines. *)
Ltac enter_frame He := rewrite (present_frame _ He), bind_ret; cbv zeta.

Lemma appended_try_except {A} (body : Chk A) (handler : Exn -> Chk A) :
  appended (try_except body handler)
  = appended body
    ++ match outcome body with
       | inl _ => []
       | inr ex => appended (handler ex)
       end.
Proof.
  destruct body as [w [a|ex]]; unfold try_except, appended, outcome; cbn [fst snd].
  - now rewrite app_nil_r.
  - now destruct (handler ex).
Qed.

Lemma appended_add_row_seq {A} (c s m : string) (v : Value) (e : string) (k : Chk A) :
  appended (add_row c s m v e ;; k) = mkRow c s m v e :: appended k.
Proof. unfold add_row, bind, appended. now destruct k. Qed.

Lemma outcome_add_row_seq {A} (c s m : string) (v : Value) (e : string) (k : Chk A) :
  outcome (add_row c s m v e ;; k) = outcome k.
Proof. unfold add_row, bind, outcome. now destruct k. Qed.

(** A checker whose handler appends one row returns whatever its body does. *)
Lemma checker_returns (body : Chk unit) (c s m : string) (v : Exn -> Value) :
  outcome (try_except body (fun ex => add_row c s m (v ex) "")) = inl tt.
Proof. apply outcome_try_except. reflexivity. Qed.

(* ===================================================================== *)
(** ** The priority of a row *)
(* ===================================================================== *)

Lemma index_of_In (key : string * string) (l : list (string * string)) (i : nat) :
  index_of key l = Some i -> In key l /\ i < List.length l.
Proof.
  revert i; induction l as [|k l IH]; intros i; simpl; [discriminate|].
  destruct (Py.pair_eqb k key) eqn:Hk.
  - intros [= <-]. apply pair_eqb_eq in Hk. split; [now left | lia].
  - destruct (index_of key l) as [j|]; [|discriminate].
    intros [= <-]. destruct (IH j eq_refl). split; [now right | lia].
Qed.

Lemma dict_get_enumerate (key : string * string) (l : list (string * string)) (n : nat) :
  NoDup l ->
  dict_get (enumerate n l) key = option_map (Nat.add n) (index_of key l).
Proof.
  intro Hnd; revert n. induction Hnd as [|k l Hk Hnd IH]; intro n; [reflexivity|].
  cbn [enumerate dict_get index_of]. rewrite IH.
  destruct (index_of key l) as [i|] eqn:Hi; cbn [option_map].
  - destruct (Py.pair_eqb k key) eqn:Hkk.
    + apply pair_eqb_eq in Hkk. subst k. apply index_of_In in Hi. tauto.
    + cbn [option_map]. f_equal. lia.
  - destruct (Py.pair_eqb k key); cbn [option_map]; [f_equal; lia | reflexivity].
Qed.

Lemma mem_pair_In (k : string * string) (l : list (string * string)) :
  Py.mem Py.pair_eqb k l = true <-> In k l.
Proof.
  unfold Py.mem. rewrite existsb_exists. split.
  - intros [x [Hx Hk]]. apply pair_eqb_eq in Hk. now subst.
  - intro H. exists k. split; [exact H | now apply pair_eqb_eq].
Qed.

Lemma distinct_pairs_NoDup (l : list (string * string)) :
  distinct_pairs l = true -> NoDup l.
Proof.
  induction l as [|k l IH]; simpl; [constructor|].
  rewrite andb_true_iff, negb_true_iff. intros [Hk Hl].
  constructor; [|auto]. rewrite <- mem_pair_In, Hk. discriminate.
Qed.

Lemma desired_order_NoDup : NoDup desired_order.
Proof. apply distinct_pairs_NoDup. reflexivity. Qed.

Lemma desired_order_length : List.length desired_order = 17.
Proof. reflexivity. Qed.

(** [order_row] is the place in the priority list, 117 for a pair the list
    does not have. *)
Lemma order_row_bucket (r : Row) :
  order_row r = match bucket_index r with Some i => i | None => 117 end.
Proof.
  unfold order_row, order_map, bucket_index.
  rewrite (dict_get_enumerate _ 0 desired_order_NoDup).
  destruct (index_of _ desired_order); reflexivity.
Qed.

Lemma bucket_index_bound (r : Row) (i : nat) : bucket_index r = Some i -> i < 17.
Proof. intro H. apply index_of_In in H. rewrite desired_order_length in H. tauto. Qed.

Lemma assemble_not_nil (rows : list Row) : assemble rows <> [].
Proof.
  unfold assemble, with_fallback.
  destruct rows as [|r rows]; [discriminate|].
  cbn [is_nil negb]. intro H.
  apply (f_equal (@List.length Row)) in H.
  unfold sort_values_mergesort in H. rewrite sorted_by_length in H. discriminate.
Qed.

Lemma assemble_sorted (rows : list Row) :
  assemble rows = sort_values_mergesort order_row (with_fallback rows).
Proof.
  unfold assemble. destruct (with_fallback rows) eqn:E; [|reflexivity].
  destruct rows; discriminate.
Qed.

(* ===================================================================== *)
(** ** The report is always returned, and is never empty *)
(* ===================================================================== *)

Section Returns.

Context {utils : FreqUtils}.
Variable hash : Py.SetOrder.
Variables df_nr_cell_du df_nr_freq df_nr_freq_rel df_freq_prio_nr : Table.
Variables df_gu_sync_signal_freq df_gu_freq_rel : Table.
Variables df_nr_sector_carrier df_endc_distr_profile : Table.
Variables old_arfcn new_arfcn n77b_ssb : Z.
Variable allowed_n77_arfcn_set : list Z.

Lemma process_cardinalities_returns :
  outcome (process_cardinalities df_nr_freq df_nr_freq_rel
             df_gu_sync_signal_freq df_gu_freq_rel) = inl tt.
Proof.
  unfold process_cardinalities.
  repeat apply outcome_seq; apply checker_returns.
Qed.

Lemma run_checkers_returns :
  outcome (run_checkers hash df_nr_cell_du df_nr_freq df_nr_freq_rel df_freq_prio_nr
             df_gu_sync_signal_freq df_gu_freq_rel df_nr_sector_carrier
             df_endc_distr_profile old_arfcn new_arfcn n77b_ssb allowed_n77_arfcn_set)
  = inl tt.
Proof.
  unfold run_checkers.
  repeat apply outcome_seq;
    first [apply process_cardinalities_returns | apply checker_returns].
Qed.

Variables allowed_n77_ssb allowed_n77_arfcn : Allowed.
Variable allowed_n77_ssb_set : list Z.

Lemma main_assembles :
  main hash df_nr_cell_du df_nr_freq df_nr_freq_rel df_freq_prio_nr
    df_gu_sync_signal_freq df_gu_freq_rel df_nr_sector_carrier df_endc_distr_profile
    old_arfcn new_arfcn n77b_ssb allowed_n77_arfcn_set
  = inl (assemble
           (appended
              (run_checkers hash df_nr_cell_du df_nr_freq df_nr_freq_rel df_freq_prio_nr
                 df_gu_sync_signal_freq df_gu_freq_rel df_nr_sector_carrier
                 df_endc_distr_profile old_arfcn new_arfcn n77b_ssb
                 allowed_n77_arfcn_set))).
Proof.
  unfold main.
  pose proof run_checkers_returns as H. unfold outcome, appended in *.
  destruct run_checkers as [rows r]. simpl in *. now rewrite H.
Qed.

(** With two values for the allowed lists that [int_set] turns into sets,
    [build_summary_audit] is [main] run with these sets. *)
Lemma build_summary_audit_assembles :
  int_set allowed_n77_ssb = inl allowed_n77_ssb_set ->
  int_set allowed_n77_arfcn = inl allowed_n77_arfcn_set ->
  build_summary_audit hash df_nr_cell_du df_nr_freq df_nr_freq_rel df_freq_prio_nr
    df_gu_sync_signal_freq df_gu_freq_rel df_nr_sector_carrier df_endc_distr_profile
    old_arfcn new_arfcn n77b_ssb allowed_n77_ssb allowed_n77_arfcn
  = inl (assemble
           (appended
              (run_checkers hash df_nr_cell_du df_nr_freq df_nr_freq_rel df_freq_prio_nr
                 df_gu_sync_signal_freq df_gu_freq_rel df_nr_sector_carrier
                 df_endc_distr_profile old_arfcn new_arfcn n77b_ssb
                 allowed_n77_arfcn_set))).
Proof.
  intros Hs Ha. unfold build_summary_audit. rewrite Hs, Ha. apply main_assembles.
Qed.

(** When [int] refuses an item of one of the two allowed lists, or one of
    them cannot be iterated, the exception leaves [build_summary_audit]. *)
Lemma build_summary_audit_raises (ex : Exn) :
  int_set allowed_n77_ssb = inr ex
  \/ (int_set allowed_n77_ssb = inl allowed_n77_ssb_set
      /\ int_set allowed_n77_arfcn = inr ex) ->
  build_summary_audit hash df_nr_cell_du df_nr_freq df_nr_freq_rel df_freq_prio_nr
    df_gu_sync_signal_freq df_gu_freq_rel df_nr_sector_carrier df_endc_distr_profile
    old_arfcn new_arfcn n77b_ssb allowed_n77_ssb allowed_n77_arfcn
  = inr ex.
Proof.
  unfold build_summary_audit. intros [H | [Hs Ha]]; [now rewrite H | now rewrite Hs, Ha].
Qed.

End Returns.

(** The first checker always appends a row, so [main] never has to fall
    back on the row "No data available". *)
Lemma process_nr_freq_appends {utils : FreqUtils} (hash : Py.SetOrder) (t : Table)
  (old_arfcn new_arfcn : Z) :
  appended (process_nr_freq hash t old_arfcn new_arfcn) <> [].
Proof.
  unfold process_nr_freq. destruct t as [|complaint|df]; try discriminate.
  cbn [not_none_and_not_empty]. destruct (empty df); [discriminate|].
  rewrite bind_ret. cbv zeta.
  do 2 (destruct (as_label _); [|discriminate]).
  destruct (negb _); [|discriminate].
  rewrite appended_try_except, appended_add_row_seq. discriminate.
Qed.

Lemma run_checkers_appends {utils : FreqUtils} (hash : Py.SetOrder)
  (df_nr_cell_du df_nr_freq df_nr_freq_rel df_freq_prio_nr
   df_gu_sync_signal_freq df_gu_freq_rel df_nr_sector_carrier
   df_endc_distr_profile : Table)
  (old_arfcn new_arfcn n77b_ssb : Z) (allowed_n77_arfcn_set : list Z) :
  appended (run_checkers hash df_nr_cell_du df_nr_freq df_nr_freq_rel df_freq_prio_nr
              df_gu_sync_signal_freq df_gu_freq_rel df_nr_sector_carrier
              df_endc_distr_profile old_arfcn new_arfcn n77b_ssb allowed_n77_arfcn_set)
  <> [].
Proof.
  unfold run_checkers. rewrite appended_seq by apply checker_returns.
  intro H. apply app_eq_nil in H. destruct H as [H _].
  now apply process_nr_freq_appends in H.
Qed.

Lemma int_each_integers (l : list Z) : int_each (map inl l) = inl l.
Proof. induction l as [|z l IH]; [reflexivity|]. cbn [map int_each]. now rewrite IH. Qed.

Lemma int_each_refused (before : list Z) (ex : Exn) (after : list (Z + Exn)) :
  int_each (map inl before ++ inr ex :: after) = inr ex.
Proof.
  induction before as [|z l IH]; [reflexivity|].
  cbn [map app int_each]. now rewrite IH.
Qed.

Lemma int_set_integers (allowed : option (list Z)) :
  int_set (integers allowed) = inl (set_of_integers allowed).
Proof.
  destruct allowed as [l|]; [|reflexivity].
  cbn [integers int_set set_of_integers]. now rewrite int_each_integers.
Qed.

(** C1.  The claim that [build_summary_audit] never raises fails on the
    code.  The call with all tables absent and ['abc'] as list of allowed
    SSB frequencies raises the [ValueError] of [int('abc')]: the two sets of
    allowed frequencies are built with [int(v)] before the first [try], so
    that an item that [int] refuses (in either list, whatever stands before
    and after it), or a value that cannot be iterated, makes the call raise,
    whatever the tables are.  The docstring of the function says it should
    not raise.  When the items of the two
    lists are integers, or the lists are [None], the function returns a
    report, which has at least one row and is what [main] assembles from the
    rows the checkers appended; and from no row at all [main] assembles the
    report made of the single row Info / Info / SummaryAudit / No data
    available. *)
Theorem build_summary_audit_raises_when_int_refuses_an_item :
  @build_summary_audit SpecUtils.utils SpecUtils.insertion_order
    TNone TNone TNone TNone TNone TNone TNone TNone 647328 653952 650006
    (collection [inr invalid_literal_abc]) nothing
  = inr invalid_literal_abc
  /\
  forall (utils : FreqUtils) (hash : Py.SetOrder)
         (df_nr_cell_du df_nr_freq df_nr_freq_rel df_freq_prio_nr
          df_gu_sync_signal_freq df_gu_freq_rel df_nr_sector_carrier
          df_endc_distr_profile : Table)
         (old_arfcn new_arfcn n77b_ssb : Z),
    (forall (before : list Z) (ex : Exn) (after : list (Z + Exn))
            (allowed_n77_arfcn : Allowed),
        build_summary_audit hash df_nr_cell_du df_nr_freq df_nr_freq_rel df_freq_prio_nr
          df_gu_sync_signal_freq df_gu_freq_rel df_nr_sector_carrier
          df_endc_distr_profile old_arfcn new_arfcn n77b_ssb
          (collection (map inl before ++ inr ex :: after)) allowed_n77_arfcn
        = inr ex)
    /\ (forall (allowed_n77_ssb : option (list Z)) (before : list Z) (ex : Exn)
               (after : list (Z + Exn)),
          build_summary_audit hash df_nr_cell_du df_nr_freq df_nr_freq_rel
            df_freq_prio_nr df_gu_sync_signal_freq df_gu_freq_rel df_nr_sector_carrier
            df_endc_distr_profile old_arfcn new_arfcn n77b_ssb
            (integers allowed_n77_ssb) (collection (map inl before ++ inr ex :: after))
          = inr ex)
    /\ (forall (ex : Exn) (allowed_n77_ssb : option (list Z))
               (allowed_n77_arfcn : Allowed),
          build_summary_audit hash df_nr_cell_du df_nr_freq df_nr_freq_rel
            df_freq_prio_nr df_gu_sync_signal_freq df_gu_freq_rel df_nr_sector_carrier
            df_endc_distr_profile old_arfcn new_arfcn n77b_ssb
            (not_iterable ex) allowed_n77_arfcn
          = inr ex
          /\ build_summary_audit hash df_nr_cell_du df_nr_freq df_nr_freq_rel
               df_freq_prio_nr df_gu_sync_signal_freq df_gu_freq_rel df_nr_sector_carrier
               df_endc_distr_profile old_arfcn new_arfcn n77b_ssb
               (integers allowed_n77_ssb) (not_iterable ex)
             = inr ex)
    /\ (forall allowed_n77_ssb allowed_n77_arfcn : option (list Z),
          exists report : Report,
            build_summary_audit hash df_nr_cell_du df_nr_freq df_nr_freq_rel
              df_freq_prio_nr df_gu_sync_signal_freq df_gu_freq_rel df_nr_sector_carrier
              df_endc_distr_profile old_arfcn new_arfcn n77b_ssb
              (integers allowed_n77_ssb) (integers allowed_n77_arfcn)
            = inl report
            /\ report <> []
            /\ report
               = assemble
                   (appended
                      (run_checkers hash df_nr_cell_du df_nr_freq df_nr_freq_rel
                         df_freq_prio_nr df_gu_sync_signal_freq df_gu_freq_rel
                         df_nr_sector_carrier df_endc_distr_profile
                         old_arfcn new_arfcn n77b_ssb
                         (set_of_integers allowed_n77_arfcn))))
    /\ assemble []
       = [mkRow "Info" "Info" "SummaryAudit" (VStr "No data available") ""].
Proof.
  split; [reflexivity|].
  intros. split; [|split; [|split; [|split; [|reflexivity]]]].
  - intros. unfold build_summary_audit, int_set at 1.
    now rewrite int_each_refused.
  - intros. unfold build_summary_audit. rewrite int_set_integers.
    unfold int_set. now rewrite int_each_refused.
  - intros. split; [reflexivity|].
    unfold build_summary_audit. now rewrite int_set_integers.
  - intros. eexists.
    split; [eapply build_summary_audit_assembles; apply int_set_integers|].
    split; [apply assemble_not_nil | reflexivity].
Qed.

(* ===================================================================== *)
(** ** The order of the rows of the report *)
(* ===================================================================== *)

(** C2.  The report, which [build_summary_audit] returns once the two sets
    of allowed frequencies are built, is what [main] assembles from the rows
    the checkers appended, and in what [main] assembles from any rows: a row whose
    (Category, SubCategory) pair stands earlier in the list of the 17 pairs
    comes before a row whose pair stands later; a row whose pair is in the
    list comes before every row whose pair is not; and the rows of one pair,
    like the rows whose pairs are not in the list, are in the order in which
    they were appended. *)
Theorem report_rows_ordered_by_bucket_stably :
  (forall (utils : FreqUtils) (hash : Py.SetOrder)
          (df_nr_cell_du df_nr_freq df_nr_freq_rel df_freq_prio_nr
           df_gu_sync_signal_freq df_gu_freq_rel df_nr_sector_carrier
           df_endc_distr_profile : Table)
          (old_arfcn new_arfcn n77b_ssb : Z) (allowed_n77_ssb allowed_n77_arfcn : Allowed)
          (allowed_n77_ssb_set allowed_n77_arfcn_set : list Z),
      int_set allowed_n77_ssb = inl allowed_n77_ssb_set ->
      int_set allowed_n77_arfcn = inl allowed_n77_arfcn_set ->
      build_summary_audit hash df_nr_cell_du df_nr_freq df_nr_freq_rel df_freq_prio_nr
        df_gu_sync_signal_freq df_gu_freq_rel df_nr_sector_carrier
        df_endc_distr_profile old_arfcn new_arfcn n77b_ssb
        allowed_n77_ssb allowed_n77_arfcn
      = inl (assemble
               (appended
                  (run_checkers hash df_nr_cell_du df_nr_freq df_nr_freq_rel
                     df_freq_prio_nr df_gu_sync_signal_freq df_gu_freq_rel
                     df_nr_sector_carrier df_endc_distr_profile
                     old_arfcn new_arfcn n77b_ssb allowed_n77_arfcn_set))))
  /\ (forall rows : list Row,
        (forall (i j : nat) (r1 r2 : Row) (a b : nat),
            nth_error (assemble rows) i = Some r1 ->
            nth_error (assemble rows) j = Some r2 ->
            bucket_index r1 = Some a -> bucket_index r2 = Some b -> a < b -> i < j)
        /\ (forall (i j : nat) (r1 r2 : Row) (a : nat),
              nth_error (assemble rows) i = Some r1 ->
              nth_error (assemble rows) j = Some r2 ->
              bucket_index r1 = Some a -> bucket_index r2 = None -> i < j)
        /\ (forall p : option nat,
              filter (same_bucket p) (assemble rows)
              = filter (same_bucket p) (with_fallback rows))).
Proof.
  split; [intros; eapply build_summary_audit_assembles; eassumption|].
  intro rows. rewrite assemble_sorted. repeat split.
  - intros i j r1 r2 a b Hi Hj Ha Hb Hab.
    eapply sort_values_before; eauto. rewrite !order_row_bucket, Ha, Hb. exact Hab.
  - intros i j r1 r2 a Hi Hj Ha Hb.
    eapply sort_values_before; eauto. rewrite !order_row_bucket, Ha, Hb.
    apply bucket_index_bound in Ha. lia.
  - intro p.
    apply sort_values_stable_on with (k := match p with Some i => i | None => 117 end).
    intros r Hr. rewrite order_row_bucket. unfold same_bucket in Hr.
    destruct (bucket_index r), p; try discriminate; [|reflexivity].
    now apply Nat.eqb_eq.
Qed.

Lemma report_rows_order_witness :
  nth_error (assemble Scenario.unordered_rows) 0
  = Some (mkRow "NR Frequency Audit" "NRCellDU" "m4" (VInt 4) "")
  /\ nth_error (assemble Scenario.unordered_rows) 3 = Some (mkRow "Zeta" "Z" "m1" (VInt 1) "")
  /\ bucket_index (mkRow "NR Frequency Audit" "NRCellDU" "m4" (VInt 4) "") = Some 3
  /\ bucket_index (mkRow "Zeta" "Z" "m1" (VInt 1) "") = None
  /\ 0 < 3
  /\ @build_summary_audit SpecUtils.utils SpecUtils.insertion_order
       TNone TNone TNone TNone TNone TNone TNone TNone 652000 655000 650006
       (collection [inl 650006%Z]) nothing
     = inl (assemble
              (appended
                 (@run_checkers SpecUtils.utils SpecUtils.insertion_order
                    TNone TNone TNone TNone TNone TNone TNone TNone
                    652000 655000 650006 []))).
Proof.
  do 4 (split; [reflexivity|]). split.
  - apply (proj1 (proj2 (proj2 report_rows_ordered_by_bucket_stably
                           Scenario.unordered_rows))
             0 3 (mkRow "NR Frequency Audit" "NRCellDU" "m4" (VInt 4) "")
             (mkRow "Zeta" "Z" "m1" (VInt 1) "") 3);
      reflexivity.
  - exact (proj1 report_rows_ordered_by_bucket_stably SpecUtils.utils
             SpecUtils.insertion_order TNone TNone TNone TNone TNone TNone TNone TNone
             652000%Z 655000%Z 650006%Z (collection [inl 650006%Z]) nothing
             [650006%Z] [] eq_refl eq_refl).
Defined.

(** A report with two rows of pairs the list does not have: they go behind
    the others and keep their order. *)
Example assemble_sample :
  assemble Scenario.unordered_rows
  = [ mkRow "NR Frequency Audit" "NRCellDU" "m4" (VInt 4) "";
      mkRow "Cardinality Audit" "Cardinality" "m2" (VInt 2) "";
      mkRow "Cardinality Audit" "Cardinality" "m5" (VInt 5) "";
      mkRow "Zeta" "Z" "m1" (VInt 1) "";
      mkRow "Alpha" "A" "m3" (VInt 3) "" ].
Proof. reflexivity. Qed.

(* ===================================================================== *)
(** ** Values the parser cannot read *)
(* ===================================================================== *)

(** C5.  A value for which [parse_int_frequency] gives nothing is not old,
    not new, not in the allowed SSB set and not in the allowed ARFCN set, and
    it passes [is_not_old_not_new]; so in a series it counts neither as an
    old nor as a new value, and it does not keep the series from being one
    of values that are neither old nor new. *)
Theorem unparsable_value_is_neither_old_nor_new :
  forall (utils : FreqUtils) (old_arfcn new_arfcn : Z)
         (allowed_n77_ssb_set allowed_n77_arfcn_set : list Z) (v : Cell),
    parse_int_frequency v = None ->
    is_old old_arfcn v = false
    /\ is_new new_arfcn v = false
    /\ is_allowed_n77_ssb allowed_n77_ssb_set v = false
    /\ is_allowed_n77_arfcn allowed_n77_arfcn_set v = false
    /\ is_not_old_not_new old_arfcn new_arfcn v = true
    /\ (forall series : list Cell,
          Py.any (is_old old_arfcn) (v :: series) = Py.any (is_old old_arfcn) series
          /\ Py.any (is_new new_arfcn) (v :: series) = Py.any (is_new new_arfcn) series
          /\ series_only_not_old_not_new old_arfcn new_arfcn (v :: series)
             = series_only_not_old_not_new old_arfcn new_arfcn series).
Proof.
  intros utils old new ssb arfcn v Hv.
  unfold is_old, is_new, is_allowed_n77_ssb, is_allowed_n77_arfcn, is_not_old_not_new,
    series_only_not_old_not_new, Py.any, Py.all.
  cbn [existsb forallb].
  unfold is_old, is_new, is_not_old_not_new. rewrite Hv. cbn [freq_is orb negb andb].
  repeat split; reflexivity.
Qed.

Lemma unparsable_value_witness :
  @parse_int_frequency SpecUtils.utils (CStr "abc") = None
  /\ @is_old SpecUtils.utils 652000 (CStr "abc") = false
  /\ @is_not_old_not_new SpecUtils.utils 652000 655000 (CStr "abc") = true.
Proof.
  split; [reflexivity|].
  pose proof (unparsable_value_is_neither_old_nor_new SpecUtils.utils 652000 655000
                [] [] (CStr "abc") eq_refl) as H.
  split; [apply H | apply H].
Defined.

(* ===================================================================== *)
(** ** Tables that are absent or empty *)
(* ===================================================================== *)

Lemma not_found (t : Table) (body : DataFrame -> Chk unit) (c s m : string)
  (handler : Exn -> Chk unit) :
  absent_or_empty t = true ->
  try_except
    (present <- not_none_and_not_empty t ;;
     match present with
     | Some df => body df
     | None => add_row c s m (VStr "Table not found or empty") ""
     end) handler
  = ([not_found_row c s m], inl tt).
Proof.
  destruct t as [|complaint|df]; cbn [absent_or_empty]; try discriminate.
  - reflexivity.
  - intro H. cbn [not_none_and_not_empty]. rewrite H. reflexivity.
Qed.

(** C7, as the code has it.  When its table is absent or empty, each of the
    eight checkers of a single table appends exactly one row, with the value
    "Table not found or empty", and nothing else; for NRCellDU this is the
    row NR Frequency Audit / NRCellDU / NRCellDU table.  The cardinality
    checker does the same in each of its four blocks, for the table of that
    block. *)
Theorem absent_or_empty_table_gives_one_row :
  forall (utils : FreqUtils) (hash : Py.SetOrder) (t : Table)
         (old_arfcn new_arfcn n77b_ssb : Z) (allowed_n77_arfcn_set : list Z),
    absent_or_empty t = true ->
    process_nr_cell_du t
    = ([mkRow "NR Frequency Audit" "NRCellDU" "NRCellDU table"
          (VStr "Table not found or empty") ""], inl tt)
    /\ process_nr_freq hash t old_arfcn new_arfcn
       = ([not_found_row "NR Frequency Audit" "NRFrequency" "NRFrequency table"], inl tt)
    /\ process_nr_freq_rel hash t old_arfcn new_arfcn
       = ([not_found_row "NR Frequency Audit" "NRFreqRelation" "NRFreqRelation table"],
          inl tt)
    /\ process_nr_sector_carrier hash t allowed_n77_arfcn_set
       = ([not_found_row "NR Frequency Audit" "NRSectorCarrier" "NRSectorCarrier table"],
          inl tt)
    /\ process_freq_prio_nr t
       = ([not_found_row "NR Frequency Audit" "FreqPrioNR" "FreqPrioNR table"], inl tt)
    /\ process_gu_sync_signal_freq hash t old_arfcn new_arfcn
       = ([not_found_row "LTE Frequency Audit" "GUtranSyncSignalFrequency"
             "GUtranSyncSignalFrequency table"], inl tt)
    /\ process_gu_freq_rel hash t old_arfcn new_arfcn
       = ([not_found_row "LTE Frequency Audit" "GUtranFreqRelation"
             "GUtranFreqRelation table"], inl tt)
    /\ process_endc_distr_profile t old_arfcn new_arfcn n77b_ssb
       = ([not_found_row "EndcDistrProfile Audit" "EndcDistrProfile"
             "EndcDistrProfile table"], inl tt)
    /\ cardinality_nr_freq_rel t
       = ([not_found_row "Cardinality Audit" "Cardinality" "NRFreqRelation per cell"],
          inl tt)
    /\ cardinality_nr_freq t
       = ([not_found_row "Cardinality Audit" "Cardinality" "NRFrequency per node"], inl tt)
    /\ cardinality_gu_freq_rel t
       = ([not_found_row "Cardinality Audit" "Cardinality"
             "GUtranFreqRelation per LTE cell"], inl tt)
    /\ cardinality_gu_sync_signal_freq t
       = ([not_found_row "Cardinality Audit" "Cardinality"
             "GUtranSyncSignalFrequency per node"], inl tt).
Proof.
  intros utils hash t old new n77b allowed Ht.
  repeat split; apply (not_found _ _ _ _ _ _ Ht).
Qed.

Lemma absent_or_empty_table_witness :
  absent_or_empty Scenario.empty_nr_cell_du = true
  /\ @process_nr_cell_du SpecUtils.utils Scenario.empty_nr_cell_du
     = ([mkRow "NR Frequency Audit" "NRCellDU" "NRCellDU table"
           (VStr "Table not found or empty") ""], inl tt).
Proof.
  split; [reflexivity|].
  apply (absent_or_empty_table_gives_one_row SpecUtils.utils SpecUtils.insertion_order
           Scenario.empty_nr_cell_du 652000 655000 650006 [] eq_refl).
Defined.

(** With its four tables absent, the cardinality checker appends four rows,
    one in each block, and not a single one. *)
Lemma cardinality_checker_appends_four_rows :
  appended (process_cardinalities TNone TNone TNone TNone)
  = [ not_found_row "Cardinality Audit" "Cardinality" "NRFreqRelation per cell";
      not_found_row "Cardinality Audit" "Cardinality" "NRFrequency per node";
      not_found_row "Cardinality Audit" "Cardinality" "GUtranFreqRelation per LTE cell";
      not_found_row "Cardinality Audit" "Cardinality" "GUtranSyncSignalFrequency per node" ]
  /\ ~ (exists r : Row, appended (process_cardinalities TNone TNone TNone TNone) = [r]).
Proof.
  split; [reflexivity|]. intros [r H]. discriminate H.
Qed.

(* ===================================================================== *)
(** ** NRFrequency: a table without N77 rows *)
(* ===================================================================== *)

Lemma n77_lines_nil {utils : FreqUtils} (df : DataFrame) (node_col value_col : string) :
  (forall v, In v (getitem df value_col) -> is_n77_from_string v = false) ->
  filter (fun nv : string * Cell => is_n77_from_string (snd nv))
         (node_value_pairs df node_col value_col) = [].
Proof.
  unfold node_value_pairs, getitem2, getitem. intro H.
  induction (records df) as [|r l IH]; [reflexivity|].
  cbn [map filter snd].
  rewrite (H (get r value_col)) by (now left).
  apply IH. intros v Hv. apply H. now right.
Qed.

Lemma n77_lines_some {utils : FreqUtils} (df : DataFrame) (node_col value_col : string) :
  filter (fun nv : string * Cell => is_n77_from_string (snd nv))
         (node_value_pairs df node_col value_col) <> [] ->
  exists v, In v (getitem df value_col) /\ is_n77_from_string v = true.
Proof.
  unfold node_value_pairs, getitem2, getitem.
  induction (records df) as [|r l IH]; [intro H; now contradiction H|].
  cbn [map filter snd].
  destruct (is_n77_from_string (get r value_col)) eqn:E.
  - intros _. exists (get r value_col). split; [now left | exact E].
  - intro H. destruct (IH H) as [v [Hv Hn]]. exists v. split; [now right | exact Hn].
Qed.

(** C10.  When the NRFrequency table is a frame with lines, its NodeId and
    ARFCN columns resolve and no value of the ARFCN column is classified as
    N77, the checker appends the single row "NRFrequency table has no N77
    rows" with value 0.  And whatever the table, a row with the metric "NR
    nodes with ARFCN defined in NRFrequency" is appended only when the table
    is a frame whose ARFCN column has a value classified as N77. *)
Theorem nr_freq_rows_need_an_n77_row :
  (forall (utils : FreqUtils) (hash : Py.SetOrder) (df : DataFrame)
          (old_arfcn new_arfcn : Z) (node_col arfcn_col : string),
      empty df = false ->
      as_label (resolve_column_case_insensitive df ["NodeId"]) = Some node_col ->
      as_label (resolve_column_case_insensitive df
                  ["arfcnValueNRDl"; "NRFrequencyId"; "nRFrequencyId"]) = Some arfcn_col ->
      (forall v, In v (getitem df arfcn_col) -> is_n77_from_string v = false) ->
      process_nr_freq hash (TFrame df) old_arfcn new_arfcn
      = ([mkRow "NR Frequency Audit" "NRFrequency" "NRFrequency table has no N77 rows"
            (VInt 0) ""], inl tt))
  /\ (forall (utils : FreqUtils) (hash : Py.SetOrder) (t : Table)
             (old_arfcn new_arfcn : Z) (r : Row),
         In r (appended (process_nr_freq hash t old_arfcn new_arfcn)) ->
         Metric r = "NR nodes with ARFCN defined in NRFrequency" ->
         exists (df : DataFrame) (arfcn_col : string) (v : Cell),
           t = TFrame df
           /\ as_label (resolve_column_case_insensitive df
                          ["arfcnValueNRDl"; "NRFrequencyId"; "nRFrequencyId"])
              = Some arfcn_col
           /\ In v (getitem df arfcn_col)
           /\ is_n77_from_string v = true).
Proof.
  split.
  - intros utils hash df old new node_col arfcn_col He Hn Ha Hv.
    unfold process_nr_freq. enter_frame He.
    rewrite Hn, Ha, (n77_lines_nil _ _ _ Hv). reflexivity.
  - intros utils hash t old new r Hr Hm.
    unfold process_nr_freq in Hr.
    destruct t as [|complaint|df].
    + destruct Hr as [<-|[]]. discriminate Hm.
    + destruct Hr as [<-|[]]. discriminate Hm.
    + cbn [not_none_and_not_empty] in Hr.
      destruct (empty df); [destruct Hr as [<-|[]]; discriminate Hm|].
      rewrite bind_ret in Hr. cbv zeta in Hr.
      destruct (as_label (resolve_column_case_insensitive df ["NodeId"]))
        as [node_col|]; [|destruct Hr as [<-|[]]; discriminate Hm].
      destruct (as_label (resolve_column_case_insensitive df
                            ["arfcnValueNRDl"; "NRFrequencyId"; "nRFrequencyId"]))
        as [arfcn_col|] eqn:Ha; [|destruct Hr as [<-|[]]; discriminate Hm].
      destruct (filter (fun nv : string * Cell => is_n77_from_string (snd nv))
                       (node_value_pairs df node_col arfcn_col)) as [|nv l] eqn:En.
      * destruct Hr as [<-|[]]. discriminate Hm.
      * destruct (n77_lines_some df node_col arfcn_col) as [v [Hv Hn]];
          [rewrite En; discriminate|].
        exists df, arfcn_col, v. auto.
Qed.

Lemma nr_freq_rows_need_an_n77_row_witness :
  empty Scenario.nr_freq_without_n77 = false
  /\ @process_nr_freq SpecUtils.utils SpecUtils.insertion_order
       (TFrame Scenario.nr_freq_without_n77) 652000 655000
     = ([mkRow "NR Frequency Audit" "NRFrequency" "NRFrequency table has no N77 rows"
           (VInt 0) ""], inl tt).
Proof.
  split; [reflexivity|].
  apply (proj1 nr_freq_rows_need_an_n77_row SpecUtils.utils SpecUtils.insertion_order
           Scenario.nr_freq_without_n77 652000%Z 655000%Z "NodeId" "arfcnValueNRDl"
           eq_refl eq_refl eq_refl).
  intros v Hv. cbn in Hv. destruct Hv as [<-|[<-|[]]]; reflexivity.
Defined.

(* ===================================================================== *)
(** ** Facts about sets, groups and appended rows *)
(* ===================================================================== *)

Section Dedup.

Variable A : Type.
Variable eqb : A -> A -> bool.
Hypothesis eqb_eq : forall a b, eqb a b = true <-> a = b.

Lemma mem_In (x : A) (l : list A) : Py.mem eqb x l = true <-> In x l.
Proof.
  unfold Py.mem. rewrite existsb_exists. split.
  - intros [y [Hy Hx]]. apply eqb_eq in Hx. now subst.
  - intro H. exists x. split; [exact H | now apply eqb_eq].
Qed.

Lemma dedup_In (x : A) (l : list A) : In x (Py.dedup eqb l) <-> In x l.
Proof.
  induction l as [|a l IH]; [reflexivity|].
  cbn [Py.dedup In]. rewrite filter_In, IH, negb_true_iff. split.
  - intros [H|[H _]]; auto.
  - intros [H|H]; [now left|].
    destruct (eqb a x) eqn:E; [left; now apply eqb_eq | right; auto].
Qed.

Lemma dedup_NoDup (l : list A) : NoDup (Py.dedup eqb l).
Proof.
  induction l as [|a l IH]; [constructor|].
  cbn [Py.dedup]. constructor; [|now apply NoDup_filter].
  rewrite filter_In, negb_true_iff. intros [_ H].
  assert (eqb a a = true) by now apply eqb_eq. congruence.
Qed.

Lemma set_and_In (x : A) (a b : list A) :
  In x (Py.set_and eqb a b) <-> In x a /\ In x b.
Proof. unfold Py.set_and. now rewrite filter_In, mem_In. Qed.

Lemma set_sub_In (x : A) (a b : list A) :
  In x (Py.set_sub eqb a b) <-> In x a /\ ~ In x b.
Proof.
  unfold Py.set_sub. rewrite filter_In, negb_true_iff.
  split; intros [H1 H2]; split; auto.
  - intro Hb. apply mem_In in Hb. congruence.
  - destruct (Py.mem eqb x b) eqn:E; [|reflexivity].
    apply mem_In in E. contradiction.
Qed.

End Dedup.

Lemma iter_In (hash : Py.SetOrder) {A} (x : A) (s : list A) :
  In x (Py.iter hash s) <-> In x s.
Proof.
  split; apply Permutation_in;
    [apply Py.iter_perm | apply Permutation_sym, Py.iter_perm].
Qed.

Lemma iter_NoDup (hash : Py.SetOrder) {A} (s : list A) :
  NoDup s -> NoDup (Py.iter hash s).
Proof.
  intro H. eapply Permutation_NoDup; [apply Permutation_sym, Py.iter_perm | exact H].
Qed.

Lemma sorted_and_In (hash : Py.SetOrder) (x : string) (a b : list string) :
  In x (sorted_and hash a b) <-> In x a /\ In x b.
Proof.
  unfold sorted_and. rewrite sorted_In, iter_In. apply set_and_In, String.eqb_eq.
Qed.

Lemma sorted_sub_In (hash : Py.SetOrder) (x : string) (a b : list string) :
  In x (sorted_sub hash a b) <-> In x a /\ ~ In x b.
Proof.
  unfold sorted_sub. rewrite sorted_In, iter_In. apply set_sub_In, String.eqb_eq.
Qed.

Lemma sorted_and_NoDup (hash : Py.SetOrder) (a b : list string) :
  NoDup a -> NoDup (sorted_and hash a b).
Proof.
  intro H. apply sorted_by_NoDup, iter_NoDup. now apply NoDup_filter.
Qed.

Lemma sorted_sub_NoDup (hash : Py.SetOrder) (a b : list string) :
  NoDup a -> NoDup (sorted_sub hash a b).
Proof.
  intro H. apply sorted_by_NoDup, iter_NoDup. now apply NoDup_filter.
Qed.

(** The values of the lines of one key. *)
Lemma group_values_In (lines : list (string * Cell)) (k : string) (v : Cell) :
  In v (map snd (filter (fun kv => String.eqb (fst kv) k) lines)) <-> In (k, v) lines.
Proof.
  rewrite in_map_iff. split.
  - intros [[k' v'] [<- H]]. apply filter_In in H. destruct H as [H E].
    cbn in E. apply String.eqb_eq in E. now subst.
  - intro H. exists (k, v). split; [reflexivity|].
    apply filter_In. split; [exact H | apply String.eqb_refl].
Qed.

Lemma nodes_where_filter (test : list Cell -> bool) (lines : list (string * Cell)) :
  nodes_where test (groupby lines)
  = Py.sorted
      (filter (fun k => test (map snd (filter (fun kv => String.eqb (fst kv) k) lines)))
              (Py.sorted (unique (map fst lines)))).
Proof.
  unfold nodes_where, groupby. f_equal.
  induction (Py.sorted (unique (map fst lines))) as [|k keys IH]; [reflexivity|].
  cbn [map filter snd]. destruct (test _); cbn [map fst]; now rewrite IH.
Qed.

Lemma nodes_where_In (test : list Cell -> bool) (lines : list (string * Cell)) (n : string) :
  In n (nodes_where test (groupby lines))
  <-> In n (map fst lines)
      /\ test (map snd (filter (fun kv => String.eqb (fst kv) n) lines)) = true.
Proof.
  rewrite nodes_where_filter, sorted_In, filter_In, sorted_In.
  unfold unique. now rewrite (dedup_In _ String.eqb_eq).
Qed.

Lemma nodes_where_NoDup (test : list Cell -> bool) (lines : list (string * Cell)) :
  NoDup (nodes_where test (groupby lines)).
Proof.
  rewrite nodes_where_filter. apply sorted_by_NoDup, NoDup_filter, sorted_by_NoDup.
  apply (dedup_NoDup _ String.eqb_eq).
Qed.

(** The nodes of which some line passes a test on its value. *)
Lemma nodes_where_any_In (p : Cell -> bool) (lines : list (string * Cell)) (n : string) :
  In n (nodes_where (Py.any p) (groupby lines))
  <-> exists v, In (n, v) lines /\ p v = true.
Proof.
  rewrite nodes_where_In. unfold Py.any. rewrite existsb_exists. split.
  - intros [_ [v [Hv Hp]]]. exists v. split; [now apply group_values_In | exact Hp].
  - intros [v [Hv Hp]]. split.
    + apply in_map_iff. now exists (n, v).
    + exists v. split; [now apply group_values_In | exact Hp].
Qed.

(* ===================================================================== *)
(** ** NRFreqRelation: the node-level rows *)
(* ===================================================================== *)

(** C4.  When the NRFreqRelation table is a frame with lines, its NodeId and
    NRFreqRelationId columns resolve and some relation is classified as N77,
    the checker first appends the four node-level count rows: nodes with the
    old ARFCN, nodes with the new ARFCN, nodes with both, nodes with the old
    but without the new.  The nodes listed in the third row are exactly the
    nodes listed in both of the first two, the nodes listed in the fourth
    are exactly the nodes of the first that the second does not list; every
    node is listed once, and the values of the rows are the numbers of nodes
    listed. *)
Theorem nr_freq_rel_node_rows_are_intersection_and_difference :
  forall (utils : FreqUtils) (hash : Py.SetOrder) (df : DataFrame)
         (old_arfcn new_arfcn : Z) (node_col arfcn_col : string),
    empty df = false ->
    as_label (resolve_column_case_insensitive df ["NodeId"]) = Some node_col ->
    as_label (resolve_column_case_insensitive df ["NRFreqRelationId"]) = Some arfcn_col ->
    n77_lines df node_col arfcn_col <> [] ->
    exists (old_nodes new_nodes both old_without_new : list string) (rest : list Row),
      appended (process_nr_freq_rel hash (TFrame df) old_arfcn new_arfcn)
      = mkRow "NR Frequency Audit" "NRFreqRelation"
          (Py.fstr ["NR nodes with the old ARFCN ("; str old_arfcn; ") in NRFreqRelation"])
          (VInt (Py.len old_nodes)) (Py.join ", " old_nodes)
        :: mkRow "NR Frequency Audit" "NRFreqRelation"
             (Py.fstr ["NR nodes with the new ARFCN ("; str new_arfcn;
                       ") in NRFreqRelation"])
             (VInt (Py.len new_nodes)) (Py.join ", " new_nodes)
        :: mkRow "NR Frequency Audit" "NRFreqRelation"
             (Py.fstr ["NR nodes with both, the old ARFCN ("; str old_arfcn;
                       ") and the new ARFCN ("; str new_arfcn; ") in NRFreqRelation"])
             (VInt (Py.len both)) (Py.join ", " both)
        :: mkRow "NR Frequency Inconsistencies" "NRFreqRelation"
             (Py.fstr ["NR nodes with the old ARFCN ("; str old_arfcn;
                       ") but without the new ARFCN ("; str new_arfcn;
                       ") in NRFreqRelation"])
             (VInt (Py.len old_without_new)) (Py.join ", " old_without_new)
        :: rest
      /\ (forall n, In n old_nodes <->
                    exists v, In (n, v) (n77_lines df node_col arfcn_col)
                              /\ is_old old_arfcn v = true)
      /\ (forall n, In n new_nodes <->
                    exists v, In (n, v) (n77_lines df node_col arfcn_col)
                              /\ is_new new_arfcn v = true)
      /\ (forall n, In n both <-> In n old_nodes /\ In n new_nodes)
      /\ (forall n, In n old_without_new <-> In n old_nodes /\ ~ In n new_nodes)
      /\ NoDup old_nodes /\ NoDup new_nodes /\ NoDup both /\ NoDup old_without_new.
Proof.
  intros utils hash df old new node_col arfcn_col He Hn Ha Hl.
  unfold n77_lines in *.
  set (lines := filter (fun nv : string * Cell => is_n77_from_string (snd nv))
                       (node_value_pairs df node_col arfcn_col)) in *.
  exists (nodes_where (Py.any (is_old old)) (groupby lines)),
         (nodes_where (Py.any (is_new new)) (groupby lines)),
         (sorted_and hash
            (Py.set_of String.eqb (nodes_where (Py.any (is_old old)) (groupby lines)))
            (Py.set_of String.eqb (nodes_where (Py.any (is_new new)) (groupby lines)))),
         (sorted_sub hash
            (Py.set_of String.eqb (nodes_where (Py.any (is_old old)) (groupby lines)))
            (Py.set_of String.eqb (nodes_where (Py.any (is_new new)) (groupby lines)))).
  eexists. split.
  - unfold process_nr_freq_rel. enter_frame He. rewrite Hn, Ha. fold lines.
    destruct lines as [|l0 lines'] eqn:El; [now contradiction Hl|].
    cbn [is_nil negb]. rewrite <- El.
    rewrite appended_try_except, !appended_add_row_seq.
    cbn [app]. reflexivity.
  - unfold Py.set_of.
    split; [intro n; apply nodes_where_any_In|].
    split; [intro n; apply nodes_where_any_In|].
    split; [intro n; rewrite sorted_and_In, !(dedup_In _ String.eqb_eq); reflexivity|].
    split; [intro n; rewrite sorted_sub_In, !(dedup_In _ String.eqb_eq); reflexivity|].
    split; [apply nodes_where_NoDup|].
    split; [apply nodes_where_NoDup|].
    split; [apply sorted_and_NoDup | apply sorted_sub_NoDup];
      apply (dedup_NoDup _ String.eqb_eq).
Qed.

Lemma nr_freq_rel_node_rows_witness :
  empty Scenario.nr_freq_rel_two_lines = false
  /\ @n77_lines SpecUtils.utils Scenario.nr_freq_rel_two_lines "NodeId" "NRFreqRelationId"
     <> []
  /\ exists (both : list string) (r1 r2 r4 : Row) (rest : list Row),
       appended (@process_nr_freq_rel SpecUtils.utils SpecUtils.reverse_order
                   (TFrame Scenario.nr_freq_rel_two_lines) 652000 655000)
       = r1 :: r2
         :: mkRow "NR Frequency Audit" "NRFreqRelation"
              (Py.fstr ["NR nodes with both, the old ARFCN ("; str 652000;
                        ") and the new ARFCN ("; str 655000; ") in NRFreqRelation"])
              (VInt (Py.len both)) (Py.join ", " both)
         :: r4 :: rest.
Proof.
  assert (H : @n77_lines SpecUtils.utils Scenario.nr_freq_rel_two_lines
                "NodeId" "NRFreqRelationId" <> []) by discriminate.
  split; [reflexivity|]. split; [exact H|].
  destruct (nr_freq_rel_node_rows_are_intersection_and_difference
              SpecUtils.utils SpecUtils.reverse_order Scenario.nr_freq_rel_two_lines
              652000 655000 eq_refl eq_refl eq_refl H)
    as (old_nodes & new_nodes & both & without & rest & Hrows & _).
  exists both. do 3 eexists. exists rest. exact Hrows.
Defined.

(** The scenario of the specification: one node with the old and the new
    relation is counted once in the row of the nodes that have both. *)
Example nr_freq_rel_scenario :
  nth_error (appended (@process_nr_freq_rel SpecUtils.utils SpecUtils.reverse_order
                         (TFrame Scenario.nr_freq_rel_two_lines) 652000 655000)) 2
  = Some (mkRow "NR Frequency Audit" "NRFreqRelation"
            "NR nodes with both, the old ARFCN (652000) and the new ARFCN (655000) in NRFreqRelation"
            (VInt 1) "N1").
Proof. reflexivity. Qed.

(* ===================================================================== *)
(** ** Cardinality *)
(* ===================================================================== *)

Lemma cell_eqb_eq (a b : Cell) : cell_eqb a b = true <-> a = b.
Proof.
  destruct a, b; cbn [cell_eqb]; try (split; [discriminate | intros [=]]).
  - rewrite Z.eqb_eq. split; [now intros -> | now intros [= ->]].
  - rewrite String.eqb_eq. split; [now intros -> | now intros [= ->]].
  - tauto.
Qed.

Lemma nonempty_In {B} (l : list B) : l <> [] -> exists x, In x l.
Proof. destruct l as [|x l]; [intro H; now contradiction H | exists x; now left]. Qed.

Lemma max_count_of_nonempty {B} (l : list (B * nat)) :
  l <> [] -> max_count_of l = counts_max l.
Proof. destruct l; [intro H; now contradiction H | reflexivity]. Qed.

Section ValueCounts.

Variable A : Type.
Variable eqb : A -> A -> bool.
Hypothesis eqb_eq : forall a b, eqb a b = true <-> a = b.
Variable items : list A.

Let count (k : A) : nat := count_occ_by eqb k items.
Let counts : list (A * nat) := value_counts eqb items.

Lemma value_counts_In (k : A) (c : nat) :
  In (k, c) counts <-> In k items /\ c = count k.
Proof.
  unfold counts, value_counts. rewrite sorted_by_In, in_map_iff. split.
  - intros [x [[= <- <-] Hx]]. rewrite (dedup_In _ eqb_eq) in Hx.
    split; [exact Hx | reflexivity].
  - intros [Hk ->]. exists k. split; [reflexivity | now rewrite (dedup_In _ eqb_eq)].
Qed.

Lemma value_counts_keys_NoDup : NoDup (map fst counts).
Proof.
  unfold counts, value_counts.
  eapply Permutation_NoDup.
  - apply Permutation_sym, Permutation_map, sorted_by_perm.
  - rewrite map_map. cbn [fst]. rewrite map_id. apply (dedup_NoDup _ eqb_eq).
Qed.

Lemma count_positive (k : A) : In k items -> 0 < count k.
Proof.
  unfold count, count_occ_by. intro H.
  assert (Hin : In k (filter (eqb k) items))
    by (apply filter_In; split; [exact H | now apply eqb_eq]).
  destruct (filter (eqb k) items); [destruct Hin | cbn; lia].
Qed.

Lemma counts_max_bound (l : list (A * nat)) (kc : A * nat) :
  In kc l -> snd kc <= counts_max l.
Proof.
  induction l as [|x l IH]; [intros []|].
  cbn [counts_max fold_right]. intros [->|H]; [lia|].
  specialize (IH H). unfold counts_max in IH. lia.
Qed.

Lemma counts_max_reached (l : list (A * nat)) :
  l <> [] -> exists kc, In kc l /\ snd kc = counts_max l.
Proof.
  induction l as [|x l IH]; [intro H; now contradiction H|]. intros _.
  cbn [counts_max fold_right]. fold (counts_max l).
  destruct l as [|y l].
  - exists x. split; [now left | cbn; lia].
  - destruct IH as [kc [Hin Hkc]]; [discriminate|].
    destruct (Nat.le_ge_cases (snd x) (counts_max (y :: l))).
    + exists kc. split; [now right | lia].
    + exists x. split; [now left | lia].
Qed.

Lemma filter_keys_NoDup (p : A * nat -> bool) (l : list (A * nat)) :
  NoDup (map fst l) -> NoDup (map fst (filter p l)).
Proof.
  induction l as [|x l IH]; [constructor|].
  cbn [map filter]. intro H. inversion H as [|? ? Hx Hl]; subst.
  destruct (p x); [|auto]. cbn [map]. constructor; [|auto].
  intro Hin. apply Hx. apply in_map_iff in Hin. destruct Hin as [y [Hy Hin]].
  apply filter_In in Hin. apply in_map_iff. exists y. tauto.
Qed.

(** The two rows of a block, read against the lines of the table. *)
Lemma cardinality_block (show : A -> string) (limit : nat) (am im : string) :
  items <> [] ->
  cardinality_rows_spec show count items limit am im
    [ mkRow "Cardinality Audit" "Cardinality" am
        (VInt (Z.of_nat (max_count_of counts)))
        (show_counts show (at_limit_or_above limit (max_count_of counts) counts));
      mkRow "Cardinality Inconsistencies" "Cardinality" im
        (VInt (Py.len (at_limit limit counts)))
        (show_counts show (at_limit limit counts)) ].
Proof.
  intro Hne.
  assert (Hc : counts <> []).
  { destruct (nonempty_In Hne) as [x Hx].
    intro H. assert (Hin : In (x, count x) counts)
      by (apply value_counts_In; split; [exact Hx | reflexivity]).
    rewrite H in Hin. destruct Hin. }
  assert (Hmax : max_count_of counts = counts_max counts)
    by (apply max_count_of_nonempty, Hc).
  destruct (counts_max_reached Hc) as [[km cm] [Hkm Hcm]]. cbn [snd] in Hcm.
  pose proof Hkm as Hkm'. apply value_counts_In in Hkm'. destruct Hkm' as [Hkm_in Hkm_c].
  assert (Hle : forall k, In k items -> count k <= counts_max counts).
  { intros k Hk. apply (counts_max_bound counts (k, count k)).
    apply value_counts_In. auto. }
  assert (Hpos : 0 < counts_max counts).
  { pose proof (count_positive _ Hkm_in). lia. }
  exists (max_count_of counts), (at_limit_or_above limit (max_count_of counts) counts),
         (at_limit limit counts).
  rewrite Hmax.
  split; [reflexivity|].
  split; [exists km; split; [exact Hkm_in | lia]|].
  split; [exact Hle|].
  split; [|split; [|split]].
  - intros k c. unfold at_limit_or_above.
    destruct (filter (fun kc : A * nat => Nat.leb limit (snd kc)) counts)
      as [|a above] eqn:Eab.
    + cbn [is_nil andb]. apply Nat.ltb_lt in Hpos. rewrite Hpos.
      assert (Hnone : forall k', In k' items -> count k' < limit).
      { intros k' Hk'. destruct (Nat.leb_spec limit (count k')) as [Hl|Hl]; [|exact Hl].
        assert (Hin : In (k', count k')
                         (filter (fun kc : A * nat => Nat.leb limit (snd kc)) counts)).
        { apply filter_In. split; [apply value_counts_In; auto|].
          now apply Nat.leb_le. }
        rewrite Eab in Hin. destruct Hin. }
      rewrite filter_In, value_counts_In. cbn [snd]. rewrite Nat.eqb_eq. split.
      * intros [[Hk Hck] Hcm']. split; [exact Hk|]. split; [exact Hck|]. right. auto.
      * intros [Hk [Hck [[[k' [Hk' Hl]] _]|[_ Hcm']]]].
        -- specialize (Hnone _ Hk'). lia.
        -- auto.
    + cbn [is_nil andb]. rewrite <- Eab.
      assert (Hsome : exists k', In k' items /\ limit <= count k').
      { assert (Hin : In a (filter (fun kc : A * nat => Nat.leb limit (snd kc)) counts))
          by (rewrite Eab; now left).
        apply filter_In in Hin. destruct Hin as [Hin Hl]. destruct a as [ka ca].
        apply value_counts_In in Hin. destruct Hin as [Hka ->].
        exists ka. split; [exact Hka | now apply Nat.leb_le]. }
      rewrite filter_In, value_counts_In. cbn [snd]. rewrite Nat.leb_le. split.
      * intros [[Hk Hck] Hl]. split; [exact Hk|]. split; [exact Hck|]. left. auto.
      * intros [Hk [Hck [[_ Hl]|[Hnone _]]]]; [auto|].
        destruct Hsome as [k' [Hk' Hl']]. specialize (Hnone _ Hk'). lia.
  - intros k c. unfold at_limit. rewrite filter_In, value_counts_In. cbn [snd].
    rewrite Nat.eqb_eq. tauto.
  - unfold at_limit_or_above.
    destruct (is_nil _ && _); apply filter_keys_NoDup, value_counts_keys_NoDup.
  - apply filter_keys_NoDup, value_counts_keys_NoDup.
Qed.

End ValueCounts.

Lemma frame_with_lines (df : DataFrame) (label : string) :
  empty df = false -> getitem df label <> [].
Proof.
  unfold empty, getitem. destruct (columns df); [discriminate|].
  destruct (records df); [discriminate | discriminate].
Qed.

Lemma map_not_nil {A B} (f : A -> B) (l : list A) : l <> [] -> map f l <> [].
Proof. destruct l; [intro H; now contradiction H | discriminate]. Qed.

(** C6.  Each of the four blocks of the cardinality checker (NRFreqRelation
    per cell, limit 16; NRFrequency per node, limit 64; GUtranFreqRelation
    per LTE cell, limit 16; GUtranSyncSignalFrequency per node, limit 24),
    on a frame with lines whose identifier column resolves, appends two
    rows.  The value of the Cardinality Audit row is the largest number of
    lines of one identifier, and the row lists the identifiers whose count
    reaches the limit or, when none does, the identifiers with the largest
    count; the Cardinality Inconsistencies row lists the identifiers whose
    count is the limit, and no other.  For a table in which one cell has 17
    lines, another 16 and a third 2, the first row carries 17 and lists the
    cells with 17 and 16 lines, the second lists the cell with 16 lines
    only. *)
Theorem cardinality_rows_report_max_and_limit :
  (forall (df : DataFrame) (cell_col : string),
      empty df = false ->
      as_label (resolve_column_case_insensitive df ["NRCellCUId"; "NRCellId"; "CellId"])
      = Some cell_col ->
      outcome (cardinality_nr_freq_rel (TFrame df)) = inl tt
      /\ cardinality_rows_spec astype_str
           (fun k => count_occ_by cell_eqb k (getitem df cell_col))
           (getitem df cell_col) 16
           "Max NRFreqRelation per NR cell (limit 16)"
           "NR cells with NRFreqRelation count at limit 16"
           (appended (cardinality_nr_freq_rel (TFrame df))))
  /\ (forall (df : DataFrame) (node_col : string),
         empty df = false ->
         as_label (resolve_column_case_insensitive df ["NodeId"]) = Some node_col ->
         outcome (cardinality_nr_freq (TFrame df)) = inl tt
         /\ cardinality_rows_spec (fun s : string => s)
              (fun k => count_occ_by String.eqb k (map astype_str (getitem df node_col)))
              (map astype_str (getitem df node_col)) 64
              "Max NRFrequency definitions per node (limit 64)"
              "NR nodes with NRFrequency definitions at limit 64"
              (appended (cardinality_nr_freq (TFrame df))))
  /\ (forall (df : DataFrame) (cell_col_gu : string),
         empty df = false ->
         as_label (resolve_column_case_insensitive df
                     ["EUtranCellFDDId"; "EUtranCellId"; "CellId"; "GUCellId"])
         = Some cell_col_gu ->
         outcome (cardinality_gu_freq_rel (TFrame df)) = inl tt
         /\ cardinality_rows_spec astype_str
              (fun k => count_occ_by cell_eqb k (getitem df cell_col_gu))
              (getitem df cell_col_gu) 16
              "Max GUtranFreqRelation per LTE cell (limit 16)"
              "LTE cells with GUtranFreqRelation count at limit 16"
              (appended (cardinality_gu_freq_rel (TFrame df))))
  /\ (forall (df : DataFrame) (node_col : string),
         empty df = false ->
         as_label (resolve_column_case_insensitive df ["NodeId"]) = Some node_col ->
         outcome (cardinality_gu_sync_signal_freq (TFrame df)) = inl tt
         /\ cardinality_rows_spec (fun s : string => s)
              (fun k => count_occ_by String.eqb k (map astype_str (getitem df node_col)))
              (map astype_str (getitem df node_col)) 24
              "Max GUtranSyncSignalFrequency definitions per node (limit 24)"
              "LTE nodes with GUtranSyncSignalFrequency definitions at limit 24"
              (appended (cardinality_gu_sync_signal_freq (TFrame df))))
  /\ cardinality_nr_freq_rel (TFrame Scenario.nr_freq_rel_crowded)
     = ([ mkRow "Cardinality Audit" "Cardinality"
            "Max NRFreqRelation per NR cell (limit 16)" (VInt 17) "C17: 17; C16: 16";
          mkRow "Cardinality Inconsistencies" "Cardinality"
            "NR cells with NRFreqRelation count at limit 16" (VInt 1) "C16: 16" ],
        inl tt).
Proof.
  split; [|split; [|split; [|split]]].
  - intros df cell_col He Hc. split; [apply checker_returns|].
    unfold cardinality_nr_freq_rel. enter_frame He. rewrite Hc.
    apply cardinality_block; [apply cell_eqb_eq | now apply frame_with_lines].
  - intros df node_col He Hc. split; [apply checker_returns|].
    unfold cardinality_nr_freq. enter_frame He. rewrite Hc.
    apply cardinality_block;
      [apply String.eqb_eq | now apply map_not_nil, frame_with_lines].
  - intros df cell_col_gu He Hc. split; [apply checker_returns|].
    unfold cardinality_gu_freq_rel. enter_frame He. rewrite Hc.
    apply cardinality_block; [apply cell_eqb_eq | now apply frame_with_lines].
  - intros df node_col He Hc. split; [apply checker_returns|].
    unfold cardinality_gu_sync_signal_freq. enter_frame He. rewrite Hc.
    apply cardinality_block;
      [apply String.eqb_eq | now apply map_not_nil, frame_with_lines].
  - reflexivity.
Qed.

Lemma cardinality_rows_witness :
  empty Scenario.nr_freq_rel_crowded = false
  /\ cardinality_rows_spec astype_str
       (fun k => count_occ_by cell_eqb k (getitem Scenario.nr_freq_rel_crowded "NRCellCUId"))
       (getitem Scenario.nr_freq_rel_crowded "NRCellCUId") 16
       "Max NRFreqRelation per NR cell (limit 16)"
       "NR cells with NRFreqRelation count at limit 16"
       (appended (cardinality_nr_freq_rel (TFrame Scenario.nr_freq_rel_crowded))).
Proof.
  split; [reflexivity|].
  apply (proj1 cardinality_rows_report_max_and_limit Scenario.nr_freq_rel_crowded
           "NRCellCUId" eq_refl eq_refl).
Defined.

(* ===================================================================== *)
(** ** EndcDistrProfile *)
(* ===================================================================== *)

Lemma string_mem_In (x : string) (l : list string) :
  Py.mem String.eqb x l = true <-> In x l.
Proof. apply mem_In, String.eqb_eq. Qed.

(** The nodes listed for a mask: the nodes of which some line passes it. *)
Lemma masked_nodes_In {B} (mask : string * B -> bool) (lines : list (string * B))
  (n : string) :
  In n (Py.sorted (unique (map fst (filter mask lines))))
  <-> exists b, In (n, b) lines /\ mask (n, b) = true.
Proof.
  rewrite sorted_In. unfold unique. rewrite (dedup_In _ String.eqb_eq), in_map_iff.
  split.
  - intros [[n' b] [<- H]]. apply filter_In in H. now exists b.
  - intros [b [H1 H2]]. exists (n, b). split; [reflexivity | now apply filter_In].
Qed.

Lemma masked_nodes_NoDup {B} (mask : string * B -> bool) (lines : list (string * B)) :
  NoDup (Py.sorted (unique (map fst (filter mask lines)))).
Proof. apply sorted_by_NoDup, (dedup_NoDup _ String.eqb_eq). Qed.

(** C8, as the code has it.  On a frame with lines whose NodeId and
    gUtranFreqRef columns resolve, the checker appends three rows.  With S
    the set of frequencies read from the reference of a line, a node is
    listed in the first row iff S holds str(old_arfcn) and str(n77b_ssb) for
    at least one of its lines, in the second row iff S holds str(new_arfcn)
    and str(n77b_ssb) for at least one of its lines, and in the
    inconsistencies row iff, for at least one of its lines, S holds neither
    str(old_arfcn) nor str(new_arfcn), or does not hold str(n77b_ssb).  Every
    node is listed once in a row and the value of the row is the number of
    nodes it lists. *)
Theorem endc_nodes_listed_iff_some_line_matches :
  forall (utils : FreqUtils) (df : DataFrame) (old_arfcn new_arfcn n77b_ssb : Z)
         (node_col ref_col : string),
    empty df = false ->
    as_label (resolve_column_case_insensitive df ["NodeId"]) = Some node_col ->
    as_label (resolve_column_case_insensitive df ["gUtranFreqRef"]) = Some ref_col ->
    exists old_nodes new_nodes bad_nodes : list string,
      process_endc_distr_profile (TFrame df) old_arfcn new_arfcn n77b_ssb
      = ([ mkRow "EndcDistrProfile Audit" "EndcDistrProfile"
             (Py.fstr ["Nodes with gUtranFreqRef containing "; str old_arfcn; " and ";
                       str n77b_ssb; " in EndcDistrProfile"])
             (VInt (Py.len old_nodes)) (Py.join ", " old_nodes);
           mkRow "EndcDistrProfile Audit" "EndcDistrProfile"
             (Py.fstr ["Nodes with gUtranFreqRef containing "; str new_arfcn; " and ";
                       str n77b_ssb; " in EndcDistrProfile"])
             (VInt (Py.len new_nodes)) (Py.join ", " new_nodes);
           mkRow "EndcDistrProfile Inconsistencies" "EndcDistrProfile"
             (Py.fstr ["Nodes with gUtranFreqRef not containing ("; str old_arfcn;
                       " or "; str new_arfcn; ") together with "; str n77b_ssb;
                       " in EndcDistrProfile"])
             (VInt (Py.len bad_nodes)) (Py.join ", " bad_nodes) ],
          inl tt)
      /\ (forall n, In n old_nodes <->
                    exists S, In (n, S) (endc_lines df node_col ref_col)
                              /\ In (str old_arfcn) S /\ In (str n77b_ssb) S)
      /\ (forall n, In n new_nodes <->
                    exists S, In (n, S) (endc_lines df node_col ref_col)
                              /\ In (str new_arfcn) S /\ In (str n77b_ssb) S)
      /\ (forall n, In n bad_nodes <->
                    exists S, In (n, S) (endc_lines df node_col ref_col)
                              /\ ((~ In (str old_arfcn) S /\ ~ In (str new_arfcn) S)
                                  \/ ~ In (str n77b_ssb) S))
      /\ NoDup old_nodes /\ NoDup new_nodes /\ NoDup bad_nodes.
Proof.
  intros utils df old new n77b node_col ref_col He Hn Hr.
  unfold process_endc_distr_profile. enter_frame He. rewrite Hn, Hr.
  fold (endc_lines df node_col ref_col).
  do 3 eexists. split; [reflexivity|].
  split; [|split; [|split; [|repeat split; apply masked_nodes_NoDup]]].
  - intro n. rewrite masked_nodes_In. cbn [snd].
    split; intros [S [H1 H2]]; exists S; (split; [exact H1|]).
    + apply andb_true_iff in H2. now rewrite !string_mem_In in H2.
    + apply andb_true_iff. now rewrite !string_mem_In.
  - intro n. rewrite masked_nodes_In. cbn [snd].
    split; intros [S [H1 H2]]; exists S; (split; [exact H1|]).
    + apply andb_true_iff in H2. now rewrite !string_mem_In in H2.
    + apply andb_true_iff. now rewrite !string_mem_In.
  - intro n. rewrite masked_nodes_In. cbn [snd].
    split; intros [S [H1 H2]]; exists S; (split; [exact H1|]).
    + apply orb_true_iff in H2. rewrite andb_true_iff, !negb_true_iff in H2.
      rewrite <- !string_mem_In.
      destruct H2 as [[Ho Hw]|Hb]; [left; split | right]; congruence.
    + apply orb_true_iff. rewrite andb_true_iff, !negb_true_iff.
      rewrite <- !string_mem_In in H2.
      destruct H2 as [[Ho Hw]|Hb]; [left; split | right];
        match goal with |- ?b = false => destruct b; [exfalso; auto | reflexivity] end.
Qed.

Lemma endc_nodes_listed_witness :
  empty Scenario.endc_one_profile = false
  /\ exists old_nodes new_nodes bad_nodes : list string,
       (forall n, In n new_nodes <->
                  exists S, In (n, S) (@endc_lines SpecUtils.utils
                                         Scenario.endc_one_profile "NodeId" "gUtranFreqRef")
                            /\ In (str 648672) S /\ In (str 660001) S)
       /\ NoDup old_nodes /\ NoDup new_nodes /\ NoDup bad_nodes.
Proof.
  split; [reflexivity|].
  destruct (endc_nodes_listed_iff_some_line_matches SpecUtils.utils
              Scenario.endc_one_profile 652000 648672 660001 eq_refl eq_refl eq_refl)
    as (old_nodes & new_nodes & bad_nodes & _ & _ & Hnew & _ & Hnd).
  exists old_nodes, new_nodes, bad_nodes. split; [exact Hnew | exact Hnd].
Defined.

(** The scenario of the specification: the only line of the node holds the
    new ARFCN and the N77B SSB, and the node is listed in the second row and
    not in the inconsistencies row. *)
Example endc_scenario :
  @process_endc_distr_profile SpecUtils.utils (TFrame Scenario.endc_one_profile)
    652000 648672 660001
  = ([ mkRow "EndcDistrProfile Audit" "EndcDistrProfile"
         "Nodes with gUtranFreqRef containing 652000 and 660001 in EndcDistrProfile"
         (VInt 0) "";
       mkRow "EndcDistrProfile Audit" "EndcDistrProfile"
         "Nodes with gUtranFreqRef containing 648672 and 660001 in EndcDistrProfile"
         (VInt 1) "N1";
       mkRow "EndcDistrProfile Inconsistencies" "EndcDistrProfile"
         "Nodes with gUtranFreqRef not containing (652000 or 648672) together with 660001 in EndcDistrProfile"
         (VInt 0) "" ],
      inl tt).
Proof. reflexivity. Qed.

(** A node with two lines: the reference of the first holds the new ARFCN
    and the N77B SSB, the reference of the second is missing.  The first line
    is not inconsistent, and yet its node is listed in the inconsistencies
    row, next to the second row. *)
Lemma endc_node_of_matching_line_listed_as_inconsistent :
  (exists S,
      nth_error (@endc_lines SpecUtils.utils Scenario.endc_two_profiles
                   "NodeId" "gUtranFreqRef") 0 = Some ("N1", S)
      /\ In (str 648672) S /\ In (str 660001) S)
  /\ @process_endc_distr_profile SpecUtils.utils (TFrame Scenario.endc_two_profiles)
       652000 648672 660001
     = ([ mkRow "EndcDistrProfile Audit" "EndcDistrProfile"
            "Nodes with gUtranFreqRef containing 652000 and 660001 in EndcDistrProfile"
            (VInt 0) "";
          mkRow "EndcDistrProfile Audit" "EndcDistrProfile"
            "Nodes with gUtranFreqRef containing 648672 and 660001 in EndcDistrProfile"
            (VInt 1) "N1";
          mkRow "EndcDistrProfile Inconsistencies" "EndcDistrProfile"
            "Nodes with gUtranFreqRef not containing (652000 or 648672) together with 660001 in EndcDistrProfile"
            (VInt 1) "N1" ],
         inl tt).
Proof.
  split; [|reflexivity].
  exists ["648672"; "30"; "660001"]. split; [reflexivity|].
  split; [now left | right; right; now left].
Qed.

(* ===================================================================== *)
(** ** The parameter check of the relation checkers *)
(* ===================================================================== *)

Section ListEqb.

Variable A : Type.
Variable eqb : A -> A -> bool.
Hypothesis eqb_eq : forall a b, eqb a b = true <-> a = b.

Lemma list_eqb_eq (a b : list A) : list_eqb eqb a b = true <-> a = b.
Proof.
  revert b; induction a as [|x a IH]; intros [|y b]; cbn [list_eqb];
    try (split; [discriminate | intros [=]]); [tauto|].
  rewrite andb_true_iff, eqb_eq, IH. split; [intros [-> ->] | intros [= -> ->]]; auto.
Qed.

End ListEqb.

Lemma entry_eqb_eq (a b : string * Cell) : entry_eqb a b = true <-> a = b.
Proof.
  destruct a as [l c], b as [l' c']. unfold entry_eqb. cbn [fst snd].
  rewrite andb_true_iff, String.eqb_eq, cell_eqb_eq.
  split; [intros [-> ->] | intros [= -> ->]]; auto.
Qed.

Lemma record_eqb_eq (a b : Record_) : record_eqb a b = true <-> a = b.
Proof. apply list_eqb_eq, entry_eqb_eq. Qed.

(** Two frames with the same labels are [equals] iff they have the same
    lines in the same order. *)
Lemma equals_same_columns (a b : DataFrame) :
  columns a = columns b ->
  (equals a b = true <-> records a = records b).
Proof.
  intro Hc. unfold equals. rewrite Hc.
  assert (Hl : list_eqb String.eqb (columns b) (columns b) = true)
    by now apply (list_eqb_eq _ String.eqb_eq).
  rewrite Hl. cbn [andb]. apply list_eqb_eq, record_eqb_eq.
Qed.

Lemma clean_columns (hash : Py.SetOrder) (ignore : list string) (m1 m2 : Record_ -> bool)
  (full : DataFrame) :
  columns (clean hash ignore (loc m1 (loc m2 full)))
  = Py.sorted (filter (fun l => negb (Py.mem String.eqb l (Py.iter hash ignore)))
                      (columns full)).
Proof. reflexivity. Qed.

Lemma loc_not_empty (m1 m2 : Record_ -> bool) (full : DataFrame) :
  columns full <> [] ->
  records (loc m1 (loc m2 full)) <> [] ->
  empty (loc m1 (loc m2 full)) = false.
Proof.
  intros Hc Hr. unfold empty. cbn [loc columns records] in *.
  destruct (columns full); [now contradiction Hc|].
  destruct (filter m1 (filter m2 (records full))); [now contradiction Hr | reflexivity].
Qed.

Lemma assign_columns_not_nil (label : string) (f : Record_ -> Cell) (df : DataFrame) :
  columns df <> [] -> columns (assign label f df) <> [].
Proof.
  intro H. unfold assign. cbn [columns].
  destruct (Py.mem String.eqb label (columns df)); [exact H|].
  destruct (columns df); [now contradiction H | discriminate].
Qed.

Lemma frame_columns_not_nil (df : DataFrame) : empty df = false -> columns df <> [].
Proof. unfold empty. destruct (columns df); [discriminate | discriminate]. Qed.

(** The cells found under a relation: those with a line under it. *)
Lemma cells_with_In (mask : Record_ -> bool) (full : DataFrame) (cell_col c : string) :
  In c (Py.set_of String.eqb (map astype_str (getitem (loc mask full) cell_col)))
  <-> records (loc mask
                 (loc (fun r => String.eqb (astype_str (get r cell_col)) c) full)) <> [].
Proof.
  unfold Py.set_of. rewrite (dedup_In _ String.eqb_eq).
  unfold getitem. cbn [loc records]. rewrite map_map, in_map_iff. split.
  - intros [r [Hc Hr]]. apply filter_In in Hr. destruct Hr as [Hr Hm].
    assert (Hin : In r (filter mask
              (filter (fun r => String.eqb (astype_str (get r cell_col)) c)
                      (records full)))).
    { apply filter_In. split; [|exact Hm].
      apply filter_In. split; [exact Hr | now apply String.eqb_eq]. }
    intro E. rewrite E in Hin. destruct Hin.
  - intro H. destruct (nonempty_In H) as [r Hr].
    apply filter_In in Hr. destruct Hr as [Hr Hm].
    apply filter_In in Hr. destruct Hr as [Hr Hc]. apply String.eqb_eq in Hc.
    exists r. split; [exact Hc | now apply filter_In].
Qed.

(** The cells the loop of a relation checker puts into [bad_cells_params]. *)
Lemma bad_cells_In (hash : Py.SetOrder) (ignore : list string) (cell_col : string)
  (old_mask new_mask : Record_ -> bool) (full : DataFrame) (c : string) :
  columns full <> [] ->
  let rows_of (mask : Record_ -> bool) :=
    loc mask (loc (fun r => String.eqb (astype_str (get r cell_col)) c) full) in
  In c (Py.sorted
          (Py.iter hash
             (Py.set_of String.eqb
                (filter (params_differ hash ignore cell_col old_mask new_mask full)
                   (sorted_and hash
                      (Py.set_of String.eqb
                         (map astype_str (getitem (loc old_mask full) cell_col)))
                      (Py.set_of String.eqb
                         (map astype_str (getitem (loc new_mask full) cell_col))))))))
  <-> records (rows_of old_mask) <> []
      /\ records (rows_of new_mask) <> []
      /\ records (clean hash ignore (rows_of old_mask))
         <> records (clean hash ignore (rows_of new_mask)).
Proof.
  intros Hc rows_of.
  rewrite sorted_In, iter_In. unfold Py.set_of at 1.
  rewrite (dedup_In _ String.eqb_eq), filter_In, sorted_and_In, !cells_with_In.
  unfold params_differ.
  fold (rows_of old_mask). fold (rows_of new_mask).
  assert (Heq : equals (clean hash ignore (rows_of old_mask))
                       (clean hash ignore (rows_of new_mask)) = true
                <-> records (clean hash ignore (rows_of old_mask))
                    = records (clean hash ignore (rows_of new_mask))).
  { apply equals_same_columns. unfold rows_of. now rewrite !clean_columns. }
  assert (Hempty : forall mask, records (rows_of mask) <> [] ->
                                empty (rows_of mask) = false)
    by (intros mask Hr; now apply loc_not_empty).
  split.
  - intros [[Ho Hn] Hd]. split; [exact Ho|]. split; [exact Hn|].
    rewrite (Hempty _ Ho), (Hempty _ Hn) in Hd. cbn [orb] in Hd.
    apply negb_true_iff in Hd. intro E. apply Heq in E. congruence.
  - intros [Ho [Hn Hd]]. split; [split; assumption|].
    rewrite (Hempty _ Ho), (Hempty _ Hn). cbn [orb]. apply negb_true_iff.
    apply not_true_is_false. intro E. apply Heq in E. contradiction.
Qed.

Lemma drop_records_eq (labels : list string) (a b : DataFrame) :
  records a = records b -> records (drop labels a) = records (drop labels b).
Proof. unfold drop. cbn [records]. now intros ->. Qed.

(** C3, as the code has it.  In the LTE relation checker, on a frame with
    lines whose node, relation and cell columns resolve, the last row lists
    exactly the cells that have lines under the old and under the new
    relation identifier and for which the two sets of lines, once the
    ignored columns are dropped, the repeated lines removed and the columns
    put in alphabetical order, differ as sequences of lines: same lines in
    another order count as a difference.  In the NR relation checker, the
    cells of the last row have lines under both frequencies, and a cell with
    lines under both whose two cleaned sequences of lines differ, the helper
    column left aside, is in the last row. *)
Theorem relation_params_compared_as_row_sequences :
  (forall (utils : FreqUtils) (hash : Py.SetOrder) (df : DataFrame)
          (old_arfcn new_arfcn : Z) (node_col arfcn_col cell_col : string),
      empty df = false ->
      as_label (resolve_column_case_insensitive df ["NodeId"]) = Some node_col ->
      as_label (resolve_column_case_insensitive df
                  ["GUtranFreqRelationId"; "gUtranFreqRelationId"]) = Some arfcn_col ->
      as_label (resolve_column_case_insensitive df
                  ["EUtranCellFDDId"; "EUtranCellId"; "CellId"; "GUCellId"])
      = Some cell_col ->
      exists bad : list string,
        nth_error (appended (process_gu_freq_rel hash (TFrame df) old_arfcn new_arfcn)) 7
        = Some (mkRow "LTE Frequency Inconsistences" "GUtranFreqRelation"
                  (Py.fstr ["LTE cells with mismatching params between GUtranFreqRelationId ";
                            rel_id_of old_arfcn; " and "; rel_id_of new_arfcn;
                            " in GUtranFreqRelation"])
                  (VInt (Py.len bad)) (Py.join ", " bad))
        /\ forall c : string,
             In c bad <->
             records (gu_rows_of (gu_full df node_col cell_col arfcn_col)
                        cell_col arfcn_col (rel_id_of old_arfcn) c) <> []
             /\ records (gu_rows_of (gu_full df node_col cell_col arfcn_col)
                           cell_col arfcn_col (rel_id_of new_arfcn) c) <> []
             /\ records (gu_cleaned hash (gu_full df node_col cell_col arfcn_col)
                           cell_col arfcn_col (rel_id_of old_arfcn) c)
                <> records (gu_cleaned hash (gu_full df node_col cell_col arfcn_col)
                              cell_col arfcn_col (rel_id_of new_arfcn) c))
  /\ (forall (utils : FreqUtils) (hash : Py.SetOrder) (df : DataFrame)
             (old_arfcn new_arfcn : Z) (node_col arfcn_col cell_col : string),
         empty df = false ->
         as_label (resolve_column_case_insensitive df ["NodeId"]) = Some node_col ->
         as_label (resolve_column_case_insensitive df ["NRFreqRelationId"])
         = Some arfcn_col ->
         as_label (resolve_column_case_insensitive df ["NRCellCUId"; "NRCellId"; "CellId"])
         = Some cell_col ->
         n77_lines df node_col arfcn_col <> [] ->
         exists bad : list string,
           nth_error (appended (process_nr_freq_rel hash (TFrame df) old_arfcn new_arfcn)) 7
           = Some (mkRow "NR Frequency Inconsistencies" "NRFreqRelation"
                     (Py.fstr ["NR cells with mismatching params between old ARFCN (";
                               str old_arfcn; ") and the new ARFCN ("; str new_arfcn;
                               ") in NRFreqRelation"])
                     (VInt (Py.len bad)) (Py.join ", " bad))
           /\ forall c : string,
                (In c bad ->
                 records (nr_rows_of (nr_full df node_col cell_col arfcn_col)
                            cell_col old_arfcn c) <> []
                 /\ records (nr_rows_of (nr_full df node_col cell_col arfcn_col)
                               cell_col new_arfcn c) <> [])
                /\ (records (nr_rows_of (nr_full df node_col cell_col arfcn_col)
                               cell_col old_arfcn c) <> [] ->
                    records (nr_rows_of (nr_full df node_col cell_col arfcn_col)
                               cell_col new_arfcn c) <> [] ->
                    records (drop ["_arfcn_int_"]
                               (nr_cleaned hash (nr_full df node_col cell_col arfcn_col)
                                  cell_col arfcn_col old_arfcn c))
                    <> records (drop ["_arfcn_int_"]
                                  (nr_cleaned hash (nr_full df node_col cell_col arfcn_col)
                                     cell_col arfcn_col new_arfcn c)) ->
                    In c bad)).
Proof.
  split.
  - intros utils hash df old new node_col arfcn_col cell_col He Hn Ha Hc.
    eexists. split.
    + unfold process_gu_freq_rel. enter_frame He. rewrite Hn, Ha, Hc.
      rewrite appended_try_except, !appended_add_row_seq.
      cbn [app nth_error appended add_row fst]. reflexivity.
    + intro c. unfold gu_cleaned, gu_rows_of.
      apply bad_cells_In.
      unfold gu_full, astype_str_col.
      now apply assign_columns_not_nil, assign_columns_not_nil, assign_columns_not_nil,
        frame_columns_not_nil.
  - intros utils hash df old new node_col arfcn_col cell_col He Hn Ha Hc Hl.
    eexists. split.
    + unfold process_nr_freq_rel. enter_frame He. rewrite Hn, Ha, Hc.
      unfold n77_lines in Hl.
      destruct (filter (fun nv : string * Cell => is_n77_from_string (snd nv))
                       (node_value_pairs df node_col arfcn_col)) as [|l0 lines] eqn:El;
        [now contradiction Hl|].
      cbn [is_nil negb].
      rewrite appended_try_except, !appended_add_row_seq.
      cbn [app nth_error appended add_row fst]. reflexivity.
    + intro c.
      assert (Hcols : columns (nr_full df node_col cell_col arfcn_col) <> []).
      { unfold nr_full. apply assign_columns_not_nil. cbn [loc columns].
        unfold astype_str_col.
        now apply assign_columns_not_nil, assign_columns_not_nil, frame_columns_not_nil. }
      pose proof (bad_cells_In hash
                    (ignored_columns arfcn_col
                       ["nrfreqrelationid"; "nrfrequencyref"; "reservedby"]
                       (nr_full df node_col cell_col arfcn_col))
                    cell_col
                    (fun r => cell_is_int (get r "_arfcn_int_") old)
                    (fun r => cell_is_int (get r "_arfcn_int_") new)
                    _ c Hcols) as Hbad.
      cbv zeta in Hbad. unfold nr_cleaned, nr_rows_of. split.
      * intro H. apply Hbad in H. tauto.
      * intros Ho Hw Hd. apply Hbad. split; [exact Ho|]. split; [exact Hw|].
        intro E. apply Hd. now apply drop_records_eq.
Qed.

Lemma relation_params_witness :
  empty Scenario.gu_freq_rel_two_nodes = false
  /\ exists bad : list string,
       nth_error (appended (@process_gu_freq_rel SpecUtils.utils SpecUtils.insertion_order
                              (TFrame Scenario.gu_freq_rel_two_nodes) 652000 655000)) 7
       = Some (mkRow "LTE Frequency Inconsistences" "GUtranFreqRelation"
                 (Py.fstr ["LTE cells with mismatching params between GUtranFreqRelationId ";
                           rel_id_of 652000; " and "; rel_id_of 655000;
                           " in GUtranFreqRelation"])
                 (VInt (Py.len bad)) (Py.join ", " bad)).
Proof.
  split; [reflexivity|].
  destruct (proj1 relation_params_compared_as_row_sequences
              SpecUtils.utils SpecUtils.insertion_order Scenario.gu_freq_rel_two_nodes
              652000%Z 655000%Z "NodeId" "GUtranFreqRelationId" "EUtranCellFDDId"
              eq_refl eq_refl eq_refl eq_refl) as [bad [Hrow _]].
  exists bad. exact Hrow.
Defined.

(** The cell C1 of two nodes: its lines under the old relation and its
    lines under the new one are the same lines, in another order, and the
    checker lists the cell as one with mismatching parameters. *)
Lemma lte_cell_flagged_for_same_lines_in_another_order :
  Permutation
    (records (gu_cleaned SpecUtils.insertion_order
                (gu_full Scenario.gu_freq_rel_two_nodes
                   "NodeId" "EUtranCellFDDId" "GUtranFreqRelationId")
                "EUtranCellFDDId" "GUtranFreqRelationId" (rel_id_of 652000) "C1"))
    (records (gu_cleaned SpecUtils.insertion_order
                (gu_full Scenario.gu_freq_rel_two_nodes
                   "NodeId" "EUtranCellFDDId" "GUtranFreqRelationId")
                "EUtranCellFDDId" "GUtranFreqRelationId" (rel_id_of 655000) "C1"))
  /\ nth_error (appended (@process_gu_freq_rel SpecUtils.utils SpecUtils.insertion_order
                            (TFrame Scenario.gu_freq_rel_two_nodes) 652000 655000)) 7
     = Some (mkRow "LTE Frequency Inconsistences" "GUtranFreqRelation"
               "LTE cells with mismatching params between GUtranFreqRelationId 652000-30-20-0-1 and 655000-30-20-0-1 in GUtranFreqRelation"
               (VInt 1) "C1").
Proof.
  split; [|reflexivity].
  vm_compute. apply perm_swap.
Qed.

(** In the NR checker the helper column [_arfcn_int_] stays in the two
    frames that are compared.  A cell with the same parameter under the old
    and the new frequency: its cleaned lines are the same once the helper
    column is left aside, and the cell is listed all the same. *)
Example nr_cell_flagged_for_the_helper_column :
  records (drop ["_arfcn_int_"]
             (nr_cleaned SpecUtils.insertion_order
                (@nr_full SpecUtils.utils Scenario.nr_freq_rel_same_params
                   "NodeId" "NRCellCUId" "NRFreqRelationId")
                "NRCellCUId" "NRFreqRelationId" 652000 "C1"))
  = records (drop ["_arfcn_int_"]
               (nr_cleaned SpecUtils.insertion_order
                  (@nr_full SpecUtils.utils Scenario.nr_freq_rel_same_params
                     "NodeId" "NRCellCUId" "NRFreqRelationId")
                  "NRCellCUId" "NRFreqRelationId" 655000 "C1"))
  /\ nth_error (appended (@process_nr_freq_rel SpecUtils.utils SpecUtils.insertion_order
                            (TFrame Scenario.nr_freq_rel_same_params) 652000 655000)) 7
     = Some (mkRow "NR Frequency Inconsistencies" "NRFreqRelation"
               "NR cells with mismatching params between old ARFCN (652000) and the new ARFCN (655000) in NRFreqRelation"
               (VInt 1) "C1").
Proof. split; reflexivity. Qed.

(* ===================================================================== *)
(** ** The report does not depend on the iteration order of sets *)
(* ===================================================================== *)

Section HashOrder.

Context {utils : FreqUtils}.
Variables h1 h2 : Py.SetOrder.

Lemma iter_iter_perm {A} (s : list A) : Permutation (Py.iter h1 s) (Py.iter h2 s).
Proof.
  eapply Permutation_trans; [apply Py.iter_perm | apply Permutation_sym, Py.iter_perm].
Qed.

Lemma sorted_iter_hash (s : list string) :
  Py.sorted (Py.iter h1 s) = Py.sorted (Py.iter h2 s).
Proof. apply sorted_canonical, iter_iter_perm. Qed.

Lemma sorted_pairs_iter_hash (s : list (string * string)) :
  Py.sorted_pairs (Py.iter h1 s) = Py.sorted_pairs (Py.iter h2 s).
Proof. apply sorted_pairs_canonical, iter_iter_perm. Qed.

Lemma sorted_and_hash (a b : list string) : sorted_and h1 a b = sorted_and h2 a b.
Proof. apply sorted_iter_hash. Qed.

Lemma sorted_sub_hash (a b : list string) : sorted_sub h1 a b = sorted_sub h2 a b.
Proof. apply sorted_iter_hash. Qed.

Lemma mem_iter_hash (x : string) (s : list string) :
  Py.mem String.eqb x (Py.iter h1 s) = Py.mem String.eqb x (Py.iter h2 s).
Proof.
  apply Bool.eq_iff_eq_true. now rewrite !string_mem_In, !iter_In.
Qed.

Lemma drop_hash (ignore : list string) (df : DataFrame) :
  drop (Py.iter h1 ignore) df = drop (Py.iter h2 ignore) df.
Proof.
  unfold drop. f_equal.
  - apply filter_ext. intro l. now rewrite mem_iter_hash.
  - apply map_ext. intro r. apply filter_ext. intro lc. now rewrite mem_iter_hash.
Qed.

Lemma clean_hash (ignore : list string) (rows : DataFrame) :
  clean h1 ignore rows = clean h2 ignore rows.
Proof. unfold clean. now rewrite drop_hash. Qed.

Lemma bad_cells_hash (ignore : list string) (cell_col : string)
  (old_mask new_mask : Record_ -> bool) (full : DataFrame) (cells : list string) :
  filter (params_differ h1 ignore cell_col old_mask new_mask full) cells
  = filter (params_differ h2 ignore cell_col old_mask new_mask full) cells.
Proof.
  apply filter_ext. intro c. unfold params_differ. now rewrite !clean_hash.
Qed.

Lemma try_except_cong {A} (b1 b2 : Chk A) (handler : Exn -> Chk A) :
  b1 = b2 -> try_except b1 handler = try_except b2 handler.
Proof. now intros ->. Qed.

Lemma bind_cong {A B} (m : Chk A) (k1 k2 : A -> Chk B) :
  (forall a, k1 a = k2 a) -> bind m k1 = bind m k2.
Proof. intro H. destruct m as [w [a|ex]]; cbn [bind]; [now rewrite H | reflexivity]. Qed.

(** The two runs of a checker differ at most in the branch taken for a
    frame with lines. *)
Ltac same_until_frame :=
  apply try_except_cong, bind_cong; intros [df|]; [|reflexivity]; cbv zeta.

Variables old_arfcn new_arfcn : Z.

Lemma process_nr_freq_hash (t : Table) :
  process_nr_freq h1 t old_arfcn new_arfcn = process_nr_freq h2 t old_arfcn new_arfcn.
Proof.
  unfold process_nr_freq. same_until_frame.
  do 2 (destruct (as_label _); [|reflexivity]).
  destruct (negb _); [|reflexivity].
  now rewrite !sorted_and_hash, !sorted_sub_hash.
Qed.

Lemma process_gu_sync_signal_freq_hash (t : Table) :
  process_gu_sync_signal_freq h1 t old_arfcn new_arfcn
  = process_gu_sync_signal_freq h2 t old_arfcn new_arfcn.
Proof.
  unfold process_gu_sync_signal_freq. same_until_frame.
  do 2 (destruct (as_label _); [|reflexivity]).
  now rewrite !sorted_and_hash, !sorted_sub_hash.
Qed.

Lemma process_nr_freq_rel_hash (t : Table) :
  process_nr_freq_rel h1 t old_arfcn new_arfcn
  = process_nr_freq_rel h2 t old_arfcn new_arfcn.
Proof.
  unfold process_nr_freq_rel. same_until_frame.
  do 2 (destruct (as_label _); [|reflexivity]).
  destruct (negb _); [|reflexivity].
  destruct (as_label _).
  - now rewrite !sorted_and_hash, !sorted_sub_hash, bad_cells_hash, sorted_iter_hash.
  - now rewrite !sorted_and_hash, !sorted_sub_hash.
Qed.

Lemma process_gu_freq_rel_hash (t : Table) :
  process_gu_freq_rel h1 t old_arfcn new_arfcn
  = process_gu_freq_rel h2 t old_arfcn new_arfcn.
Proof.
  unfold process_gu_freq_rel. same_until_frame.
  do 2 (destruct (as_label _); [|reflexivity]).
  destruct (as_label _).
  - now rewrite !sorted_and_hash, !sorted_sub_hash, bad_cells_hash, sorted_iter_hash.
  - now rewrite !sorted_and_hash, !sorted_sub_hash.
Qed.

Lemma process_nr_sector_carrier_hash (t : Table) (allowed_n77_arfcn_set : list Z) :
  process_nr_sector_carrier h1 t allowed_n77_arfcn_set
  = process_nr_sector_carrier h2 t allowed_n77_arfcn_set.
Proof.
  unfold process_nr_sector_carrier. same_until_frame.
  do 2 (destruct (as_label _); [|reflexivity]).
  destruct (negb _); [|reflexivity].
  now rewrite sorted_pairs_iter_hash.
Qed.

End HashOrder.

(** C9.  Two runs of [build_summary_audit] on the same tables with the same
    configuration give the same report, with the same rows in the same
    order, also when the two runs iterate their sets in different orders
    (as two interpreter runs with different string hashes do); and when one
    run raises, for a list of allowed frequencies, so does the other, with
    the same exception.  Nothing else varies from run to run: the list of
    rows is created anew by each call. *)
Theorem build_summary_audit_deterministic :
  forall (utils : FreqUtils) (run1 run2 : Py.SetOrder)
         (df_nr_cell_du df_nr_freq df_nr_freq_rel df_freq_prio_nr
          df_gu_sync_signal_freq df_gu_freq_rel df_nr_sector_carrier
          df_endc_distr_profile : Table)
         (old_arfcn new_arfcn n77b_ssb : Z) (allowed_n77_ssb allowed_n77_arfcn : Allowed),
    build_summary_audit run1 df_nr_cell_du df_nr_freq df_nr_freq_rel df_freq_prio_nr
      df_gu_sync_signal_freq df_gu_freq_rel df_nr_sector_carrier df_endc_distr_profile
      old_arfcn new_arfcn n77b_ssb allowed_n77_ssb allowed_n77_arfcn
    = build_summary_audit run2 df_nr_cell_du df_nr_freq df_nr_freq_rel df_freq_prio_nr
        df_gu_sync_signal_freq df_gu_freq_rel df_nr_sector_carrier df_endc_distr_profile
        old_arfcn new_arfcn n77b_ssb allowed_n77_ssb allowed_n77_arfcn.
Proof.
  intros. unfold build_summary_audit.
  destruct (int_set allowed_n77_ssb) as [allowed_n77_ssb_set|ex]; [|reflexivity].
  destruct (int_set allowed_n77_arfcn) as [allowed_n77_arfcn_set|ex]; [|reflexivity].
  unfold main, run_checkers.
  rewrite (process_nr_freq_hash run1 run2), (process_nr_freq_rel_hash run1 run2),
    (process_nr_sector_carrier_hash run1 run2),
    (process_gu_sync_signal_freq_hash run1 run2), (process_gu_freq_rel_hash run1 run2).
  reflexivity.
Qed.

(** Two runs that iterate their sets in opposite orders, on the table of
    the cell defined on two nodes. *)
Example build_summary_audit_two_runs :
  @build_summary_audit SpecUtils.utils SpecUtils.insertion_order
    TNone TNone TNone TNone TNone (TFrame Scenario.gu_freq_rel_two_nodes) TNone TNone
    652000 655000 650006 nothing nothing
  = @build_summary_audit SpecUtils.utils SpecUtils.reverse_order
      TNone TNone TNone TNone TNone (TFrame Scenario.gu_freq_rel_two_nodes) TNone TNone
      652000 655000 650006 nothing nothing.
Proof. vm_compute. reflexivity. Qed.

(* ===================================================================== *)
(** ** Every appended row has a place in the priority list *)
(* ===================================================================== *)

Lemma recognized_add_row (c s m : string) (v : Value) (e : string) :
  index_of (c, s) desired_order <> None -> all_recognized (add_row c s m v e).
Proof. intro H. constructor; [exact H | constructor]. Qed.

Lemma recognized_bind {A B} (m : Chk A) (k : A -> Chk B) :
  all_recognized m -> (forall a, all_recognized (k a)) -> all_recognized (bind m k).
Proof.
  unfold all_recognized, appended, bind. intros Hm Hk.
  destruct m as [w [a|ex]]; cbn [fst] in *; [|exact Hm].
  specialize (Hk a). destruct (k a) as [w' r]. cbn [fst] in *.
  apply Forall_app. split; assumption.
Qed.

Lemma recognized_try_except {A} (body : Chk A) (handler : Exn -> Chk A) :
  all_recognized body -> (forall ex, all_recognized (handler ex)) ->
  all_recognized (try_except body handler).
Proof.
  unfold all_recognized. intros Hb Hh. rewrite appended_try_except.
  apply Forall_app. split; [exact Hb|].
  destruct (outcome body); [constructor | apply Hh].
Qed.

Lemma recognized_present (t : Table) : all_recognized (not_none_and_not_empty t).
Proof. destruct t; constructor. Qed.

Ltac recognized :=
  cbv zeta;
  repeat first
    [ apply recognized_try_except; [|intro]
    | apply recognized_present
    | apply recognized_bind; [|intro]
    | apply recognized_add_row; vm_compute; discriminate
    | match goal with
      | |- all_recognized (match ?x with _ => _ end) => destruct x
      end ].

Section Recognized.

Context {utils : FreqUtils}.
Variable hash : Py.SetOrder.
Variables df_nr_cell_du df_nr_freq df_nr_freq_rel df_freq_prio_nr : Table.
Variables df_gu_sync_signal_freq df_gu_freq_rel : Table.
Variables df_nr_sector_carrier df_endc_distr_profile : Table.
Variables old_arfcn new_arfcn n77b_ssb : Z.
Variable allowed_n77_arfcn_set : list Z.

Lemma run_checkers_recognized :
  all_recognized
    (run_checkers hash df_nr_cell_du df_nr_freq df_nr_freq_rel df_freq_prio_nr
       df_gu_sync_signal_freq df_gu_freq_rel df_nr_sector_carrier
       df_endc_distr_profile old_arfcn new_arfcn n77b_ssb allowed_n77_arfcn_set).
Proof.
  unfold run_checkers, process_cardinalities.
  repeat (apply recognized_bind; [|intro]).
  - unfold process_nr_freq. recognized.
  - unfold process_nr_freq_rel. recognized.
  - unfold process_nr_cell_du. recognized.
  - unfold process_nr_sector_carrier. recognized.
  - unfold process_freq_prio_nr. recognized.
  - unfold process_gu_sync_signal_freq. recognized.
  - unfold process_gu_freq_rel. recognized.
  - unfold process_endc_distr_profile. recognized.
  - unfold cardinality_nr_freq_rel. recognized.
  - unfold cardinality_nr_freq. recognized.
  - unfold cardinality_gu_freq_rel. recognized.
  - unfold cardinality_gu_sync_signal_freq. recognized.
Qed.

End Recognized.

(* ===================================================================== *)
(** ** Every checker appends a row *)
(* ===================================================================== *)

Lemma appends_add_row (c s m : string) (v : Value) (e : string) :
  appends_or_raises (add_row c s m v e).
Proof. left. discriminate. Qed.

Lemma appends_bind {A B} (m : Chk A) (k : A -> Chk B) :
  (forall a, appends_or_raises (k a)) -> appends_or_raises (bind m k).
Proof.
  unfold appends_or_raises, appended, outcome, bind. intro Hk.
  destruct m as [w [a|ex]]; cbn [fst snd]; [|right; now exists ex].
  specialize (Hk a). destruct (k a) as [w' r]. cbn [fst snd] in *.
  destruct Hk as [Hk|Hk]; [left | now right].
  intro H. apply app_eq_nil in H. tauto.
Qed.

Lemma appends_try_except {A} (body : Chk A) (handler : Exn -> Chk A) :
  appends_or_raises body ->
  (forall ex, appended (handler ex) <> []) ->
  appended (try_except body handler) <> [].
Proof.
  intros Hb Hh. rewrite appended_try_except. intro H.
  apply app_eq_nil in H. destruct H as [H1 H2].
  destruct Hb as [Hb|[ex Hb]]; [contradiction|].
  rewrite Hb in H2. now apply (Hh ex).
Qed.

Ltac appends :=
  cbv zeta;
  apply appends_try_except; [|intro; discriminate];
  repeat first
    [ apply appends_add_row
    | apply appends_bind; intro
    | match goal with
      | |- appends_or_raises (match ?x with _ => _ end) => destruct x
      end ].

Section Appends.

Context {utils : FreqUtils}.
Variable hash : Py.SetOrder.
Variables old_arfcn new_arfcn n77b_ssb : Z.
Variable allowed_n77_arfcn_set : list Z.
Variable t : Table.

Lemma process_nr_freq_rel_appends :
  appended (process_nr_freq_rel hash t old_arfcn new_arfcn) <> [].
Proof. unfold process_nr_freq_rel. appends. Qed.

Lemma process_nr_cell_du_appends : appended (process_nr_cell_du t) <> [].
Proof. unfold process_nr_cell_du. appends. Qed.

Lemma process_nr_sector_carrier_appends :
  appended (process_nr_sector_carrier hash t allowed_n77_arfcn_set) <> [].
Proof. unfold process_nr_sector_carrier. appends. Qed.

Lemma process_freq_prio_nr_appends : appended (process_freq_prio_nr t) <> [].
Proof. unfold process_freq_prio_nr. appends. Qed.

Lemma process_gu_sync_signal_freq_appends :
  appended (process_gu_sync_signal_freq hash t old_arfcn new_arfcn) <> [].
Proof. unfold process_gu_sync_signal_freq. appends. Qed.

Lemma process_gu_freq_rel_appends :
  appended (process_gu_freq_rel hash t old_arfcn new_arfcn) <> [].
Proof. unfold process_gu_freq_rel. appends. Qed.

Lemma process_endc_distr_profile_appends :
  appended (process_endc_distr_profile t old_arfcn new_arfcn n77b_ssb) <> [].
Proof. unfold process_endc_distr_profile. appends. Qed.

Lemma cardinality_nr_freq_rel_appends : appended (cardinality_nr_freq_rel t) <> [].
Proof. unfold cardinality_nr_freq_rel. appends. Qed.

Lemma cardinality_nr_freq_appends : appended (cardinality_nr_freq t) <> [].
Proof. unfold cardinality_nr_freq. appends. Qed.

Lemma cardinality_gu_freq_rel_appends : appended (cardinality_gu_freq_rel t) <> [].
Proof. unfold cardinality_gu_freq_rel. appends. Qed.

Lemma cardinality_gu_sync_signal_freq_appends :
  appended (cardinality_gu_sync_signal_freq t) <> [].
Proof. unfold cardinality_gu_sync_signal_freq. appends. Qed.

End Appends.

Lemma length_positive {A} (l : list A) : l <> [] -> 1 <= List.length l.
Proof. destruct l; [intro H; now contradiction H | cbn; lia]. Qed.

Lemma length_appended_seq (m k : Chk unit) (n : nat) :
  outcome m = inl tt -> appended m <> [] -> n <= List.length (appended k) ->
  S n <= List.length (appended (m ;; k)).
Proof.
  intros Ho Hm Hk. rewrite (appended_seq _ _ Ho), length_app.
  apply length_positive in Hm. lia.
Qed.

Section ReportRows.

Context {utils : FreqUtils}.
Variable hash : Py.SetOrder.
Variables df_nr_cell_du df_nr_freq df_nr_freq_rel df_freq_prio_nr : Table.
Variables df_gu_sync_signal_freq df_gu_freq_rel : Table.
Variables df_nr_sector_carrier df_endc_distr_profile : Table.
Variables old_arfcn new_arfcn n77b_ssb : Z.
Variable allowed_n77_arfcn_set : list Z.

Let rows : list Row :=
  appended
    (run_checkers hash df_nr_cell_du df_nr_freq df_nr_freq_rel df_freq_prio_nr
       df_gu_sync_signal_freq df_gu_freq_rel df_nr_sector_carrier
       df_endc_distr_profile old_arfcn new_arfcn n77b_ssb allowed_n77_arfcn_set).

Lemma report_permutes_rows : Permutation (assemble rows) rows.
Proof.
  rewrite assemble_sorted.
  assert (H : with_fallback rows = rows).
  { unfold with_fallback. destruct rows eqn:E; [|reflexivity].
    now contradiction (run_checkers_appends hash df_nr_cell_du df_nr_freq df_nr_freq_rel
                         df_freq_prio_nr df_gu_sync_signal_freq df_gu_freq_rel
                         df_nr_sector_carrier df_endc_distr_profile
                         old_arfcn new_arfcn n77b_ssb allowed_n77_arfcn_set). }
  rewrite H. apply sort_values_perm.
Qed.

Lemma rows_at_least_twelve : 12 <= List.length rows.
Proof.
  unfold rows, run_checkers, process_cardinalities.
  repeat (apply length_appended_seq;
          [ first [apply checker_returns | apply process_cardinalities_returns]
          | first [ apply process_nr_freq_appends | apply process_nr_freq_rel_appends
                  | apply process_nr_cell_du_appends
                  | apply process_nr_sector_carrier_appends
                  | apply process_freq_prio_nr_appends
                  | apply process_gu_sync_signal_freq_appends
                  | apply process_gu_freq_rel_appends
                  | apply process_endc_distr_profile_appends
                  | apply cardinality_nr_freq_rel_appends
                  | apply cardinality_nr_freq_appends
                  | apply cardinality_gu_freq_rel_appends ]
          | ]).
  apply length_positive, cardinality_gu_sync_signal_freq_appends.
Qed.

End ReportRows.

(** X1.  Once the two sets of allowed frequencies are built, the report
    holds exactly the rows the checkers appended, each as
    often as it was appended, in another order: no row is lost or added.
    Every row of the report has a (Category, SubCategory) pair of the
    priority list, and the fallback row "No data available" is never in
    it. *)
Theorem report_is_the_appended_rows_reordered :
  forall (utils : FreqUtils) (hash : Py.SetOrder)
         (df_nr_cell_du df_nr_freq df_nr_freq_rel df_freq_prio_nr
          df_gu_sync_signal_freq df_gu_freq_rel df_nr_sector_carrier
          df_endc_distr_profile : Table)
         (old_arfcn new_arfcn n77b_ssb : Z) (allowed_n77_ssb allowed_n77_arfcn : Allowed)
         (allowed_n77_ssb_set allowed_n77_arfcn_set : list Z),
  int_set allowed_n77_ssb = inl allowed_n77_ssb_set ->
  int_set allowed_n77_arfcn = inl allowed_n77_arfcn_set ->
  exists report : Report,
    build_summary_audit hash df_nr_cell_du df_nr_freq df_nr_freq_rel df_freq_prio_nr
      df_gu_sync_signal_freq df_gu_freq_rel df_nr_sector_carrier df_endc_distr_profile
      old_arfcn new_arfcn n77b_ssb allowed_n77_ssb allowed_n77_arfcn
    = inl report
    /\ Permutation report
         (appended
            (run_checkers hash df_nr_cell_du df_nr_freq df_nr_freq_rel df_freq_prio_nr
               df_gu_sync_signal_freq df_gu_freq_rel df_nr_sector_carrier
               df_endc_distr_profile old_arfcn new_arfcn n77b_ssb allowed_n77_arfcn_set))
    /\ (forall r, In r report -> exists i, bucket_index r = Some i /\ order_row r = i)
    /\ ~ In (mkRow "Info" "Info" "SummaryAudit" (VStr "No data available") "") report.
Proof.
  intros utils hash df_nr_cell_du df_nr_freq df_nr_freq_rel df_freq_prio_nr
    df_gu_sync_signal_freq df_gu_freq_rel df_nr_sector_carrier df_endc_distr_profile
    old_arfcn new_arfcn n77b_ssb allowed_n77_ssb allowed_n77_arfcn
    allowed_n77_ssb_set allowed_n77_arfcn_set Hs Ha.
  eexists. split; [eapply build_summary_audit_assembles; eassumption|].
  pose proof (report_permutes_rows hash df_nr_cell_du df_nr_freq df_nr_freq_rel
                df_freq_prio_nr df_gu_sync_signal_freq df_gu_freq_rel
                df_nr_sector_carrier df_endc_distr_profile
                old_arfcn new_arfcn n77b_ssb allowed_n77_arfcn_set) as HP.
  pose proof (run_checkers_recognized hash df_nr_cell_du df_nr_freq df_nr_freq_rel
                df_freq_prio_nr df_gu_sync_signal_freq df_gu_freq_rel
                df_nr_sector_carrier df_endc_distr_profile
                old_arfcn new_arfcn n77b_ssb allowed_n77_arfcn_set) as HR.
  unfold all_recognized in HR. rewrite Forall_forall in HR.
  assert (Hb : forall r, In r (assemble (appended
                 (run_checkers hash df_nr_cell_du df_nr_freq df_nr_freq_rel
                    df_freq_prio_nr df_gu_sync_signal_freq df_gu_freq_rel
                    df_nr_sector_carrier df_endc_distr_profile
                    old_arfcn new_arfcn n77b_ssb allowed_n77_arfcn_set))) ->
               bucket_index r <> None).
  { intros r Hr. apply HR. eapply Permutation_in; [exact HP | exact Hr]. }
  split; [exact HP|]. split.
  - intros r Hr. specialize (Hb r Hr). rewrite order_row_bucket.
    destruct (bucket_index r) as [i|]; [now exists i | now contradiction Hb].
  - intro Hr. apply Hb in Hr. now apply Hr.
Qed.

Lemma report_is_the_appended_rows_reordered_witness :
  exists report : Report,
    @build_summary_audit SpecUtils.utils SpecUtils.reverse_order
      TNone (TFrame Scenario.nr_freq_mixed) TNone TNone TNone TNone TNone TNone
      652000 655000 650006 nothing (collection [inl 650006%Z; inl 650006%Z])
    = inl report
    /\ ~ In (mkRow "Info" "Info" "SummaryAudit" (VStr "No data available") "") report.
Proof.
  destruct (@report_is_the_appended_rows_reordered SpecUtils.utils
              SpecUtils.reverse_order
              TNone (TFrame Scenario.nr_freq_mixed) TNone TNone TNone TNone TNone TNone
              652000%Z 655000%Z 650006%Z nothing (collection [inl 650006%Z; inl 650006%Z])
              [] [650006%Z] eq_refl eq_refl)
    as (report & Hrep & _ & _ & Hinfo).
  exists report. split; [exact Hrep | exact Hinfo].
Defined.

(** X2.  Each of the eight checkers and each of the four blocks of the
    cardinality checker appends at least one row, whatever its table is; so
    the report, returned once the two sets of allowed frequencies are
    built, has at least twelve rows.  It has exactly twelve when all the
    tables are absent. *)
Theorem report_has_at_least_twelve_rows :
  (forall (utils : FreqUtils) (hash : Py.SetOrder)
          (df_nr_cell_du df_nr_freq df_nr_freq_rel df_freq_prio_nr
           df_gu_sync_signal_freq df_gu_freq_rel df_nr_sector_carrier
           df_endc_distr_profile : Table)
          (old_arfcn new_arfcn n77b_ssb : Z) (allowed_n77_ssb allowed_n77_arfcn : Allowed)
          (allowed_n77_ssb_set allowed_n77_arfcn_set : list Z),
      int_set allowed_n77_ssb = inl allowed_n77_ssb_set ->
      int_set allowed_n77_arfcn = inl allowed_n77_arfcn_set ->
      exists report : Report,
        build_summary_audit hash df_nr_cell_du df_nr_freq df_nr_freq_rel df_freq_prio_nr
          df_gu_sync_signal_freq df_gu_freq_rel df_nr_sector_carrier
          df_endc_distr_profile old_arfcn new_arfcn n77b_ssb
          allowed_n77_ssb allowed_n77_arfcn
        = inl report
        /\ 12 <= List.length report)
  /\ (forall (utils : FreqUtils) (hash : Py.SetOrder)
             (old_arfcn new_arfcn n77b_ssb : Z) (allowed_n77_ssb allowed_n77_arfcn : Allowed)
             (allowed_n77_ssb_set allowed_n77_arfcn_set : list Z),
         int_set allowed_n77_ssb = inl allowed_n77_ssb_set ->
         int_set allowed_n77_arfcn = inl allowed_n77_arfcn_set ->
         exists report : Report,
           build_summary_audit hash TNone TNone TNone TNone TNone TNone TNone TNone
             old_arfcn new_arfcn n77b_ssb allowed_n77_ssb allowed_n77_arfcn
           = inl report
           /\ List.length report = 12).
Proof.
  split.
  - intros. eexists.
    split; [eapply build_summary_audit_assembles; eassumption|].
    rewrite (Permutation_length
               (report_permutes_rows hash df_nr_cell_du df_nr_freq df_nr_freq_rel
                  df_freq_prio_nr df_gu_sync_signal_freq df_gu_freq_rel
                  df_nr_sector_carrier df_endc_distr_profile
                  old_arfcn new_arfcn n77b_ssb allowed_n77_arfcn_set)).
    apply rows_at_least_twelve.
  - intros. eexists.
    split; [eapply build_summary_audit_assembles; eassumption|].
    rewrite (Permutation_length
               (report_permutes_rows hash TNone TNone TNone TNone TNone TNone TNone TNone
                  old_arfcn new_arfcn n77b_ssb allowed_n77_arfcn_set)).
    reflexivity.
Qed.

Lemma report_has_at_least_twelve_rows_witness :
  (exists report : Report,
      @build_summary_audit SpecUtils.utils SpecUtils.insertion_order
        TNone (TFrame Scenario.nr_freq_mixed) TNone TNone TNone TNone TNone TNone
        652000 655000 650006 nothing (collection [inl 650006%Z])
      = inl report
      /\ 12 <= List.length report)
  /\ (exists report : Report,
        @build_summary_audit SpecUtils.utils SpecUtils.insertion_order
          TNone TNone TNone TNone TNone TNone TNone TNone
          652000 655000 650006 nothing (collection [inl 650006%Z])
        = inl report
        /\ List.length report = 12).
Proof.
  split.
  - exact (proj1 report_has_at_least_twelve_rows SpecUtils.utils
             SpecUtils.insertion_order
             TNone (TFrame Scenario.nr_freq_mixed) TNone TNone TNone TNone TNone TNone
             652000%Z 655000%Z 650006%Z nothing (collection [inl 650006%Z])
             [] [650006%Z] eq_refl eq_refl).
  - exact (proj2 report_has_at_least_twelve_rows SpecUtils.utils
             SpecUtils.insertion_order 652000%Z 655000%Z 650006%Z
             nothing (collection [inl 650006%Z]) [] [650006%Z] eq_refl eq_refl).
Defined.

(* ===================================================================== *)
(** ** The node-level rows of the frequency checkers *)
(* ===================================================================== *)

Lemma sorted_NoDup_ascending (l : list string) :
  StronglySorted (fun a b => String.leb a b = true) l -> NoDup l -> ascending l.
Proof.
  unfold ascending. induction 1 as [|a l Hl IH Ha]; intro Hnd; [constructor|].
  inversion Hnd as [|? ? Hnotin Hnd']; subst.
  constructor; [now apply IH|].
  rewrite Forall_forall in *. intros b Hb. specialize (Ha b Hb).
  unfold String.leb in Ha. unfold String.ltb.
  destruct (String.compare a b) eqn:E; try reflexivity; try discriminate.
  apply String.compare_eq_iff in E. subst. contradiction.
Qed.

Lemma sorted_ascending (l : list string) : NoDup l -> ascending (Py.sorted l).
Proof.
  intro H. apply sorted_NoDup_ascending.
  - apply sorted_by_sorted; [apply String.leb_total | apply string_leb_trans].
  - now apply sorted_by_NoDup.
Qed.

Lemma dedup_NoDup_id {A} (eqb : A -> A -> bool) (l : list A) :
  (forall a b, eqb a b = true <-> a = b) -> NoDup l -> Py.dedup eqb l = l.
Proof.
  intros Heq. induction 1 as [|x l Hx Hl IH]; [reflexivity|].
  cbn [Py.dedup]. rewrite IH. f_equal.
  clear IH Hl. induction l as [|y l IH]; [reflexivity|].
  cbn [filter]. destruct (eqb x y) eqn:E.
  - apply Heq in E. subst. contradiction Hx. now left.
  - cbn [negb]. f_equal. apply IH. intro H. apply Hx. now right.
Qed.

Lemma filter_split_length {A} (p : A -> bool) (l : list A) :
  List.length (filter p l) + List.length (filter (fun x => negb (p x)) l)
  = List.length l.
Proof.
  induction l as [|x l IH]; [reflexivity|].
  cbn [filter]. destruct (p x); cbn [negb List.length]; lia.
Qed.

Lemma iter_length (hash : Py.SetOrder) {A} (s : list A) :
  List.length (Py.iter hash s) = List.length s.
Proof. apply Permutation_length, Py.iter_perm. Qed.

Lemma nodes_where_ascending (test : list Cell -> bool) (lines : list (string * Cell)) :
  ascending (nodes_where test (groupby lines)).
Proof.
  rewrite nodes_where_filter. apply sorted_ascending, NoDup_filter, sorted_by_NoDup.
  apply (dedup_NoDup _ String.eqb_eq).
Qed.

Section NodeLevel.

Context {utils : FreqUtils}.
Variable hash : Py.SetOrder.
Variables old_arfcn new_arfcn : Z.
Variable lines : list (string * Cell).

Let old_nodes := nodes_where (Py.any (is_old old_arfcn)) (groupby lines).
Let new_nodes := nodes_where (Py.any (is_new new_arfcn)) (groupby lines).

(** The lists of the five node-level rows, as every frequency checker
    computes them from its groups. *)
Lemma node_level_lists :
  node_level_spec (is_old old_arfcn) (is_new new_arfcn) lines
    old_nodes new_nodes
    (sorted_and hash (Py.set_of String.eqb old_nodes) (Py.set_of String.eqb new_nodes))
    (sorted_sub hash (Py.set_of String.eqb old_nodes) (Py.set_of String.eqb new_nodes))
    (nodes_where (series_only_not_old_not_new old_arfcn new_arfcn) (groupby lines)).
Proof.
  unfold node_level_spec, Py.set_of.
  assert (Hold : forall n, In n old_nodes <->
                           exists v, In (n, v) lines /\ is_old old_arfcn v = true)
    by (intro n; apply nodes_where_any_In).
  assert (Hnew : forall n, In n new_nodes <->
                           exists v, In (n, v) lines /\ is_new new_arfcn v = true)
    by (intro n; apply nodes_where_any_In).
  split; [exact Hold|]. split; [exact Hnew|].
  split; [intro n; rewrite sorted_and_In, !(dedup_In _ String.eqb_eq); reflexivity|].
  split; [intro n; rewrite sorted_sub_In, !(dedup_In _ String.eqb_eq); reflexivity|].
  split.
  { intro n. rewrite nodes_where_In, Hold, Hnew.
    unfold series_only_not_old_not_new, Py.all. rewrite forallb_forall.
    split.
    - intros [Hn Hall]. split; [exact Hn|].
      split; intros [v [Hv Ht]]; apply group_values_In in Hv;
        specialize (Hall v Hv); unfold is_not_old_not_new in Hall;
        unfold is_old, is_new in Ht; rewrite Ht in Hall;
        rewrite ?orb_true_r in Hall; discriminate.
    - intros [Hn [Ho Hw]]. split; [exact Hn|].
      intros v Hv. apply group_values_In in Hv.
      unfold is_not_old_not_new. apply negb_true_iff, orb_false_iff. split.
      + apply not_true_is_false. intro Ht. apply Ho. now exists v.
      + apply not_true_is_false. intro Ht. apply Hw. now exists v. }
  split.
  { unfold sorted_and, sorted_sub, Py.sorted.
    rewrite !sorted_by_length, !iter_length.
    unfold Py.set_and, Py.set_sub. rewrite filter_split_length.
    unfold old_nodes.
    now rewrite (dedup_NoDup_id _ String.eqb_eq (nodes_where_NoDup _ lines)). }
  split; [apply nodes_where_ascending|].
  split; [apply nodes_where_ascending|].
  split; [apply sorted_ascending, iter_NoDup, NoDup_filter, (dedup_NoDup _ String.eqb_eq)|].
  split; [apply sorted_ascending, iter_NoDup, NoDup_filter, (dedup_NoDup _ String.eqb_eq)|].
  apply nodes_where_ascending.
Qed.

End NodeLevel.

Lemma not_nil_test {A} (l : list A) : l <> [] -> negb (is_nil l) = true.
Proof. destruct l; [intro H; now contradiction H | reflexivity]. Qed.

Lemma nodes_of_pairs {utils : FreqUtils} (p : Cell -> bool) (pairs : list (Cell * Cell)) :
  map (fun nv : Cell * Cell => astype_str (fst nv)) (filter (fun nv => p (snd nv)) pairs)
  = map fst (filter (fun nv : string * Cell => p (snd nv))
               (map (fun nv : Cell * Cell => (astype_str (fst nv), snd nv)) pairs)).
Proof.
  induction pairs as [|x l IH]; [reflexivity|].
  cbn [map filter snd]. destruct (p (snd x)); cbn [map fst]; now rewrite IH.
Qed.

Lemma old_has_value {utils : FreqUtils} (old_arfcn : Z) (v : Cell) :
  is_old old_arfcn v = true -> has_value v = true.
Proof. unfold is_old, has_value. now destruct (parse_int_frequency v). Qed.

Lemma new_has_value {utils : FreqUtils} (new_arfcn : Z) (v : Cell) :
  is_new new_arfcn v = true -> has_value v = true.
Proof. unfold is_new, has_value. now destruct (parse_int_frequency v). Qed.

Lemma n77_lines_incl {utils : FreqUtils} (df : DataFrame) (node_col value_col : string)
  (nv : string * Cell) :
  In nv (n77_lines df node_col value_col) -> In nv (node_value_pairs df node_col value_col).
Proof. unfold n77_lines. intro H. now apply filter_In in H. Qed.

(** X3.  On an NRFrequency frame with lines whose NodeId and ARFCN columns
    resolve and that has a value classified as N77, the checker appends six
    rows and nothing else.  The first lists the nodes that have a line, N77
    or not, with a value the parser reads.  The other five are computed on
    the N77 lines: nodes with the old ARFCN, with the new one, with both,
    with the old but not the new, and nodes none of whose N77 values is old
    or new.  Every list is in strictly increasing order, the value of a row
    is the length of its list, the nodes with both and the nodes with the old
    only add up to the nodes with the old ARFCN, and every node with the old or
    the new ARFCN is in the first row. *)
Theorem nr_freq_count_rows :
  forall (utils : FreqUtils) (hash : Py.SetOrder) (df : DataFrame)
         (old_arfcn new_arfcn : Z) (node_col arfcn_col : string),
    empty df = false ->
    as_label (resolve_column_case_insensitive df ["NodeId"]) = Some node_col ->
    as_label (resolve_column_case_insensitive df
                ["arfcnValueNRDl"; "NRFrequencyId"; "nRFrequencyId"]) = Some arfcn_col ->
    n77_lines df node_col arfcn_col <> [] ->
    exists all_nodes old_nodes new_nodes both old_without_new neither : list string,
      process_nr_freq hash (TFrame df) old_arfcn new_arfcn
      = ([ mkRow "NR Frequency Audit" "NRFrequency"
             "NR nodes with ARFCN defined in NRFrequency"
             (VInt (Py.len all_nodes)) (Py.join ", " all_nodes);
           mkRow "NR Frequency Audit" "NRFrequency"
             (Py.fstr ["NR nodes with the old ARFCN ("; str old_arfcn; ") in NRFrequency"])
             (VInt (Py.len old_nodes)) (Py.join ", " old_nodes);
           mkRow "NR Frequency Audit" "NRFrequency"
             (Py.fstr ["NR nodes with the new ARFCN ("; str new_arfcn; ") in NRFrequency"])
             (VInt (Py.len new_nodes)) (Py.join ", " new_nodes);
           mkRow "NR Frequency Audit" "NRFrequency"
             (Py.fstr ["NR nodes with both, the old ARFCN ("; str old_arfcn;
                       ") and the new ARFCN ("; str new_arfcn; ") in NRFrequency"])
             (VInt (Py.len both)) (Py.join ", " both);
           mkRow "NR Frequency Inconsistencies" "NRFrequency"
             (Py.fstr ["NR nodes with the old ARFCN ("; str old_arfcn;
                       ") but without the new ARFCN ("; str new_arfcn; ") in NRFrequency"])
             (VInt (Py.len old_without_new)) (Py.join ", " old_without_new);
           mkRow "NR Frequency Inconsistencies" "NRFrequency"
             (Py.fstr ["NR nodes with the ARFCN not in ("; str old_arfcn; ", ";
                       str new_arfcn; ") in NRFrequency"])
             (VInt (Py.len neither)) (Py.join ", " neither) ],
          inl tt)
      /\ (forall n, In n all_nodes <->
                    exists v, In (n, v) (node_value_pairs df node_col arfcn_col)
                              /\ has_value v = true)
      /\ ascending all_nodes
      /\ node_level_spec (is_old old_arfcn) (is_new new_arfcn)
           (n77_lines df node_col arfcn_col)
           old_nodes new_nodes both old_without_new neither
      /\ (forall n, In n old_nodes \/ In n new_nodes -> In n all_nodes).
Proof.
  intros utils hash df old new node_col arfcn_col He Hn Ha Hl.
  pose proof (node_level_lists hash old new (n77_lines df node_col arfcn_col)) as Hspec.
  unfold process_nr_freq. enter_frame He. rewrite Hn, Ha.
  fold (n77_lines df node_col arfcn_col). rewrite (not_nil_test Hl).
  do 6 eexists. split; [reflexivity|].
  assert (Hall : forall n,
             In n (Py.sorted (unique (map (fun nv : Cell * Cell => astype_str (fst nv))
                     (filter (fun nv => has_value (snd nv))
                        (getitem2 df node_col arfcn_col)))))
             <-> exists v, In (n, v) (node_value_pairs df node_col arfcn_col)
                           /\ has_value v = true).
  { intro n. rewrite nodes_of_pairs. fold (node_value_pairs df node_col arfcn_col).
    apply (masked_nodes_In (fun nv : string * Cell => has_value (snd nv))). }
  split; [exact Hall|].
  split; [apply sorted_ascending, (dedup_NoDup _ String.eqb_eq)|].
  split; [exact Hspec|].
  destruct Hspec as (Hold & Hnew & _).
  intros n [H|H]; apply Hall.
  - apply Hold in H. destruct H as [v [Hv Ht]].
    exists v. split; [now apply n77_lines_incl | now apply old_has_value in Ht].
  - apply Hnew in H. destruct H as [v [Hv Ht]].
    exists v. split; [now apply n77_lines_incl | now apply new_has_value in Ht].
Qed.

Lemma nr_freq_count_rows_witness :
  empty Scenario.nr_freq_mixed = false
  /\ @n77_lines SpecUtils.utils Scenario.nr_freq_mixed "NodeId" "arfcnValueNRDl" <> []
  /\ exists all_nodes old_nodes new_nodes both old_without_new neither : list string,
       node_level_spec (@is_old SpecUtils.utils 652000) (@is_new SpecUtils.utils 655000)
         (@n77_lines SpecUtils.utils Scenario.nr_freq_mixed "NodeId" "arfcnValueNRDl")
         old_nodes new_nodes both old_without_new neither
       /\ (forall n, In n old_nodes \/ In n new_nodes -> In n all_nodes).
Proof.
  assert (H : @n77_lines SpecUtils.utils Scenario.nr_freq_mixed "NodeId" "arfcnValueNRDl"
              <> []) by discriminate.
  split; [reflexivity|]. split; [exact H|].
  destruct (nr_freq_count_rows SpecUtils.utils SpecUtils.reverse_order
              Scenario.nr_freq_mixed 652000 655000 eq_refl eq_refl eq_refl H)
    as (a & o & n & b & w & x & _ & _ & _ & Hspec & Hincl).
  exists a, o, n, b, w, x. split; [exact Hspec | exact Hincl].
Defined.

Example nr_freq_count_rows_sample :
  map (fun r => (Val r, ExtraInfo r))
      (appended (@process_nr_freq SpecUtils.utils SpecUtils.reverse_order
                   (TFrame Scenario.nr_freq_mixed) 652000 655000))
  = [ (VInt 4, "N1, N2, N3, N4"); (VInt 2, "N1, N2"); (VInt 1, "N1");
      (VInt 1, "N1"); (VInt 1, "N2"); (VInt 1, "N3") ].
Proof. reflexivity. Qed.

(** X4.  On a GUtranSyncSignalFrequency frame with lines whose NodeId and
    ARFCN columns resolve, the checker appends six rows and nothing else,
    computed on all the lines (there is no N77 filter): the nodes with a
    value the parser reads, the nodes with the old ARFCN, with the new one,
    with both, with the old but not the new, and the nodes none of whose
    values is old or new (a node whose values cannot be read is one of
    them).  Every list is in strictly increasing order, the value of a row is
    the length of its list, and every node with the old or the new ARFCN is
    in the first row. *)
Theorem gu_sync_signal_freq_count_rows :
  forall (utils : FreqUtils) (hash : Py.SetOrder) (df : DataFrame)
         (old_arfcn new_arfcn : Z) (node_col arfcn_col : string),
    empty df = false ->
    as_label (resolve_column_case_insensitive df ["NodeId"]) = Some node_col ->
    as_label (resolve_column_case_insensitive df ["arfcn"; "arfcnDL"]) = Some arfcn_col ->
    exists all_nodes old_nodes new_nodes both old_without_new neither : list string,
      process_gu_sync_signal_freq hash (TFrame df) old_arfcn new_arfcn
      = ([ mkRow "LTE Frequency Audit" "GUtranSyncSignalFrequency"
             "LTE nodes with GUtranSyncSignalFrequency defined:"
             (VInt (Py.len all_nodes)) (Py.join ", " all_nodes);
           mkRow "LTE Frequency Audit" "GUtranSyncSignalFrequency"
             (Py.fstr ["LTE nodes with the old ARFCN ("; str old_arfcn;
                       ") in GUtranSyncSignalFrequency"])
             (VInt (Py.len old_nodes)) (Py.join ", " old_nodes);
           mkRow "LTE Frequency Audit" "GUtranSyncSignalFrequency"
             (Py.fstr ["LTE nodes with the new ARFCN ("; str new_arfcn;
                       ") in GUtranSyncSignalFrequency"])
             (VInt (Py.len new_nodes)) (Py.join ", " new_nodes);
           mkRow "LTE Frequency Audit" "GUtranSyncSignalFrequency"
             (Py.fstr ["LTE nodes with both, the old ARFCN ("; str old_arfcn;
                       ") and the new ARFCN ("; str new_arfcn;
                       ") in GUtranSyncSignalFrequency"])
             (VInt (Py.len both)) (Py.join ", " both);
           mkRow "LTE Frequency Inconsistences" "GUtranSyncSignalFrequency"
             (Py.fstr ["LTE nodes with the old ARFCN ("; str old_arfcn;
                       ") but without the new ARFCN ("; str new_arfcn;
                       ") in GUtranSyncSignalFrequency"])
             (VInt (Py.len old_without_new)) (Py.join ", " old_without_new);
           mkRow "LTE Frequency Inconsistences" "GUtranSyncSignalFrequency"
             (Py.fstr ["LTE nodes with the ARFCN not in ("; str old_arfcn; ", ";
                       str new_arfcn; ") in GUtranSyncSignalFrequency"])
             (VInt (Py.len neither)) (Py.join ", " neither) ],
          inl tt)
      /\ (forall n, In n all_nodes <->
                    exists v, In (n, v) (node_value_pairs df node_col arfcn_col)
                              /\ has_value v = true)
      /\ ascending all_nodes
      /\ node_level_spec (is_old old_arfcn) (is_new new_arfcn)
           (node_value_pairs df node_col arfcn_col)
           old_nodes new_nodes both old_without_new neither
      /\ (forall n, In n old_nodes \/ In n new_nodes -> In n all_nodes)
      /\ (forall n, In n (map fst (node_value_pairs df node_col arfcn_col)) ->
                    ~ In n all_nodes -> In n neither).
Proof.
  intros utils hash df old new node_col arfcn_col He Hn Ha.
  pose proof (node_level_lists hash old new (node_value_pairs df node_col arfcn_col))
    as Hspec.
  unfold process_gu_sync_signal_freq. enter_frame He. rewrite Hn, Ha.
  do 6 eexists. split; [reflexivity|].
  assert (Hall : forall n,
             In n (Py.sorted (unique (map fst
                     (filter (fun nv : string * Cell => has_value (snd nv))
                        (node_value_pairs df node_col arfcn_col)))))
             <-> exists v, In (n, v) (node_value_pairs df node_col arfcn_col)
                           /\ has_value v = true)
    by (intro n; apply (masked_nodes_In (fun nv : string * Cell => has_value (snd nv)))).
  split; [exact Hall|].
  split; [apply sorted_ascending, (dedup_NoDup _ String.eqb_eq)|].
  split; [exact Hspec|].
  destruct Hspec as (Hold & Hnew & _ & _ & Hneither & _).
  split.
  - intros n [H|H]; apply Hall.
    + apply Hold in H. destruct H as [v [Hv Ht]].
      exists v. split; [exact Hv | now apply old_has_value in Ht].
    + apply Hnew in H. destruct H as [v [Hv Ht]].
      exists v. split; [exact Hv | now apply new_has_value in Ht].
  - intros n Hin Hnot. apply Hneither. split; [exact Hin|].
    split; intro H; apply Hnot, Hall.
    + apply Hold in H. destruct H as [v [Hv Ht]].
      exists v. split; [exact Hv | now apply old_has_value in Ht].
    + apply Hnew in H. destruct H as [v [Hv Ht]].
      exists v. split; [exact Hv | now apply new_has_value in Ht].
Qed.

Lemma gu_sync_signal_freq_count_rows_witness :
  empty Scenario.gu_sync_mixed = false
  /\ exists all_nodes old_nodes new_nodes both old_without_new neither : list string,
       node_level_spec (@is_old SpecUtils.utils 652000) (@is_new SpecUtils.utils 655000)
         (node_value_pairs Scenario.gu_sync_mixed "NodeId" "arfcn")
         old_nodes new_nodes both old_without_new neither
       /\ (forall n, In n old_nodes \/ In n new_nodes -> In n all_nodes).
Proof.
  split; [reflexivity|].
  destruct (gu_sync_signal_freq_count_rows SpecUtils.utils SpecUtils.reverse_order
              Scenario.gu_sync_mixed 652000 655000 eq_refl eq_refl eq_refl)
    as (a & o & n & b & w & x & _ & _ & _ & Hspec & Hincl & _).
  exists a, o, n, b, w, x. split; [exact Hspec | exact Hincl].
Defined.

Example gu_sync_signal_freq_count_rows_sample :
  map (fun r => (Val r, ExtraInfo r))
      (appended (@process_gu_sync_signal_freq SpecUtils.utils SpecUtils.reverse_order
                   (TFrame Scenario.gu_sync_mixed) 652000 655000))
  = [ (VInt 3, "N1, N2, N3"); (VInt 2, "N1, N2"); (VInt 1, "N1");
      (VInt 1, "N1"); (VInt 1, "N2"); (VInt 2, "N3, N4") ].
Proof. reflexivity. Qed.

(** X5.  The first five rows of the two relation checkers are the
    node-level rows: nodes with the old ARFCN, with the new one, with both,
    with the old but not the new, and nodes none of whose relations is old
    or new.  The NR checker computes them on the lines whose relation is
    classified as N77, the LTE checker on all the lines.  The lists are in
    strictly increasing order, the third and the fourth add up to the first,
    and the fifth holds exactly the nodes with a line that are in neither of
    the first two. *)
Theorem relation_checkers_node_rows :
  (forall (utils : FreqUtils) (hash : Py.SetOrder) (df : DataFrame)
          (old_arfcn new_arfcn : Z) (node_col arfcn_col : string),
      empty df = false ->
      as_label (resolve_column_case_insensitive df ["NodeId"]) = Some node_col ->
      as_label (resolve_column_case_insensitive df ["NRFreqRelationId"])
      = Some arfcn_col ->
      n77_lines df node_col arfcn_col <> [] ->
      exists old_nodes new_nodes both old_without_new neither : list string,
        firstn 5 (appended (process_nr_freq_rel hash (TFrame df) old_arfcn new_arfcn))
        = [ mkRow "NR Frequency Audit" "NRFreqRelation"
              (Py.fstr ["NR nodes with the old ARFCN ("; str old_arfcn;
                        ") in NRFreqRelation"])
              (VInt (Py.len old_nodes)) (Py.join ", " old_nodes);
            mkRow "NR Frequency Audit" "NRFreqRelation"
              (Py.fstr ["NR nodes with the new ARFCN ("; str new_arfcn;
                        ") in NRFreqRelation"])
              (VInt (Py.len new_nodes)) (Py.join ", " new_nodes);
            mkRow "NR Frequency Audit" "NRFreqRelation"
              (Py.fstr ["NR nodes with both, the old ARFCN ("; str old_arfcn;
                        ") and the new ARFCN ("; str new_arfcn; ") in NRFreqRelation"])
              (VInt (Py.len both)) (Py.join ", " both);
            mkRow "NR Frequency Inconsistencies" "NRFreqRelation"
              (Py.fstr ["NR nodes with the old ARFCN ("; str old_arfcn;
                        ") but without the new ARFCN ("; str new_arfcn;
                        ") in NRFreqRelation"])
              (VInt (Py.len old_without_new)) (Py.join ", " old_without_new);
            mkRow "NR Frequency Inconsistencies" "NRFreqRelation"
              (Py.fstr ["NR nodes with the ARFCN not in ("; str old_arfcn; ", ";
                        str new_arfcn; ") in NRFreqRelation"])
              (VInt (Py.len neither)) (Py.join ", " neither) ]
        /\ node_level_spec (is_old old_arfcn) (is_new new_arfcn)
             (n77_lines df node_col arfcn_col)
             old_nodes new_nodes both old_without_new neither)
  /\ (forall (utils : FreqUtils) (hash : Py.SetOrder) (df : DataFrame)
             (old_arfcn new_arfcn : Z) (node_col arfcn_col : string),
         empty df = false ->
         as_label (resolve_column_case_insensitive df ["NodeId"]) = Some node_col ->
         as_label (resolve_column_case_insensitive df
                     ["GUtranFreqRelationId"; "gUtranFreqRelationId"]) = Some arfcn_col ->
         exists old_nodes new_nodes both old_without_new neither : list string,
           firstn 5 (appended (process_gu_freq_rel hash (TFrame df) old_arfcn new_arfcn))
           = [ mkRow "LTE Frequency Audit" "GUtranFreqRelation"
                 (Py.fstr ["LTE nodes with the old ARFCN ("; str old_arfcn;
                           ") in GUtranFreqRelation"])
                 (VInt (Py.len old_nodes)) (Py.join ", " old_nodes);
               mkRow "LTE Frequency Audit" "GUtranFreqRelation"
                 (Py.fstr ["LTE nodes with the new ARFCN ("; str new_arfcn;
                           ") in GUtranFreqRelation"])
                 (VInt (Py.len new_nodes)) (Py.join ", " new_nodes);
               mkRow "LTE Frequency Audit" "GUtranFreqRelation"
                 (Py.fstr ["LTE nodes with both, the old ARFCN ("; str old_arfcn;
                           ") and the new ARFCN ("; str new_arfcn;
                           ") in GUtranFreqRelation"])
                 (VInt (Py.len both)) (Py.join ", " both);
               mkRow "LTE Frequency Inconsistences" "GUtranFreqRelation"
                 (Py.fstr ["LTE nodes with the old ARFCN ("; str old_arfcn;
                           ") but without the new ARFCN ("; str new_arfcn;
                           ") in GUtranFreqRelation"])
                 (VInt (Py.len old_without_new)) (Py.join ", " old_without_new);
               mkRow "LTE Frequency Inconsistences" "GUtranFreqRelation"
                 (Py.fstr ["LTE nodes with the ARFCN not in ("; str old_arfcn; ", ";
                           str new_arfcn; ") in GUtranFreqRelation"])
                 (VInt (Py.len neither)) (Py.join ", " neither) ]
           /\ node_level_spec (is_old old_arfcn) (is_new new_arfcn)
                (node_value_pairs df node_col arfcn_col)
                old_nodes new_nodes both old_without_new neither).
Proof.
  split.
  - intros utils hash df old new node_col arfcn_col He Hn Ha Hl.
    pose proof (node_level_lists hash old new (n77_lines df node_col arfcn_col))
      as Hspec.
    do 5 eexists. split; [|exact Hspec].
    unfold process_nr_freq_rel. enter_frame He. rewrite Hn, Ha.
    fold (n77_lines df node_col arfcn_col). rewrite (not_nil_test Hl).
    rewrite appended_try_except, !appended_add_row_seq.
    cbn [app firstn]. reflexivity.
  - intros utils hash df old new node_col arfcn_col He Hn Ha.
    pose proof (node_level_lists hash old new (node_value_pairs df node_col arfcn_col))
      as Hspec.
    do 5 eexists. split; [|exact Hspec].
    unfold process_gu_freq_rel. enter_frame He. rewrite Hn, Ha.
    rewrite appended_try_except, !appended_add_row_seq.
    cbn [app firstn]. reflexivity.
Qed.

Lemma relation_checkers_node_rows_witness :
  empty Scenario.gu_freq_rel_two_nodes = false
  /\ exists old_nodes new_nodes both old_without_new neither : list string,
       node_level_spec (@is_old SpecUtils.utils 652000) (@is_new SpecUtils.utils 655000)
         (node_value_pairs Scenario.gu_freq_rel_two_nodes "NodeId" "GUtranFreqRelationId")
         old_nodes new_nodes both old_without_new neither.
Proof.
  split; [reflexivity|].
  destruct (proj2 relation_checkers_node_rows SpecUtils.utils SpecUtils.reverse_order
              Scenario.gu_freq_rel_two_nodes 652000%Z 655000%Z
              "NodeId" "GUtranFreqRelationId" eq_refl eq_refl eq_refl)
    as (o & n & b & w & x & _ & Hspec).
  exists o, n, b, w, x. exact Hspec.
Defined.

(* ===================================================================== *)
(** ** Node names without white space *)
(* ===================================================================== *)

Lemma rstrip_cons (c : ascii) (s : string) :
  Py.rstrip (String c s)
  = if Py.isspace (String c (Py.rstrip s)) then EmptyString
    else String c (Py.rstrip s).
Proof. reflexivity. Qed.

Lemma rstrip_idempotent (s : string) : Py.rstrip (Py.rstrip s) = Py.rstrip s.
Proof.
  induction s as [|c s IH]; [reflexivity|].
  rewrite rstrip_cons. destruct (Py.isspace (String c (Py.rstrip s))) eqn:E.
  - reflexivity.
  - rewrite rstrip_cons, IH, E. reflexivity.
Qed.

Lemma lstrip_skip (s : string) :
  Py.lstrip s = match skip_space s with
                | Some rest => Py.lstrip rest
                | None => s
                end.
Proof.
  destruct s as [|a r1]; [reflexivity|].
  change (Py.lstrip (String a r1))
    with (if Py.isspace (String a EmptyString) then Py.lstrip r1
          else match r1 with
               | String b r2 =>
                   if Py.isspace (String a (String b EmptyString)) then Py.lstrip r2
                   else match r2 with
                        | String c r3 =>
                            if Py.isspace (String a (String b (String c EmptyString)))
                            then Py.lstrip r3 else String a r1
                        | EmptyString => String a r1
                        end
               | EmptyString => String a r1
               end).
  unfold skip_space.
  destruct (Py.isspace (String a EmptyString)); [reflexivity|].
  destruct r1 as [|b r2]; [reflexivity|].
  destruct (Py.isspace (String a (String b EmptyString))); [reflexivity|].
  destruct r2 as [|c r3]; [reflexivity|].
  destruct (Py.isspace (String a (String b (String c EmptyString)))); reflexivity.
Qed.

Lemma skip_space_shorter (s rest : string) :
  skip_space s = Some rest -> String.length rest < String.length s.
Proof.
  destruct s as [|a [|b [|c r3]]]; cbn [skip_space];
    repeat match goal with
           | |- context [if ?b then _ else _] => destruct b
           end;
    intro H; inversion H; subst; cbn [String.length]; lia.
Qed.

(** What [lstrip] returns does not start with a white-space character. *)
Lemma lstrip_starts_clean (s : string) : skip_space (Py.lstrip s) = None.
Proof.
  remember (String.length s) as n eqn:Hn. revert s Hn.
  induction n as [n IH] using lt_wf_ind. intros s Hn.
  rewrite lstrip_skip. destruct (skip_space s) as [rest|] eqn:E; [|exact E].
  apply (IH (String.length rest)); [|reflexivity].
  subst n. now apply skip_space_shorter.
Qed.

Lemma lstrip_clean (s : string) : skip_space s = None -> Py.lstrip s = s.
Proof. intro H. now rewrite lstrip_skip, H. Qed.

Lemma rstrip_prefix (s : string) : exists w, s = (Py.rstrip s ++ w)%string.
Proof.
  induction s as [|c s [w IH]]; [now exists EmptyString|].
  rewrite rstrip_cons. destruct (Py.isspace _).
  - now exists (String c s).
  - exists w. cbn [append]. now rewrite <- IH.
Qed.

Lemma skip_space_app (u w rest : string) :
  skip_space u = Some rest -> skip_space (u ++ w) = Some (rest ++ w)%string.
Proof.
  destruct u as [|a [|b [|c r3]]]; cbn [skip_space append];
    repeat match goal with
           | |- context [if ?b then _ else _] => destruct b
           end;
    intro H; inversion H; subst; reflexivity.
Qed.

Lemma rstrip_starts_clean (s : string) :
  skip_space s = None -> skip_space (Py.rstrip s) = None.
Proof.
  intro H. destruct (rstrip_prefix s) as [w Hw].
  destruct (skip_space (Py.rstrip s)) as [rest|] eqn:E; [|reflexivity].
  apply (skip_space_app _ w) in E. rewrite <- Hw in E. congruence.
Qed.

(** [s.strip().strip()] is [s.strip()]. *)
Lemma strip_idempotent (s : string) : Py.strip (Py.strip s) = Py.strip s.
Proof.
  unfold Py.strip.
  rewrite (lstrip_clean _ (rstrip_starts_clean _ (lstrip_starts_clean s))).
  apply rstrip_idempotent.
Qed.

(** The first bytes of the white-space characters of two and three bytes,
    and what follows them. *)
Lemma space_of_two (a b : ascii) :
  Py.isspace (String a (String b EmptyString)) = true ->
  nat_of_ascii a = 194 /\ (nat_of_ascii b = 133 \/ nat_of_ascii b = 160).
Proof.
  unfold Py.isspace. cbv zeta.
  rewrite andb_true_iff, orb_true_iff, !Nat.eqb_eq. tauto.
Qed.

Lemma space_of_three (a b c : ascii) :
  Py.isspace (String a (String b (String c EmptyString))) = true ->
  225 <= nat_of_ascii a <= 227 /\ nat_of_ascii b <> 194 /\ 128 <= nat_of_ascii c.
Proof.
  unfold Py.isspace. cbv zeta.
  rewrite !orb_true_iff, !andb_true_iff, !orb_true_iff, !andb_true_iff,
    !Nat.eqb_eq, !Nat.leb_le.
  lia.
Qed.

Lemma not_space_of_one (a : ascii) :
  128 <= nat_of_ascii a -> Py.isspace (String a EmptyString) = false.
Proof.
  intro H. unfold Py.isspace. cbv zeta.
  apply orb_false_iff. split; apply andb_false_iff; right; apply Nat.leb_gt; lia.
Qed.

Lemma not_space_of_two (a b : ascii) :
  nat_of_ascii a <> 194 -> Py.isspace (String a (String b EmptyString)) = false.
Proof.
  intro H. unfold Py.isspace. cbv zeta.
  apply andb_false_iff. left. now apply Nat.eqb_neq.
Qed.

(** A text that starts with a white-space character loses it. *)
Lemma skip_space_found (ch rest : string) :
  Py.isspace ch = true -> skip_space (ch ++ rest) = Some rest.
Proof.
  destruct ch as [|a [|b [|c [|d r]]]]; try discriminate; intro H.
  - cbn [append skip_space]. now rewrite H.
  - destruct (space_of_two _ _ H) as [Ha _].
    cbn [append skip_space].
    rewrite (not_space_of_one a) by lia. now rewrite H.
  - destruct (space_of_three _ _ _ H) as (Ha & _ & _).
    cbn [append skip_space].
    rewrite (not_space_of_one a) by lia.
    rewrite (not_space_of_two a b) by lia. now rewrite H.
Qed.

(** A text that is one white-space character is dropped by [rstrip], and so
    is a white-space character at the end of a text. *)
Lemma rstrip_space (ch : string) : Py.isspace ch = true -> Py.rstrip ch = EmptyString.
Proof.
  destruct ch as [|a [|b [|c [|d r]]]]; try discriminate; intro H.
  - rewrite rstrip_cons. cbn [Py.rstrip]. now rewrite H.
  - destruct (space_of_two _ _ H) as [_ Hb].
    rewrite rstrip_cons, (rstrip_cons b). cbn [Py.rstrip].
    rewrite (not_space_of_one b) by lia. now rewrite H.
  - destruct (space_of_three _ _ _ H) as (_ & Hb & Hc).
    rewrite rstrip_cons, (rstrip_cons b), (rstrip_cons c). cbn [Py.rstrip].
    rewrite (not_space_of_one c) by lia.
    rewrite (not_space_of_two b c) by lia. now rewrite H.
Qed.

Lemma rstrip_app_space (rest ch : string) :
  Py.isspace ch = true -> Py.rstrip (rest ++ ch) = Py.rstrip rest.
Proof.
  intro H. induction rest as [|c rest IH]; [now apply rstrip_space|].
  cbn [append]. now rewrite !rstrip_cons, IH.
Qed.

Lemma length_append (s t : string) :
  String.length (s ++ t) = String.length s + String.length t.
Proof. induction s as [|c s IH]; cbn [append String.length Nat.add]; congruence. Qed.

Lemma rstrip_length (s : string) : String.length (Py.rstrip s) <= String.length s.
Proof.
  destruct (rstrip_prefix s) as [w Hw]. rewrite Hw at 2.
  rewrite length_append. lia.
Qed.

Lemma space_not_empty (ch : string) : Py.isspace ch = true -> 0 < String.length ch.
Proof. destruct ch; [discriminate | cbn [String.length]; lia]. Qed.

(** What [strip] returns has no white-space character at either end. *)
Lemma strip_no_space_around (s : string) : no_space_around (Py.strip s).
Proof.
  intros ch rest Hch. split; intro E.
  - assert (H : skip_space (Py.strip s) = None)
      by (apply rstrip_starts_clean, lstrip_starts_clean).
    rewrite E, (skip_space_found _ rest Hch) in H. discriminate.
  - pose proof (rstrip_idempotent (Py.lstrip s)) as H. fold (Py.strip s) in H.
    rewrite E, (rstrip_app_space rest _ Hch) in H.
    pose proof (rstrip_length rest) as Hlen. rewrite H in Hlen.
    rewrite length_append in Hlen.
    pose proof (space_not_empty _ Hch). lia.
Qed.

Example strip_unicode_sample :
  Py.strip (String (ascii_of_nat 194) (String (ascii_of_nat 160) " N1 ")
            ++ String (ascii_of_nat 226) (String (ascii_of_nat 128)
                 (String (ascii_of_nat 131) "")))%string
  = "N1".
Proof. reflexivity. Qed.

Lemma stripped_lines_In (df : DataFrame) (node_col value_col : string) (n : string)
  (v : Cell) :
  In (n, v) (stripped_lines df node_col value_col) -> Py.strip n = n.
Proof.
  unfold stripped_lines. rewrite in_map_iff. intros [[c w] [E _]].
  cbn [fst snd] in E. injection E as <- _. apply strip_idempotent.
Qed.

(* ===================================================================== *)
(** ** The rows of the NRCellDU, NRSectorCarrier and FreqPrioNR checkers *)
(* ===================================================================== *)

(** X6.  On an NRCellDU frame with lines whose NodeId and ssbFrequency
    columns resolve, the checker appends one row and returns.  The row lists
    the nodes, their names taken without the white space around them, that
    have a line whose SSB is classified as N77; no name listed starts or
    ends with a white-space character, of ASCII or not; the list is in
    strictly increasing order and the value of the row is its length. *)
Theorem nr_cell_du_row :
  forall (utils : FreqUtils) (df : DataFrame) (node_col ssb_col : string),
    empty df = false ->
    as_label (resolve_column_case_insensitive df ["NodeId"]) = Some node_col ->
    as_label (resolve_column_case_insensitive df ["ssbFrequency"]) = Some ssb_col ->
    exists unique_nodes : list string,
      process_nr_cell_du (TFrame df)
      = ([ mkRow "NR Frequency Audit" "NRCellDU"
             "NR nodes with SSB in N77 band (646600-660000) in NRCellDU"
             (VInt (Py.len unique_nodes)) (Py.join ", " unique_nodes) ],
         inl tt)
      /\ (forall n, In n unique_nodes <->
                    exists v, In (n, v) (stripped_lines df node_col ssb_col)
                              /\ is_n77_from_string v = true)
      /\ (forall n, In n unique_nodes -> Py.strip n = n /\ no_space_around n)
      /\ ascending unique_nodes.
Proof.
  intros utils df node_col ssb_col He Hn Hs.
  unfold process_nr_cell_du. enter_frame He. rewrite Hn, Hs.
  fold (stripped_lines df node_col ssb_col).
  eexists. split; [reflexivity|].
  assert (Hin : forall n,
             In n (Py.sorted (unique (map fst
                     (filter (fun nv : string * Cell => is_n77_from_string (snd nv))
                        (stripped_lines df node_col ssb_col)))))
             <-> exists v, In (n, v) (stripped_lines df node_col ssb_col)
                           /\ is_n77_from_string v = true)
    by (intro n; apply (masked_nodes_In (fun nv : string * Cell => is_n77_from_string (snd nv)))).
  split; [exact Hin|]. split.
  - intros n H. apply Hin in H. destruct H as [v [Hv _]].
    apply stripped_lines_In in Hv. split; [exact Hv|].
    rewrite <- Hv. apply strip_no_space_around.
  - apply sorted_ascending, (dedup_NoDup _ String.eqb_eq).
Qed.

(** White space that is not ASCII is removed like any other: the two
    spellings of N1 are one node. *)
Example nr_cell_du_row_nbsp :
  map (fun r => (Val r, ExtraInfo r))
      (appended (@process_nr_cell_du SpecUtils.utils (TFrame Scenario.nr_cell_du_nbsp)))
  = [ (VInt 1, "N1") ].
Proof. reflexivity. Qed.

Lemma nr_cell_du_row_witness :
  empty Scenario.nr_cell_du_blanks = false
  /\ exists unique_nodes : list string,
       @process_nr_cell_du SpecUtils.utils (TFrame Scenario.nr_cell_du_blanks)
       = ([ mkRow "NR Frequency Audit" "NRCellDU"
              "NR nodes with SSB in N77 band (646600-660000) in NRCellDU"
              (VInt (Py.len unique_nodes)) (Py.join ", " unique_nodes) ],
          inl tt)
       /\ ascending unique_nodes.
Proof.
  split; [reflexivity|].
  destruct (nr_cell_du_row SpecUtils.utils Scenario.nr_cell_du_blanks
              eq_refl eq_refl eq_refl) as (l & Hrow & _ & _ & Hasc).
  exists l. split; [exact Hrow | exact Hasc].
Defined.

Example nr_cell_du_row_sample :
  map (fun r => (Val r, ExtraInfo r))
      (appended (@process_nr_cell_du SpecUtils.utils (TFrame Scenario.nr_cell_du_blanks)))
  = [ (VInt 2, "N1, N2") ].
Proof. reflexivity. Qed.

Lemma not_allowed_iff {utils : FreqUtils} (allowed_n77_arfcn_set : list Z) (v : Cell) :
  is_allowed_n77_arfcn allowed_n77_arfcn_set v = false
  <-> forall f, parse_int_frequency v = Some f -> ~ In f allowed_n77_arfcn_set.
Proof.
  unfold is_allowed_n77_arfcn.
  destruct (parse_int_frequency v) as [f|]; [|split; [discriminate | reflexivity]].
  split.
  - intros H g [= <-] Hin.
    rewrite <- (mem_In _ Z.eqb_eq) in Hin. congruence.
  - intro H. apply not_true_is_false. intro Hm.
    rewrite (mem_In _ Z.eqb_eq) in Hm.
    now apply (H f).
Qed.

(** X7.  On an NRSectorCarrier frame with lines whose NodeId and arfcnDL
    columns resolve, the checker appends two rows and returns.  The first
    lists the nodes (names without the white space around them, of ASCII or
    not) with a line whose ARFCN is classified as N77.  When the set of
    allowed ARFCNs is empty (no list given, or an empty one) the second row
    carries N/A.  Otherwise it counts the nodes with an N77 line whose ARFCN
    is not read as a member of the set, and its extra text lists, once each
    and in increasing order, the pairs of such a node and the text of the
    offending ARFCN, without the white space around them; every node counted
    is in the first row. *)
Theorem nr_sector_carrier_rows :
  forall (utils : FreqUtils) (hash : Py.SetOrder) (df : DataFrame)
         (allowed_n77_arfcn_set : list Z) (node_col arfcn_col : string),
    empty df = false ->
    as_label (resolve_column_case_insensitive df ["NodeId"]) = Some node_col ->
    as_label (resolve_column_case_insensitive df ["arfcnDL"]) = Some arfcn_col ->
    exists n77_nodes : list string,
      let first_row :=
        mkRow "NR Frequency Audit" "NRSectorCarrier"
          "NR nodes with ARFCN in N77 band (646600-660000) in NRSectorCarrier"
          (VInt (Py.len n77_nodes)) (Py.join ", " n77_nodes) in
      (forall n, In n n77_nodes <->
                 exists v, In (n, v) (stripped_lines df node_col arfcn_col)
                           /\ is_n77_from_string v = true)
      /\ ascending n77_nodes
      /\ (allowed_n77_arfcn_set = [] ->
          process_nr_sector_carrier hash (TFrame df) allowed_n77_arfcn_set
          = ([ first_row;
               mkRow "NR Frequency Inconsistencies" "NRSectorCarrier"
                 "NR nodes with ARFCN not in allowed list (no allowed list configured)"
                 (VStr "N/A") "" ],
             inl tt))
      /\ (forall (z : Z) (l : list Z),
             allowed_n77_arfcn_set = z :: l ->
             exists (bad_nodes : list string) (unique_pairs : list (string * string)),
               process_nr_sector_carrier hash (TFrame df) allowed_n77_arfcn_set
               = ([ first_row;
                    mkRow "NR Frequency Inconsistencies" "NRSectorCarrier"
                      "NR nodes with ARFCN not in allowed list (from NRSectorCarrier table)"
                      (VInt (Py.len bad_nodes))
                      (Py.join "; "
                         (map (fun na => Py.fstr [fst na; ": "; snd na]) unique_pairs)) ],
                  inl tt)
               /\ (forall n a,
                      In (n, a) unique_pairs <->
                      exists v, In (n, v) (stripped_lines df node_col arfcn_col)
                                /\ is_n77_from_string v = true
                                /\ (forall f, parse_int_frequency v = Some f ->
                                              ~ In f (z :: l))
                                /\ a = Py.strip (astype_str v))
               /\ (forall n a, In (n, a) unique_pairs ->
                                no_space_around n /\ no_space_around a)
               /\ (forall n, In n bad_nodes <-> exists a, In (n, a) unique_pairs)
               /\ (forall n, In n bad_nodes -> In n n77_nodes)
               /\ ascending bad_nodes
               /\ NoDup unique_pairs
               /\ StronglySorted (fun a b => Py.pair_leb a b = true) unique_pairs).
Proof.
  intros utils hash df allowed node_col arfcn_col He Hn Ha.
  eexists. cbv zeta.
  assert (Hin : forall n,
             In n (Py.sorted (unique (map fst
                     (filter (fun nv : string * Cell => is_n77_from_string (snd nv))
                        (stripped_lines df node_col arfcn_col)))))
             <-> exists v, In (n, v) (stripped_lines df node_col arfcn_col)
                           /\ is_n77_from_string v = true)
    by (intro n; apply (masked_nodes_In (fun nv : string * Cell => is_n77_from_string (snd nv)))).
  split; [exact Hin|].
  split; [apply sorted_ascending, (dedup_NoDup _ String.eqb_eq)|].
  split.
  - intros ->.
    unfold process_nr_sector_carrier. enter_frame He. rewrite Hn, Ha.
    fold (stripped_lines df node_col arfcn_col). reflexivity.
  - intros z l ->.
    do 2 eexists. split.
    + unfold process_nr_sector_carrier. enter_frame He. rewrite Hn, Ha.
      fold (stripped_lines df node_col arfcn_col). reflexivity.
    + set (lines := stripped_lines df node_col arfcn_col).
      set (bad_rows :=
             filter (fun nv : string * Cell => negb (is_allowed_n77_arfcn (z :: l) (snd nv)))
               (filter (fun nv : string * Cell => is_n77_from_string (snd nv)) lines)).
      assert (Hbad_rows : forall n v,
                 In (n, v) bad_rows <->
                 In (n, v) lines /\ is_n77_from_string v = true
                 /\ (forall f, parse_int_frequency v = Some f -> ~ In f (z :: l))).
      { intros n v. unfold bad_rows. rewrite !filter_In. cbn [snd].
        rewrite negb_true_iff, not_allowed_iff. tauto. }
      assert (Hpairs : forall n a,
                 In (n, a)
                    (Py.sorted_pairs
                       (Py.iter hash
                          (Py.set_of Py.pair_eqb
                             (map (fun nv : string * Cell =>
                                     (Py.strip (fst nv), Py.strip (astype_str (snd nv))))
                                  bad_rows))))
                 <-> exists v, In (n, v) lines /\ is_n77_from_string v = true
                               /\ (forall f, parse_int_frequency v = Some f ->
                                             ~ In f (z :: l))
                               /\ a = Py.strip (astype_str v)).
      { intros n a. unfold Py.sorted_pairs, Py.set_of.
        rewrite sorted_by_In, iter_In, (dedup_In _ pair_eqb_eq), in_map_iff. split.
        - intros [[n' v] [E Hnv]]. cbn [fst snd] in E. injection E as E1 E2.
          apply Hbad_rows in Hnv. destruct Hnv as (Hl & H7 & Hf).
          rewrite (stripped_lines_In _ _ _ _ _ Hl) in E1. subst n'.
          exists v. now repeat split.
        - intros (v & Hl & H7 & Hf & ->). exists (n, v). cbn [fst snd]. split.
          + now rewrite (stripped_lines_In _ _ _ _ _ Hl).
          + apply Hbad_rows. now repeat split. }
      assert (Hnodes : forall n,
                 In n (Py.sorted (unique (map fst bad_rows)))
                 <-> exists v, In (n, v) bad_rows).
      { intro n. unfold unique.
        rewrite sorted_In, (dedup_In _ String.eqb_eq), in_map_iff. split.
        - intros [[n' v] [E Hnv]]. cbn [fst] in E. subst n'. now exists v.
        - intros [v Hv]. now exists (n, v). }
      split; [exact Hpairs|]. split; [|split; [|split; [|split; [|split]]]].
      * intros n a Hna. apply Hpairs in Hna. destruct Hna as (v & Hl & _ & _ & ->).
        split; [|apply strip_no_space_around].
        rewrite <- (stripped_lines_In _ _ _ _ _ Hl). apply strip_no_space_around.
      * intro n. rewrite Hnodes. split.
        -- intros [v Hv]. exists (Py.strip (astype_str v)). apply Hpairs.
           apply Hbad_rows in Hv. destruct Hv as (Hl & H7 & Hf).
           exists v. now repeat split.
        -- intros [a Hna]. apply Hpairs in Hna. destruct Hna as (v & Hl & H7 & Hf & _).
           exists v. apply Hbad_rows. now repeat split.
      * intros n Hb. apply Hnodes in Hb. destruct Hb as [v Hv].
        apply Hbad_rows in Hv. destruct Hv as (Hl & H7 & _).
        apply Hin. now exists v.
      * apply sorted_ascending, (dedup_NoDup _ String.eqb_eq).
      * apply sorted_by_NoDup, iter_NoDup, (dedup_NoDup _ pair_eqb_eq).
      * apply sorted_by_sorted; [apply pair_leb_total | apply pair_leb_trans].
Qed.

Lemma nr_sector_carrier_rows_witness :
  empty Scenario.nr_sector_carrier_mixed = false
  /\ exists n77_nodes : list string,
       ascending n77_nodes
       /\ @process_nr_sector_carrier SpecUtils.utils SpecUtils.reverse_order
            (TFrame Scenario.nr_sector_carrier_mixed) []
          = ([ mkRow "NR Frequency Audit" "NRSectorCarrier"
                 "NR nodes with ARFCN in N77 band (646600-660000) in NRSectorCarrier"
                 (VInt (Py.len n77_nodes)) (Py.join ", " n77_nodes);
               mkRow "NR Frequency Inconsistencies" "NRSectorCarrier"
                 "NR nodes with ARFCN not in allowed list (no allowed list configured)"
                 (VStr "N/A") "" ],
             inl tt).
Proof.
  split; [reflexivity|].
  destruct (nr_sector_carrier_rows SpecUtils.utils SpecUtils.reverse_order
              Scenario.nr_sector_carrier_mixed [] eq_refl eq_refl eq_refl)
    as (l & _ & Hasc & Hnone & _).
  exists l. split; [exact Hasc | exact (Hnone eq_refl)].
Defined.

Example nr_sector_carrier_rows_sample :
  map (fun r => (Val r, ExtraInfo r))
      (appended (@process_nr_sector_carrier SpecUtils.utils SpecUtils.reverse_order
                   (TFrame Scenario.nr_sector_carrier_mixed) [650006%Z]))
  = [ (VInt 2, "N1, N2"); (VInt 1, "N1: 651000") ].
Proof. reflexivity. Qed.

Lemma projected_nodes_In {B} (proj : B -> string) (mask : B -> bool) (lines : list B)
  (n : string) :
  In n (Py.sorted (unique (map proj (filter mask lines))))
  <-> exists w, In w lines /\ mask w = true /\ proj w = n.
Proof.
  rewrite sorted_In. unfold unique. rewrite (dedup_In _ String.eqb_eq), in_map_iff.
  split.
  - intros [w [E H]]. apply filter_In in H. exists w. tauto.
  - intros [w [H1 [H2 E]]]. exists w. split; [exact E | now apply filter_In].
Qed.

(** X8.  On a FreqPrioNR frame with lines whose NodeId, FreqPrioNRId and
    RATFreqPrioId columns resolve: when no line has a frequency classified
    as N77, the checker appends one row with the value 0; otherwise it
    appends three rows, the nodes with an N77 line whose role, white space
    and case left aside, is fwa, the nodes with one whose role is
    publicsafety, and the nodes with one whose role is neither.  Every node
    with an N77 line is in at least one of the three lists, each list is in
    strictly increasing order, and the checker returns. *)
Theorem freq_prio_nr_rows :
  forall (utils : FreqUtils) (df : DataFrame) (node_col freq_col ratfreqprio_col : string),
    empty df = false ->
    as_label (resolve_column_case_insensitive df ["NodeId"]) = Some node_col ->
    as_label (resolve_column_case_insensitive df ["FreqPrioNRId"]) = Some freq_col ->
    as_label (resolve_column_case_insensitive df ["RATFreqPrioId"])
    = Some ratfreqprio_col ->
    let n77_work := n77_freq_prio_lines df node_col freq_col ratfreqprio_col in
    (n77_work = [] ->
     process_freq_prio_nr (TFrame df)
     = ([ mkRow "NR Frequency Audit" "FreqPrioNR"
            "FreqPrioNR table has no N77 rows (based on FreqPrioNRId)" (VInt 0) "" ],
        inl tt))
    /\ (n77_work <> [] ->
        exists fwa_nodes publicsafety_nodes other_nodes : list string,
          process_freq_prio_nr (TFrame df)
          = ([ mkRow "NR Frequency Audit" "FreqPrioNR"
                 "NR nodes with RATFreqPrioId = 'fwa' in N77 FreqPrioNR"
                 (VInt (Py.len fwa_nodes)) (Py.join ", " fwa_nodes);
               mkRow "NR Frequency Audit" "FreqPrioNR"
                 "NR nodes with RATFreqPrioId = 'publicsafety' in N77 FreqPrioNR"
                 (VInt (Py.len publicsafety_nodes)) (Py.join ", " publicsafety_nodes);
               mkRow "NR Frequency Inconsistencies" "FreqPrioNR"
                 "NR nodes with RATFreqPrioId different from 'fwa'/'publicsafety' in N77 FreqPrioNR"
                 (VInt (Py.len other_nodes)) (Py.join ", " other_nodes) ],
             inl tt)
          /\ (forall n, In n fwa_nodes <-> exists f, In (n, f, "fwa") n77_work)
          /\ (forall n, In n publicsafety_nodes <->
                        exists f, In (n, f, "publicsafety") n77_work)
          /\ (forall n, In n other_nodes <->
                        exists f role, In (n, f, role) n77_work
                                       /\ role <> "fwa" /\ role <> "publicsafety")
          /\ (forall n, (exists f role, In (n, f, role) n77_work) <->
                        In n fwa_nodes \/ In n publicsafety_nodes \/ In n other_nodes)
          /\ ascending fwa_nodes /\ ascending publicsafety_nodes
          /\ ascending other_nodes).
Proof.
  intros utils df node_col freq_col rat_col He Hn Hf Hr n77_work. split.
  - intro Hnil.
    unfold process_freq_prio_nr. enter_frame He. rewrite Hn, Hf, Hr.
    fold (freq_prio_lines df node_col freq_col rat_col).
    fold (n77_freq_prio_lines df node_col freq_col rat_col).
    fold n77_work. rewrite Hnil. reflexivity.
  - intro Hl. do 3 eexists. split.
    + unfold process_freq_prio_nr. enter_frame He. rewrite Hn, Hf, Hr.
      fold (freq_prio_lines df node_col freq_col rat_col).
      fold (n77_freq_prio_lines df node_col freq_col rat_col).
      fold n77_work. rewrite (not_nil_test Hl). reflexivity.
    + assert (Hfwa : forall n,
                 In n (Py.sorted (unique (map (fun w : string * Cell * string => fst (fst w))
                         (filter (fun w : string * Cell * string => String.eqb (snd w) "fwa")
                            n77_work))))
                 <-> exists f, In (n, f, "fwa") n77_work).
      { intro n. rewrite projected_nodes_In. split.
        - intros [[[n' f] role] (Hin & Hm & E)]. cbn [fst snd] in *.
          apply String.eqb_eq in Hm. subst. now exists f.
        - intros [f Hin]. exists (n, f, "fwa"). now repeat split. }
      assert (Hps : forall n,
                 In n (Py.sorted (unique (map (fun w : string * Cell * string => fst (fst w))
                         (filter (fun w : string * Cell * string =>
                                    String.eqb (snd w) "publicsafety")
                            n77_work))))
                 <-> exists f, In (n, f, "publicsafety") n77_work).
      { intro n. rewrite projected_nodes_In. split.
        - intros [[[n' f] role] (Hin & Hm & E)]. cbn [fst snd] in *.
          apply String.eqb_eq in Hm. subst. now exists f.
        - intros [f Hin]. exists (n, f, "publicsafety"). now repeat split. }
      assert (Hother : forall n,
                 In n (Py.sorted (unique (map (fun w : string * Cell * string => fst (fst w))
                         (filter (fun w : string * Cell * string =>
                                    negb (String.eqb (snd w) "fwa"
                                          || String.eqb (snd w) "publicsafety"))
                            n77_work))))
                 <-> exists f role, In (n, f, role) n77_work
                                    /\ role <> "fwa" /\ role <> "publicsafety").
      { intro n. rewrite projected_nodes_In. split.
        - intros [[[n' f] role] (Hin & Hm & E)]. cbn [fst snd] in *.
          apply negb_true_iff, orb_false_iff in Hm. destruct Hm as [H1 H2].
          apply String.eqb_neq in H1, H2. subst. now exists f, role.
        - intros (f & role & Hin & H1 & H2). exists (n, f, role). cbn [fst snd].
          split; [exact Hin|]. split; [|reflexivity].
          apply negb_true_iff, orb_false_iff. now rewrite !String.eqb_neq. }
      split; [exact Hfwa|]. split; [exact Hps|]. split; [exact Hother|].
      split; [|repeat split; apply sorted_ascending, (dedup_NoDup _ String.eqb_eq)].
      intro n. rewrite Hfwa, Hps, Hother. split.
      * intros (f & role & Hin).
        destruct (String.eqb role "fwa") eqn:E1.
        { apply String.eqb_eq in E1. subst. left. now exists f. }
        destruct (String.eqb role "publicsafety") eqn:E2.
        { apply String.eqb_eq in E2. subst. right. left. now exists f. }
        apply String.eqb_neq in E1, E2. right. right. now exists f, role.
      * intros [[f H] | [[f H] | (f & role & H & _)]]; eauto.
Qed.

(** A role followed by a no-break space is read without it. *)
Example freq_prio_nr_rows_nbsp :
  map (fun r => (Val r, ExtraInfo r))
      (appended (@process_freq_prio_nr SpecUtils.utils (TFrame Scenario.freq_prio_nbsp)))
  = [ (VInt 1, "N1"); (VInt 0, ""); (VInt 0, "") ].
Proof. reflexivity. Qed.

Lemma freq_prio_nr_rows_witness :
  empty Scenario.freq_prio_mixed = false
  /\ exists fwa_nodes publicsafety_nodes other_nodes : list string,
       @process_freq_prio_nr SpecUtils.utils (TFrame Scenario.freq_prio_mixed)
       = ([ mkRow "NR Frequency Audit" "FreqPrioNR"
              "NR nodes with RATFreqPrioId = 'fwa' in N77 FreqPrioNR"
              (VInt (Py.len fwa_nodes)) (Py.join ", " fwa_nodes);
            mkRow "NR Frequency Audit" "FreqPrioNR"
              "NR nodes with RATFreqPrioId = 'publicsafety' in N77 FreqPrioNR"
              (VInt (Py.len publicsafety_nodes)) (Py.join ", " publicsafety_nodes);
            mkRow "NR Frequency Inconsistencies" "FreqPrioNR"
              "NR nodes with RATFreqPrioId different from 'fwa'/'publicsafety' in N77 FreqPrioNR"
              (VInt (Py.len other_nodes)) (Py.join ", " other_nodes) ],
          inl tt)
       /\ ascending other_nodes.
Proof.
  split; [reflexivity|].
  assert (H : @n77_freq_prio_lines SpecUtils.utils Scenario.freq_prio_mixed
                "NodeId" "FreqPrioNRId" "RATFreqPrioId" <> []) by discriminate.
  destruct (proj2 (freq_prio_nr_rows SpecUtils.utils Scenario.freq_prio_mixed
                     eq_refl eq_refl eq_refl eq_refl) H)
    as (a & b & c & Hrows & _ & _ & _ & _ & _ & _ & Hasc).
  exists a, b, c. split; [exact Hrows | exact Hasc].
Defined.

Example freq_prio_nr_rows_sample :
  map (fun r => (Val r, ExtraInfo r))
      (appended (@process_freq_prio_nr SpecUtils.utils (TFrame Scenario.freq_prio_mixed)))
  = [ (VInt 1, "N1"); (VInt 1, "N2"); (VInt 1, "N3") ].
Proof. reflexivity. Qed.

(* ===================================================================== *)
(** ** Tables without the columns a checker needs *)
(* ===================================================================== *)

Lemma find_none_iff {A} (p : A -> bool) (l : list A) :
  find p l = None <-> forall x, In x l -> p x = false.
Proof.
  split; [apply find_none|].
  induction l as [|x l IH]; intro H; [reflexivity|].
  cbn [find]. rewrite (H x (or_introl eq_refl)).
  apply IH. intros y Hy. apply H. now right.
Qed.

(** The resolver finds nothing exactly when no label of the frame equals a
    candidate up to case. *)
Lemma resolve_none_iff (df : DataFrame) (candidates : list string) :
  resolve_column_case_insensitive df candidates = None
  <-> forall c cand, In c (columns df) -> In cand candidates ->
                     Py.lower c <> Py.lower cand.
Proof.
  induction candidates as [|cand rest IH]; cbn [resolve_column_case_insensitive].
  - split; [intros _ c cand _ [] | reflexivity].
  - destruct (find _ (columns df)) as [c'|] eqn:E.
    + split; [discriminate|]. intro H. exfalso.
      apply find_some in E. destruct E as [Hin Heq]. apply String.eqb_eq in Heq.
      exact (H c' cand Hin (or_introl eq_refl) Heq).
    + rewrite IH. rewrite find_none_iff in E. split.
      * intros H c cand' Hc [<- | Hcand]; [|now apply H].
        apply String.eqb_neq. now apply E.
      * intros H c cand' Hc Hcand. apply H; [exact Hc | now right].
Qed.

Lemma no_node_column (df : DataFrame) :
  (forall c, In c (columns df) -> Py.lower c <> "nodeid") ->
  resolve_column_case_insensitive df ["NodeId"] = None.
Proof.
  intro H. apply resolve_none_iff. intros c cand Hc [<- | []]. now apply H.
Qed.

(** X9.  A table with lines none of whose column labels is NodeId up to
    case: each of the eight checkers appends one row with the value N/A and
    returns, and so do the two cardinality blocks that count lines per node;
    no other column of the table is looked at. *)
Theorem table_without_node_column_gives_one_row :
  forall (utils : FreqUtils) (hash : Py.SetOrder) (df : DataFrame)
         (old_arfcn new_arfcn n77b_ssb : Z) (allowed_n77_arfcn_set : list Z),
    empty df = false ->
    (forall c, In c (columns df) -> Py.lower c <> "nodeid") ->
    let na (category subcategory metric : string) : list Row * (unit + Exn) :=
      ([ mkRow category subcategory metric (VStr "N/A") "" ], inl tt) in
    process_nr_freq hash (TFrame df) old_arfcn new_arfcn
    = na "NR Frequency Audit" "NRFrequency"
         "NRFrequency table present but required columns missing"
    /\ process_nr_freq_rel hash (TFrame df) old_arfcn new_arfcn
       = na "NR Frequency Audit" "NRFreqRelation"
            "NRFreqRelation table present but ARFCN/NodeId missing"
    /\ process_nr_cell_du (TFrame df)
       = na "NR Frequency Audit" "NRCellDU"
            "NRCellDU table present but required columns missing"
    /\ process_nr_sector_carrier hash (TFrame df) allowed_n77_arfcn_set
       = na "NR Frequency Audit" "NRSectorCarrier"
            "NRSectorCarrier table present but required columns missing"
    /\ process_freq_prio_nr (TFrame df)
       = na "NR Frequency Audit" "FreqPrioNR"
            "FreqPrioNR table present but NodeId/FreqPrioNRId/RATFreqPrioId missing"
    /\ process_gu_sync_signal_freq hash (TFrame df) old_arfcn new_arfcn
       = na "LTE Frequency Audit" "GUtranSyncSignalFrequency"
            "GUtranSyncSignalFrequency table present but required columns missing"
    /\ process_gu_freq_rel hash (TFrame df) old_arfcn new_arfcn
       = na "LTE Frequency Audit" "GUtranFreqRelation"
            "GUtranFreqRelation table present but ARFCN/NodeId missing"
    /\ process_endc_distr_profile (TFrame df) old_arfcn new_arfcn n77b_ssb
       = na "EndcDistrProfile Audit" "EndcDistrProfile"
            "EndcDistrProfile table present but NodeId/gUtranFreqRef missing"
    /\ cardinality_nr_freq (TFrame df)
       = na "Cardinality Audit" "Cardinality" "NRFrequency per node (NodeId missing)"
    /\ cardinality_gu_sync_signal_freq (TFrame df)
       = na "Cardinality Audit" "Cardinality"
            "GUtranSyncSignalFrequency per node (NodeId missing)".
Proof.
  intros utils hash df old new n77b allowed He Hcols na.
  pose proof (no_node_column df Hcols) as Hres.
  repeat split;
    [ unfold process_nr_freq | unfold process_nr_freq_rel | unfold process_nr_cell_du
    | unfold process_nr_sector_carrier | unfold process_freq_prio_nr
    | unfold process_gu_sync_signal_freq | unfold process_gu_freq_rel
    | unfold process_endc_distr_profile | unfold cardinality_nr_freq
    | unfold cardinality_gu_sync_signal_freq ];
    enter_frame He; rewrite Hres; reflexivity.
Qed.

Lemma table_without_node_column_witness :
  empty Scenario.without_node_column = false
  /\ @process_gu_sync_signal_freq SpecUtils.utils SpecUtils.insertion_order
       (TFrame Scenario.without_node_column) 652000 655000
     = ([ mkRow "LTE Frequency Audit" "GUtranSyncSignalFrequency"
            "GUtranSyncSignalFrequency table present but required columns missing"
            (VStr "N/A") "" ], inl tt).
Proof.
  split; [reflexivity|].
  assert (H : forall c, In c (columns Scenario.without_node_column) ->
                        Py.lower c <> "nodeid")
    by (intros c [<- | [<- | []]]; discriminate).
  exact (proj1 (proj2 (proj2 (proj2 (proj2 (proj2
           (table_without_node_column_gives_one_row SpecUtils.utils
              SpecUtils.insertion_order Scenario.without_node_column
              652000 655000 660001 [] eq_refl H))))))).
Defined.

(* ===================================================================== *)
(** ** The cell-level rows of the relation checkers *)
(* ===================================================================== *)

Lemma as_label_some (o : option string) (c : string) : as_label o = Some c -> o = Some c.
Proof. destruct o as [[|a s]|]; cbn [as_label]; congruence. Qed.

Lemma get_filter_keep (keep : string -> bool) (r : Record_) (l : string) :
  keep l = true ->
  get (filter (fun lc : string * Cell => keep (fst lc)) r) l = get r l.
Proof.
  intro Hl. induction r as [|[l' c'] r IH]; [reflexivity|].
  cbn [filter fst get]. destruct (keep l') eqn:Ek.
  - cbn [get]. now rewrite IH.
  - destruct (String.eqb l' l) eqn:E; [|exact IH].
    apply String.eqb_eq in E. congruence.
Qed.

Lemma get_reindexed (f : string -> Cell) (labels : list string) (l : string) :
  In l labels -> get (map (fun l' => (l', f l')) labels) l = f l.
Proof.
  induction labels as [|l0 labels IH]; [intros []|].
  intro Hin. cbn [map get]. destruct (String.eqb l0 l) eqn:E.
  - apply String.eqb_eq in E. now subst.
  - apply IH. destruct Hin as [->|Hin]; [|exact Hin].
    rewrite String.eqb_refl in E. discriminate.
Qed.

(** A column that is not ignored keeps its cells through [clean]. *)
Lemma clean_get (hash : Py.SetOrder) (ignore : list string) (rows : DataFrame)
  (l : string) (r : Record_) :
  In l (columns rows) -> ~ In l ignore ->
  In r (records (clean hash ignore rows)) ->
  exists r0, In r0 (records rows) /\ get r l = get r0 l.
Proof.
  intros Hcol Hign Hr.
  assert (Hkeep : negb (Py.mem String.eqb l (Py.iter hash ignore)) = true).
  { apply negb_true_iff, not_true_is_false. intro H.
    rewrite string_mem_In, iter_In in H. contradiction. }
  unfold clean, reindex, drop_duplicates, drop in Hr. cbn [records columns] in Hr.
  apply in_map_iff in Hr. destruct Hr as [r1 [<- Hr1]].
  rewrite (dedup_In _ record_eqb_eq) in Hr1.
  apply in_map_iff in Hr1. destruct Hr1 as [r0 [<- Hr0]].
  exists r0. split; [exact Hr0|].
  rewrite get_reindexed.
  - now apply (get_filter_keep
                 (fun l => negb (Py.mem String.eqb l (Py.iter hash ignore)))).
  - apply sorted_In, filter_In. split; [exact Hcol | exact Hkeep].
Qed.

Lemma clean_records_not_nil (hash : Py.SetOrder) (ignore : list string)
  (rows : DataFrame) :
  records rows <> [] -> records (clean hash ignore rows) <> [].
Proof.
  unfold clean, reindex, drop_duplicates, drop. cbn [records columns].
  destruct (records rows) as [|r0 rest]; [intro H; now contradiction H|].
  intros _. cbn [map Py.dedup]. discriminate.
Qed.

Lemma assign_columns_In (label : string) (f : Record_ -> Cell) (df : DataFrame) :
  In label (columns (assign label f df)).
Proof.
  unfold assign. cbn [columns].
  destruct (Py.mem String.eqb label (columns df)) eqn:E.
  - now apply string_mem_In.
  - apply in_or_app. right. now left.
Qed.

Lemma cell_is_int_eq (c : Cell) (n : Z) : cell_is_int c n = true -> c = CInt n.
Proof.
  destruct c as [z| |]; cbn [cell_is_int]; try discriminate.
  intro H. apply Z.eqb_eq in H. now subst.
Qed.

Lemma equals_refl (a : DataFrame) : equals a a = true.
Proof.
  unfold equals. apply andb_true_iff. split.
  - now apply (list_eqb_eq _ String.eqb_eq).
  - now apply (list_eqb_eq _ record_eqb_eq).
Qed.

Lemma filter_all {A} (p : A -> bool) (l : list A) :
  (forall x, In x l -> p x = true) -> filter p l = l.
Proof.
  induction l as [|x l IH]; intro H; [reflexivity|].
  cbn [filter]. rewrite (H x (or_introl eq_refl)). f_equal.
  apply IH. intros y Hy. apply H. now right.
Qed.

Lemma filter_none {A} (p : A -> bool) (l : list A) :
  (forall x, In x l -> p x = false) -> filter p l = [].
Proof.
  induction l as [|x l IH]; intro H; [reflexivity|].
  cbn [filter]. rewrite (H x (or_introl eq_refl)).
  apply IH. intros y Hy. apply H. now right.
Qed.

Lemma sorted_of_sorted (hash : Py.SetOrder) (s : list string) :
  Py.sorted (Py.iter hash (Py.sorted s)) = Py.sorted s.
Proof.
  transitivity (Py.sorted (Py.sorted s)).
  - apply sorted_canonical, Py.iter_perm.
  - apply sorted_canonical. apply sorted_by_perm.
Qed.

Lemma iter_nil (hash : Py.SetOrder) {A} : Py.iter hash (@nil A) = [].
Proof. apply Permutation_nil, Permutation_sym, Py.iter_perm. Qed.

(** The helper column [_arfcn_int_] is not among the ignored columns of the
    NR relation checker. *)
Lemma helper_column_not_ignored (df full : DataFrame) (arfcn_col : string) :
  resolve_column_case_insensitive df ["NRFreqRelationId"] = Some arfcn_col ->
  ~ In "_arfcn_int_"
       (ignored_columns arfcn_col ["nrfreqrelationid"; "nrfrequencyref"; "reservedby"]
          full).
Proof.
  intros Hres Hin. unfold ignored_columns, Py.set_or in Hin.
  apply in_app_or in Hin. destruct Hin as [[E | []] | Hin].
  - destruct (resolve_in_columns _ _ Hres) as [_ [cand [[<- | []] Hl]]].
    rewrite E in Hl. discriminate.
  - apply (set_sub_In _ String.eqb_eq) in Hin. destruct Hin as [Hin _].
    unfold Py.set_of in Hin. rewrite (dedup_In _ String.eqb_eq) in Hin.
    apply filter_In in Hin. destruct Hin as [_ Hm]. discriminate.
Qed.

(** With two different frequencies, the cleaned lines of a cell under the
    old and under the new frequency differ: they differ in the helper
    column. *)
Lemma helper_column_differs {utils : FreqUtils} (hash : Py.SetOrder) (df : DataFrame)
  (node_col cell_col arfcn_col : string) (old_arfcn new_arfcn : Z) (c : string) :
  resolve_column_case_insensitive df ["NRFreqRelationId"] = Some arfcn_col ->
  old_arfcn <> new_arfcn ->
  records (nr_rows_of (nr_full df node_col cell_col arfcn_col) cell_col old_arfcn c) <> [] ->
  records (nr_cleaned hash (nr_full df node_col cell_col arfcn_col)
             cell_col arfcn_col old_arfcn c)
  <> records (nr_cleaned hash (nr_full df node_col cell_col arfcn_col)
                cell_col arfcn_col new_arfcn c).
Proof.
  intros Hres Hdiff Hold E.
  set (full := nr_full df node_col cell_col arfcn_col) in *.
  assert (Hcol : forall freq, In "_arfcn_int_" (columns (nr_rows_of full cell_col freq c)))
    by (intro freq; apply assign_columns_In).
  pose proof (@helper_column_not_ignored df full arfcn_col Hres) as Hign.
  assert (Hget : forall freq r,
             In r (records (nr_cleaned hash full cell_col arfcn_col freq c)) ->
             get r "_arfcn_int_" = CInt freq).
  { intros freq r Hr. unfold nr_cleaned in Hr.
    destruct (clean_get _ _ _ _ _ (Hcol freq) Hign Hr) as [r0 [Hr0 ->]].
    unfold nr_rows_of in Hr0. cbn [loc records] in Hr0.
    apply filter_In in Hr0. destruct Hr0 as [_ Hm]. now apply cell_is_int_eq. }
  pose proof (@clean_records_not_nil hash
                (ignored_columns arfcn_col
                   ["nrfreqrelationid"; "nrfrequencyref"; "reservedby"] full) _ Hold) as Hne.
  fold (nr_cleaned hash full cell_col arfcn_col old_arfcn c) in Hne.
  destruct (nonempty_In Hne) as [r Hr].
  pose proof (Hget old_arfcn r Hr) as H1.
  rewrite E in Hr. pose proof (Hget new_arfcn r Hr) as H2.
  congruence.
Qed.

Lemma both_cells_In (hash : Py.SetOrder) (old_mask new_mask : Record_ -> bool)
  (full : DataFrame) (cell_col c : string) :
  let rows_of (mask : Record_ -> bool) :=
    loc mask (loc (fun r => String.eqb (astype_str (get r cell_col)) c) full) in
  (In c (sorted_and hash
           (Py.set_of String.eqb (map astype_str (getitem (loc old_mask full) cell_col)))
           (Py.set_of String.eqb (map astype_str (getitem (loc new_mask full) cell_col))))
   <-> records (rows_of old_mask) <> [] /\ records (rows_of new_mask) <> [])
  /\ (In c (sorted_sub hash
              (Py.set_of String.eqb (map astype_str (getitem (loc old_mask full) cell_col)))
              (Py.set_of String.eqb (map astype_str (getitem (loc new_mask full) cell_col))))
      <-> records (rows_of old_mask) <> [] /\ records (rows_of new_mask) = []).
Proof.
  intro rows_of. rewrite sorted_and_In, sorted_sub_In, !cells_with_In.
  fold (rows_of old_mask). fold (rows_of new_mask). split; [tauto|].
  split.
  - intros [Ho Hn]. split; [exact Ho|].
    destruct (records (rows_of new_mask)); [reflexivity|].
    exfalso. apply Hn. discriminate.
  - intros [Ho Hn]. split; [exact Ho|]. now rewrite Hn.
Qed.

Lemma cell_sets_ascending (hash : Py.SetOrder) (a b : list string) :
  ascending (sorted_and hash (Py.set_of String.eqb a) (Py.set_of String.eqb b))
  /\ ascending (sorted_sub hash (Py.set_of String.eqb a) (Py.set_of String.eqb b)).
Proof.
  split; apply sorted_ascending, iter_NoDup, NoDup_filter, (dedup_NoDup _ String.eqb_eq).
Qed.

(** X10.  The three cell-level rows of the NR relation checker, on a frame
    with N77 lines whose node, relation and cell columns resolve.  The first
    lists the cells with an N77 line under the old and one under the new
    frequency, the second the cells with one under the old and none under
    the new, both in strictly increasing order.  The third, meant for the
    cells whose parameters differ, lists every cell of the first row when
    the two frequencies differ, whatever the parameters are: the helper
    column that holds the frequency is part of the lines that are compared.
    When the two frequencies are the same the third row lists nothing. *)
Theorem nr_freq_rel_cell_rows :
  forall (utils : FreqUtils) (hash : Py.SetOrder) (df : DataFrame)
         (old_arfcn new_arfcn : Z) (node_col arfcn_col cell_col : string),
    empty df = false ->
    as_label (resolve_column_case_insensitive df ["NodeId"]) = Some node_col ->
    as_label (resolve_column_case_insensitive df ["NRFreqRelationId"]) = Some arfcn_col ->
    as_label (resolve_column_case_insensitive df ["NRCellCUId"; "NRCellId"; "CellId"])
    = Some cell_col ->
    n77_lines df node_col arfcn_col <> [] ->
    exists cells_both cells_old_without_new bad_cells_params : list string,
      skipn 5 (appended (process_nr_freq_rel hash (TFrame df) old_arfcn new_arfcn))
      = [ mkRow "NR Frequency Audit" "NRFreqRelation"
            (Py.fstr ["NR cells with the old ARFCN ("; str old_arfcn;
                      ") and the new ARFCN ("; str new_arfcn; ") in NRFreqRelation"])
            (VInt (Py.len cells_both)) (Py.join ", " cells_both);
          mkRow "NR Frequency Inconsistencies" "NRFreqRelation"
            (Py.fstr ["NR cells with the old ARFCN ("; str old_arfcn;
                      ") but without new ARFCN ("; str new_arfcn; ") in NRFreqRelation"])
            (VInt (Py.len cells_old_without_new)) (Py.join ", " cells_old_without_new);
          mkRow "NR Frequency Inconsistencies" "NRFreqRelation"
            (Py.fstr ["NR cells with mismatching params between old ARFCN (";
                      str old_arfcn; ") and the new ARFCN ("; str new_arfcn;
                      ") in NRFreqRelation"])
            (VInt (Py.len bad_cells_params)) (Py.join ", " bad_cells_params) ]
      /\ outcome (process_nr_freq_rel hash (TFrame df) old_arfcn new_arfcn) = inl tt
      /\ (forall c, In c cells_both <->
                    records (nr_rows_of (nr_full df node_col cell_col arfcn_col)
                               cell_col old_arfcn c) <> []
                    /\ records (nr_rows_of (nr_full df node_col cell_col arfcn_col)
                                  cell_col new_arfcn c) <> [])
      /\ (forall c, In c cells_old_without_new <->
                    records (nr_rows_of (nr_full df node_col cell_col arfcn_col)
                               cell_col old_arfcn c) <> []
                    /\ records (nr_rows_of (nr_full df node_col cell_col arfcn_col)
                                  cell_col new_arfcn c) = [])
      /\ ascending cells_both
      /\ ascending cells_old_without_new
      /\ (old_arfcn <> new_arfcn -> bad_cells_params = cells_both)
      /\ (old_arfcn = new_arfcn -> bad_cells_params = []).
Proof.
  intros utils hash df old new node_col arfcn_col cell_col He Hn Ha Hc Hl.
  set (full := nr_full df node_col cell_col arfcn_col).
  set (ignore := ignored_columns arfcn_col
                   ["nrfreqrelationid"; "nrfrequencyref"; "reservedby"] full).
  set (old_mask := fun r : Record_ => cell_is_int (get r "_arfcn_int_") old).
  set (new_mask := fun r : Record_ => cell_is_int (get r "_arfcn_int_") new).
  set (with_old := Py.set_of String.eqb (map astype_str (getitem (loc old_mask full) cell_col))).
  set (with_new := Py.set_of String.eqb (map astype_str (getitem (loc new_mask full) cell_col))).
  assert (Hcols : columns full <> []).
  { unfold full, nr_full. apply assign_columns_not_nil. cbn [loc columns].
    unfold astype_str_col.
    now apply assign_columns_not_nil, assign_columns_not_nil, frame_columns_not_nil. }
  exists (sorted_and hash with_old with_new), (sorted_sub hash with_old with_new),
    (Py.sorted (Py.iter hash (Py.set_of String.eqb
       (filter (params_differ hash ignore cell_col old_mask new_mask full)
               (sorted_and hash with_old with_new))))).
  pose proof (fun c => both_cells_In hash old_mask new_mask full cell_col c) as Hcells.
  cbv beta zeta in Hcells.
  split; [|split; [|split; [|split; [|split; [|split; [|split]]]]]].
  - unfold process_nr_freq_rel. enter_frame He. rewrite Hn, Ha, Hc.
    fold (n77_lines df node_col arfcn_col). rewrite (not_nil_test Hl).
    rewrite appended_try_except, !appended_add_row_seq.
    cbn [app skipn appended add_row fst]. reflexivity.
  - unfold process_nr_freq_rel. enter_frame He. rewrite Hn, Ha, Hc.
    fold (n77_lines df node_col arfcn_col). rewrite (not_nil_test Hl).
    reflexivity.
  - intro c. apply (proj1 (Hcells c)).
  - intro c. apply (proj2 (Hcells c)).
  - apply cell_sets_ascending.
  - apply cell_sets_ascending.
  - intro Hdiff.
    rewrite filter_all.
    + unfold Py.set_of at 1. rewrite (dedup_NoDup_id _ String.eqb_eq).
      * apply sorted_of_sorted.
      * apply sorted_and_NoDup, (dedup_NoDup _ String.eqb_eq).
    + intros c Hin. apply (proj1 (Hcells c)) in Hin. destruct Hin as [Ho Hw].
      unfold params_differ.
      rewrite (@loc_not_empty _ _ _ Hcols Ho), (@loc_not_empty _ _ _ Hcols Hw).
      cbn [orb]. apply negb_true_iff, not_true_is_false. intro E.
      apply equals_same_columns in E; [|now rewrite !clean_columns].
      apply as_label_some in Ha.
      exact (helper_column_differs hash df node_col cell_col c Ha Hdiff Ho E).
  - intro Heq. rewrite filter_none;
      [change (Py.set_of String.eqb (@nil string)) with (@nil string);
       now rewrite iter_nil|].
    intros c _. unfold params_differ, new_mask, old_mask.
    rewrite <- Heq, equals_refl. cbn [negb].
    now destruct (orb _ _).
Qed.

Lemma nr_freq_rel_cell_rows_witness :
  empty Scenario.nr_freq_rel_same_params = false
  /\ @n77_lines SpecUtils.utils Scenario.nr_freq_rel_same_params
       "NodeId" "NRFreqRelationId" <> []
  /\ exists cells_both cells_old_without_new bad_cells_params : list string,
       (652000 <> 655000 -> bad_cells_params = cells_both)%Z
       /\ ascending cells_both
       /\ ascending cells_old_without_new.
Proof.
  assert (H : @n77_lines SpecUtils.utils Scenario.nr_freq_rel_same_params
                "NodeId" "NRFreqRelationId" <> []) by discriminate.
  split; [reflexivity|]. split; [exact H|].
  destruct (nr_freq_rel_cell_rows SpecUtils.utils SpecUtils.insertion_order
              Scenario.nr_freq_rel_same_params 652000 655000
              eq_refl eq_refl eq_refl eq_refl H)
    as (b & w & p & _ & _ & _ & _ & Hb & Hw & Hsame & _).
  exists b, w, p. split; [exact Hsame|]. split; [exact Hb | exact Hw].
Defined.

(** X11.  The three cell-level rows of the LTE relation checker, on a frame
    with lines whose node, relation and cell columns resolve.  A line is
    under the old (new) relation when the text of its relation identifier is
    exactly the old (new) ARFCN followed by -30-20-0-1.  The first row lists
    the cells with a line under both, the second the cells with a line under
    the old and none under the new one, the third only cells of the first;
    the three lists are in strictly increasing order and the checker
    returns. *)
Theorem gu_freq_rel_cell_rows :
  forall (utils : FreqUtils) (hash : Py.SetOrder) (df : DataFrame)
         (old_arfcn new_arfcn : Z) (node_col arfcn_col cell_col : string),
    empty df = false ->
    as_label (resolve_column_case_insensitive df ["NodeId"]) = Some node_col ->
    as_label (resolve_column_case_insensitive df
                ["GUtranFreqRelationId"; "gUtranFreqRelationId"]) = Some arfcn_col ->
    as_label (resolve_column_case_insensitive df
                ["EUtranCellFDDId"; "EUtranCellId"; "CellId"; "GUCellId"])
    = Some cell_col ->
    exists cells_both cells_old_without_new bad_cells_params : list string,
      skipn 5 (appended (process_gu_freq_rel hash (TFrame df) old_arfcn new_arfcn))
      = [ mkRow "LTE Frequency Audit" "GUtranFreqRelation"
            (Py.fstr ["LTE cells with GUtranFreqRelationId "; rel_id_of old_arfcn;
                      " and "; rel_id_of new_arfcn; " in GUtranFreqRelation"])
            (VInt (Py.len cells_both)) (Py.join ", " cells_both);
          mkRow "LTE Frequency Inconsistences" "GUtranFreqRelation"
            (Py.fstr ["LTE cells with GUtranFreqRelationId "; rel_id_of old_arfcn;
                      " but without "; rel_id_of new_arfcn; " in GUtranFreqRelation"])
            (VInt (Py.len cells_old_without_new)) (Py.join ", " cells_old_without_new);
          mkRow "LTE Frequency Inconsistences" "GUtranFreqRelation"
            (Py.fstr ["LTE cells with mismatching params between GUtranFreqRelationId ";
                      rel_id_of old_arfcn; " and "; rel_id_of new_arfcn;
                      " in GUtranFreqRelation"])
            (VInt (Py.len bad_cells_params)) (Py.join ", " bad_cells_params) ]
      /\ outcome (process_gu_freq_rel hash (TFrame df) old_arfcn new_arfcn) = inl tt
      /\ (forall c, In c cells_both <->
                    records (gu_rows_of (gu_full df node_col cell_col arfcn_col)
                               cell_col arfcn_col (rel_id_of old_arfcn) c) <> []
                    /\ records (gu_rows_of (gu_full df node_col cell_col arfcn_col)
                                  cell_col arfcn_col (rel_id_of new_arfcn) c) <> [])
      /\ (forall c, In c cells_old_without_new <->
                    records (gu_rows_of (gu_full df node_col cell_col arfcn_col)
                               cell_col arfcn_col (rel_id_of old_arfcn) c) <> []
                    /\ records (gu_rows_of (gu_full df node_col cell_col arfcn_col)
                                  cell_col arfcn_col (rel_id_of new_arfcn) c) = [])
      /\ (forall c, In c bad_cells_params -> In c cells_both)
      /\ ascending cells_both
      /\ ascending cells_old_without_new
      /\ ascending bad_cells_params
      /\ (old_arfcn = new_arfcn -> bad_cells_params = []).
Proof.
  intros utils hash df old new node_col arfcn_col cell_col He Hn Ha Hc.
  set (full := gu_full df node_col cell_col arfcn_col).
  set (ignore := ignored_columns arfcn_col
                   ["gutranfreqrelationid"; "gutransyncsignalfrequencyref"] full).
  set (old_mask := fun r : Record_ => cell_is_str (get r arfcn_col) (rel_id_of old)).
  set (new_mask := fun r : Record_ => cell_is_str (get r arfcn_col) (rel_id_of new)).
  set (with_old := Py.set_of String.eqb (map astype_str (getitem (loc old_mask full) cell_col))).
  set (with_new := Py.set_of String.eqb (map astype_str (getitem (loc new_mask full) cell_col))).
  exists (sorted_and hash with_old with_new), (sorted_sub hash with_old with_new),
    (Py.sorted (Py.iter hash (Py.set_of String.eqb
       (filter (params_differ hash ignore cell_col old_mask new_mask full)
               (sorted_and hash with_old with_new))))).
  pose proof (fun c => both_cells_In hash old_mask new_mask full cell_col c) as Hcells.
  cbv beta zeta in Hcells.
  split; [|split; [|split; [|split; [|split; [|split; [|split; [|split]]]]]]].
  - unfold process_gu_freq_rel. enter_frame He. rewrite Hn, Ha, Hc.
    rewrite appended_try_except, !appended_add_row_seq.
    cbn [app skipn appended add_row fst]. reflexivity.
  - unfold process_gu_freq_rel. enter_frame He. rewrite Hn, Ha, Hc. reflexivity.
  - intro c. apply (proj1 (Hcells c)).
  - intro c. apply (proj2 (Hcells c)).
  - intros c Hin.
    rewrite sorted_In, iter_In in Hin. unfold Py.set_of at 1 in Hin.
    rewrite (dedup_In _ String.eqb_eq) in Hin. apply filter_In in Hin. tauto.
  - apply cell_sets_ascending.
  - apply cell_sets_ascending.
  - apply sorted_ascending, iter_NoDup, (dedup_NoDup _ String.eqb_eq).
  - intro Heq. rewrite filter_none;
      [change (Py.set_of String.eqb (@nil string)) with (@nil string);
       now rewrite iter_nil|].
    intros c _. unfold params_differ, new_mask, old_mask.
    rewrite <- Heq, equals_refl. cbn [negb].
    now destruct (orb _ _).
Qed.

Lemma gu_freq_rel_cell_rows_witness :
  empty Scenario.gu_freq_rel_two_nodes = false
  /\ exists cells_both cells_old_without_new bad_cells_params : list string,
       (forall c, In c bad_cells_params -> In c cells_both)
       /\ ascending cells_both
       /\ ascending cells_old_without_new
       /\ ascending bad_cells_params.
Proof.
  split; [reflexivity|].
  destruct (gu_freq_rel_cell_rows SpecUtils.utils SpecUtils.reverse_order
              Scenario.gu_freq_rel_two_nodes 652000 655000
              eq_refl eq_refl eq_refl eq_refl)
    as (b & w & p & _ & _ & _ & _ & Hincl & Hb & Hw & Hp & _).
  exists b, w, p. repeat split; assumption.
Defined.

(* ===================================================================== *)
(** ** The relation checkers on tables without N77 lines or cell column *)
(* ===================================================================== *)

(** X12.  The short ways through the relation checkers.  An NRFreqRelation
    frame none of whose lines is classified as N77 gives one row with the
    value 0.  A frame whose node and relation columns resolve and that has
    no cell column gives the five node-level rows and, as sixth and last
    row, the note that the cell-level check is skipped, for the NR and for
    the LTE checker; in each case the checker returns. *)
Theorem relation_checkers_short_paths :
  forall (utils : FreqUtils) (hash : Py.SetOrder) (df : DataFrame)
         (old_arfcn new_arfcn : Z) (node_col arfcn_col : string),
    empty df = false ->
    as_label (resolve_column_case_insensitive df ["NodeId"]) = Some node_col ->
    (as_label (resolve_column_case_insensitive df ["NRFreqRelationId"]) = Some arfcn_col ->
     n77_lines df node_col arfcn_col = [] ->
     process_nr_freq_rel hash (TFrame df) old_arfcn new_arfcn
     = ([ mkRow "NR Frequency Audit" "NRFreqRelation"
            "NRFreqRelation table has no N77 rows" (VInt 0) "" ], inl tt))
    /\ (as_label (resolve_column_case_insensitive df ["NRFreqRelationId"])
        = Some arfcn_col ->
        n77_lines df node_col arfcn_col <> [] ->
        as_label (resolve_column_case_insensitive df ["NRCellCUId"; "NRCellId"; "CellId"])
        = None ->
        outcome (process_nr_freq_rel hash (TFrame df) old_arfcn new_arfcn) = inl tt
        /\ skipn 5 (appended (process_nr_freq_rel hash (TFrame df) old_arfcn new_arfcn))
           = [ mkRow "NR Frequency Audit" "NRFreqRelation"
                 "NRFreqRelation cell-level check skipped (NRCellCUId/NRCellId/CellId missing)"
                 (VStr "N/A") "" ])
    /\ (as_label (resolve_column_case_insensitive df
                    ["GUtranFreqRelationId"; "gUtranFreqRelationId"]) = Some arfcn_col ->
        as_label (resolve_column_case_insensitive df
                    ["EUtranCellFDDId"; "EUtranCellId"; "CellId"; "GUCellId"]) = None ->
        outcome (process_gu_freq_rel hash (TFrame df) old_arfcn new_arfcn) = inl tt
        /\ skipn 5 (appended (process_gu_freq_rel hash (TFrame df) old_arfcn new_arfcn))
           = [ mkRow "LTE Frequency Audit" "GUtranFreqRelation"
                 "GUtranFreqRelation cell-level check skipped (EUtranCellFDDId/EUtranCellId/CellId/GUCellId missing)"
                 (VStr "N/A") "" ]).
Proof.
  intros utils hash df old new node_col arfcn_col He Hn.
  split; [|split].
  - intros Ha Hl. unfold process_nr_freq_rel. enter_frame He. rewrite Hn, Ha.
    fold (n77_lines df node_col arfcn_col). rewrite Hl. reflexivity.
  - intros Ha Hl Hc. split.
    + unfold process_nr_freq_rel. enter_frame He. rewrite Hn, Ha, Hc.
      fold (n77_lines df node_col arfcn_col). rewrite (not_nil_test Hl). reflexivity.
    + unfold process_nr_freq_rel. enter_frame He. rewrite Hn, Ha, Hc.
      fold (n77_lines df node_col arfcn_col). rewrite (not_nil_test Hl).
      rewrite appended_try_except, !appended_add_row_seq. reflexivity.
  - intros Ha Hc. split.
    + unfold process_gu_freq_rel. enter_frame He. rewrite Hn, Ha, Hc. reflexivity.
    + unfold process_gu_freq_rel. enter_frame He. rewrite Hn, Ha, Hc.
      rewrite appended_try_except, !appended_add_row_seq. reflexivity.
Qed.

Lemma relation_checkers_short_paths_witness :
  empty Scenario.nr_freq_rel_two_lines = false
  /\ skipn 5 (appended (@process_nr_freq_rel SpecUtils.utils SpecUtils.insertion_order
                          (TFrame Scenario.nr_freq_rel_two_lines) 652000 655000))
     = [ mkRow "NR Frequency Audit" "NRFreqRelation"
           "NRFreqRelation cell-level check skipped (NRCellCUId/NRCellId/CellId missing)"
           (VStr "N/A") "" ].
Proof.
  split; [reflexivity|].
  assert (H : @n77_lines SpecUtils.utils Scenario.nr_freq_rel_two_lines
                "NodeId" "NRFreqRelationId" <> []) by discriminate.
  exact (proj2 (proj1 (proj2 (@relation_checkers_short_paths SpecUtils.utils
                                SpecUtils.insertion_order Scenario.nr_freq_rel_two_lines
                                652000 655000 "NodeId" "NRFreqRelationId"
                                eq_refl eq_refl))
                      eq_refl H eq_refl)).
Defined.

(* ===================================================================== *)
(** ** Every node of the EndcDistrProfile table is listed *)
(* ===================================================================== *)

(** X13.  On an EndcDistrProfile frame with lines whose NodeId and
    gUtranFreqRef columns resolve, every node with a line is listed in at
    least one of the three rows, and only such nodes are.  A node is missing
    from the third row, the inconsistent ones, exactly when every one of its
    lines holds the N77B SSB together with the old or the new ARFCN.  The
    three lists are in strictly increasing order. *)
Theorem endc_every_node_is_listed :
  forall (utils : FreqUtils) (df : DataFrame) (old_arfcn new_arfcn n77b_ssb : Z)
         (node_col ref_col : string),
    empty df = false ->
    as_label (resolve_column_case_insensitive df ["NodeId"]) = Some node_col ->
    as_label (resolve_column_case_insensitive df ["gUtranFreqRef"]) = Some ref_col ->
    exists old_nodes new_nodes bad_nodes : list string,
      map (fun r => (Val r, ExtraInfo r))
          (appended (process_endc_distr_profile (TFrame df) old_arfcn new_arfcn n77b_ssb))
      = [ (VInt (Py.len old_nodes), Py.join ", " old_nodes);
          (VInt (Py.len new_nodes), Py.join ", " new_nodes);
          (VInt (Py.len bad_nodes), Py.join ", " bad_nodes) ]
      /\ (forall n, In n (map fst (endc_lines df node_col ref_col)) <->
                    In n old_nodes \/ In n new_nodes \/ In n bad_nodes)
      /\ (forall n, ~ In n bad_nodes <->
                    forall S, In (n, S) (endc_lines df node_col ref_col) ->
                              In (str n77b_ssb) S
                              /\ (In (str old_arfcn) S \/ In (str new_arfcn) S))
      /\ ascending old_nodes /\ ascending new_nodes /\ ascending bad_nodes.
Proof.
  intros utils df old new n77b node_col ref_col He Hn Hr.
  unfold process_endc_distr_profile. enter_frame He. rewrite Hn, Hr.
  fold (endc_lines df node_col ref_col).
  do 3 eexists. split; [reflexivity|].
  set (lines := endc_lines df node_col ref_col).
  pose proof (fun n => masked_nodes_In
                (fun w : string * list string =>
                   Py.mem String.eqb (str old) (snd w)
                   && Py.mem String.eqb (str n77b) (snd w))
                lines n) as Hold.
  pose proof (fun n => masked_nodes_In
                (fun w : string * list string =>
                   Py.mem String.eqb (str new) (snd w)
                   && Py.mem String.eqb (str n77b) (snd w))
                lines n) as Hnew.
  pose proof (fun n => masked_nodes_In
                (fun w : string * list string =>
                   (negb (Py.mem String.eqb (str old) (snd w))
                    && negb (Py.mem String.eqb (str new) (snd w)))
                   || negb (Py.mem String.eqb (str n77b) (snd w)))
                lines n) as Hbad.
  cbn [snd] in Hold, Hnew, Hbad.
  split; [|split; [|repeat split; apply sorted_ascending, (dedup_NoDup _ String.eqb_eq)]].
  - intro n. rewrite Hold, Hnew, Hbad.
    rewrite in_map_iff. split.
    + intros [[n' S] [E Hin]]. cbn [fst] in E. subst n'.
      destruct (Py.mem String.eqb (str old) S) eqn:E1,
               (Py.mem String.eqb (str new) S) eqn:E2,
               (Py.mem String.eqb (str n77b) S) eqn:E3;
        first [ left; exists S; rewrite E1, E3; now split
              | right; left; exists S; rewrite E2, E3; now split
              | right; right; exists S; rewrite E1, E2, E3; now split ].
    + intros [[S [H _]] | [[S [H _]] | [S [H _]]]]; now exists (n, S).
  - intro n. rewrite Hbad. split.
    + intros Hno S Hin.
      destruct (Py.mem String.eqb (str old) S) eqn:E1,
               (Py.mem String.eqb (str new) S) eqn:E2,
               (Py.mem String.eqb (str n77b) S) eqn:E3;
        first [ split; [now apply string_mem_In | left; now apply string_mem_In]
              | split; [now apply string_mem_In | right; now apply string_mem_In]
              | exfalso; apply Hno; exists S; rewrite E1, E2, E3; now split ].
    + intros Hall [S [Hin Hm]]. destruct (Hall S Hin) as [H3 H12].
      apply (proj2 (string_mem_In _ _)) in H3. rewrite H3 in Hm.
      destruct H12 as [H|H]; apply (proj2 (string_mem_In _ _)) in H;
        rewrite H in Hm; cbn in Hm;
        [discriminate | now destruct (Py.mem String.eqb (str old) S)].
Qed.

Lemma endc_every_node_is_listed_witness :
  empty Scenario.endc_two_profiles = false
  /\ exists old_nodes new_nodes bad_nodes : list string,
       (forall n, In n (map fst (@endc_lines SpecUtils.utils Scenario.endc_two_profiles
                                   "NodeId" "gUtranFreqRef")) <->
                  In n old_nodes \/ In n new_nodes \/ In n bad_nodes)
       /\ ascending bad_nodes.
Proof.
  split; [reflexivity|].
  destruct (endc_every_node_is_listed SpecUtils.utils Scenario.endc_two_profiles
              647328 648672 660001 eq_refl eq_refl eq_refl)
    as (o & n & b & _ & Hcov & _ & _ & _ & Hasc).
  exists o, n, b. split; [exact Hcov | exact Hasc].
Defined.

(* ===================================================================== *)
(** ** The column helpers of [utils_dataframe.py] *)
(* ===================================================================== *)

Import DataframeUtils.

Lemma remove_split (x : string) (l : list string) :
  In x l ->
  exists p q, l = p ++ x :: q /\ ~ In x p /\ PyList.remove x l = Some (p ++ q).
Proof.
  induction l as [|y l IH]; [intros []|].
  intro Hin. cbn [PyList.remove]. destruct (String.eqb y x) eqn:E.
  - apply String.eqb_eq in E. subst y. exists [], l. now repeat split.
  - apply String.eqb_neq in E. destruct Hin as [H|H]; [contradiction|].
    destruct (IH H) as (p & q & -> & Hp & ->).
    exists (y :: p), q. repeat split.
    intros [H1|H1]; [now apply E | now apply Hp].
Qed.

Lemma index_split (x : string) (l : list string) :
  In x l ->
  exists p q, l = p ++ x :: q /\ ~ In x p /\ PyList.index x l = Some (List.length p).
Proof.
  induction l as [|y l IH]; [intros []|].
  intro Hin. cbn [PyList.index]. destruct (String.eqb y x) eqn:E.
  - apply String.eqb_eq in E. subst y. exists [], l. now repeat split.
  - apply String.eqb_neq in E. destruct Hin as [H|H]; [contradiction|].
    destruct (IH H) as (p & q & -> & Hp & ->).
    exists (y :: p), q. repeat split.
    intros [H1|H1]; [now apply E | now apply Hp].
Qed.

Lemma index_none (x : string) (l : list string) : ~ In x l -> PyList.index x l = None.
Proof.
  induction l as [|y l IH]; [reflexivity|].
  intro H. cbn [PyList.index]. destruct (String.eqb y x) eqn:E.
  - apply String.eqb_eq in E. subst. contradiction H. now left.
  - rewrite IH; [reflexivity|]. intro Hin. apply H. now right.
Qed.

Lemma insert_at (x : string) (p q : list string) :
  PyList.insert (List.length p) x (p ++ q) = p ++ x :: q.
Proof.
  induction p as [|y p IH]; [now destruct q|].
  cbn [List.length app PyList.insert]. now rewrite IH.
Qed.

Lemma insert_behind (x y : string) (p q : list string) :
  PyList.insert (List.length p + 1) x (p ++ y :: q) = p ++ y :: x :: q.
Proof.
  replace (List.length p + 1)%nat with (List.length (p ++ [y]))
    by (rewrite length_app; reflexivity).
  replace (p ++ y :: q) with ((p ++ [y]) ++ q) by (now rewrite <- app_assoc).
  rewrite insert_at. now rewrite <- app_assoc.
Qed.

Lemma select_getitem (cols : list string) (df : DataFrame) (l : string) :
  In l cols -> getitem (select cols df) l = getitem df l.
Proof.
  intro Hin. unfold getitem, select. cbn [records]. rewrite map_map.
  apply map_ext. intro r. now apply get_reindexed.
Qed.

Lemma mem_true (x : string) (l : list string) : In x l -> Py.mem String.eqb x l = true.
Proof. apply string_mem_In. Qed.

(** The common part of the two helpers: where the column goes. *)
Lemma column_moved (d : DataFrame) (col_to_move anchor : string) :
  In col_to_move (columns d) -> In anchor (columns d) -> col_to_move <> anchor ->
  exists p q l1 l2,
    columns d = p ++ col_to_move :: q
    /\ ~ In col_to_move p
    /\ p ++ q = l1 ++ anchor :: l2
    /\ ~ In anchor l1
    /\ PyList.remove col_to_move (columns d) = Some (l1 ++ anchor :: l2)
    /\ PyList.index anchor (l1 ++ anchor :: l2) = Some (List.length l1).
Proof.
  intros Hc Ha Hne.
  destruct (remove_split _ _ Hc) as (p & q & Hcols & Hp & Hrem).
  assert (Hin : In anchor (p ++ q)).
  { rewrite Hcols in Ha. apply in_app_or in Ha. apply in_or_app.
    destruct Ha as [H|[H|H]]; [now left | congruence | now right]. }
  destruct (index_split _ _ Hin) as (l1 & l2 & Hpq & Hl1 & Hidx).
  exists p, q, l1, l2. rewrite <- Hpq. now repeat split.
Qed.

Lemma moved_permutation (c a : string) (p q l1 l2 : list string) (middle : list string) :
  p ++ q = l1 ++ a :: l2 ->
  Permutation middle [c; a] ->
  Permutation (l1 ++ middle ++ l2) (p ++ c :: q).
Proof.
  intros Hpq Hm.
  apply Permutation_trans with (c :: l1 ++ a :: l2).
  - apply Permutation_trans with (l1 ++ [c; a] ++ l2).
    + apply Permutation_app_head, Permutation_app_tail, Hm.
    + cbn [app]. apply Permutation_sym, Permutation_middle.
  - rewrite <- Hpq. apply Permutation_middle.
Qed.

(** X14.  [ensure_column_before] and [ensure_column_after] on a frame with
    lines and distinct labels, for two different labels of the frame: the
    moved column comes out immediately before (after) the other one, the
    other columns keep their order, and every column keeps its cells. *)
Theorem ensure_column_moves_the_column :
  forall (d : DataFrame) (col_to_move anchor : string),
    empty d = false ->
    NoDup (columns d) ->
    In col_to_move (columns d) -> In anchor (columns d) -> col_to_move <> anchor ->
    exists (p q l1 l2 : list string) (before after : DataFrame),
      columns d = p ++ col_to_move :: q
      /\ p ++ q = l1 ++ anchor :: l2
      /\ ensure_column_before (Some d) col_to_move anchor = inl (Some before)
      /\ ensure_column_after (Some d) col_to_move anchor = inl (Some after)
      /\ columns before = l1 ++ col_to_move :: anchor :: l2
      /\ columns after = l1 ++ anchor :: col_to_move :: l2
      /\ Permutation (columns before) (columns d)
      /\ Permutation (columns after) (columns d)
      /\ (forall l, In l (columns d) ->
                    getitem before l = getitem d l /\ getitem after l = getitem d l).
Proof.
  intros d c a He Hnd Hc Ha Hne.
  destruct (column_moved d Hc Ha Hne) as (p & q & l1 & l2 & Hcols & Hp & Hpq & Hl1 & Hrem & Hidx).
  exists p, q, l1, l2,
    (select (l1 ++ c :: a :: l2) d), (select (l1 ++ a :: c :: l2) d).
  assert (Hperm1 : Permutation (l1 ++ c :: a :: l2) (columns d)).
  { rewrite Hcols. apply (@moved_permutation c a p q l1 l2 [c; a] Hpq).
    apply Permutation_refl. }
  assert (Hperm2 : Permutation (l1 ++ a :: c :: l2) (columns d)).
  { rewrite Hcols. apply (@moved_permutation c a p q l1 l2 [a; c] Hpq).
    apply perm_swap. }
  split; [exact Hcols|]. split; [exact Hpq|].
  split; [|split; [|split; [reflexivity|split; [reflexivity|split; [exact Hperm1|split; [exact Hperm2|]]]]]].
  - unfold ensure_column_before. rewrite He, (mem_true _ _ Hc), (mem_true _ _ Ha).
    cbn [andb]. rewrite Hrem, Hidx. now rewrite insert_at.
  - unfold ensure_column_after. rewrite He, (mem_true _ _ Hc), (mem_true _ _ Ha).
    cbn [andb]. rewrite Hrem, Hidx. cbv zeta. now rewrite insert_behind.
  - intros l Hl. split; apply select_getitem.
    + eapply Permutation_in; [apply Permutation_sym, Hperm1 | exact Hl].
    + eapply Permutation_in; [apply Permutation_sym, Hperm2 | exact Hl].
Qed.

Lemma ensure_column_moves_the_column_witness :
  empty Scenario.three_columns = false
  /\ exists before after : DataFrame,
       ensure_column_before (Some Scenario.three_columns) "Comment" "Cell"
       = inl (Some before)
       /\ ensure_column_after (Some Scenario.three_columns) "Comment" "Cell"
          = inl (Some after)
       /\ Permutation (columns before) (columns Scenario.three_columns)
       /\ Permutation (columns after) (columns Scenario.three_columns).
Proof.
  split; [reflexivity|].
  assert (Hnd : NoDup (columns Scenario.three_columns)).
  { repeat constructor; cbn; intuition discriminate. }
  assert (H1 : In "Comment" (columns Scenario.three_columns)) by (cbn; tauto).
  assert (H2 : In "Cell" (columns Scenario.three_columns)) by (cbn; tauto).
  assert (H3 : "Comment" <> "Cell") by discriminate.
  destruct (@ensure_column_moves_the_column Scenario.three_columns "Comment" "Cell"
              eq_refl Hnd H1 H2 H3)
    as (p & q & l1 & l2 & b & a & _ & _ & Hb & Ha & _ & _ & Hpb & Hpa & _).
  exists b, a. repeat split; assumption.
Defined.

Example ensure_column_sample :
  option_map columns
    (match ensure_column_before (Some Scenario.three_columns) "Comment" "Cell" with
     | inl (Some moved) => Some moved
     | _ => None
     end) = Some ["NodeId"; "Comment"; "Cell"]
  /\ option_map columns
       (match ensure_column_after (Some Scenario.three_columns) "NodeId" "Cell" with
        | inl (Some moved) => Some moved
        | _ => None
        end) = Some ["Cell"; "NodeId"; "Comment"].
Proof. split; reflexivity. Qed.

Lemma mem_false (x : string) (l : list string) : ~ In x l -> Py.mem String.eqb x l = false.
Proof.
  intro H. apply not_true_is_false. intro Hm. apply H. now apply string_mem_In.
Qed.

(** X15.  The edge cases of the two helpers on a frame with lines and
    distinct labels.  Asked to move a column before or after itself, they
    raise [ValueError]: the label is looked up in the list it has just been
    removed from.  When one of the two labels is not in the frame, the frame
    is returned as it is. *)
Theorem ensure_column_same_label_raises :
  forall (d : DataFrame) (col : string),
    empty d = false ->
    NoDup (columns d) ->
    In col (columns d) ->
    ensure_column_before (Some d) col col = inr (not_in_list col)
    /\ ensure_column_after (Some d) col col = inr (not_in_list col)
    /\ (forall other, ~ In other (columns d) ->
          ensure_column_before (Some d) col other = inl (Some d)
          /\ ensure_column_before (Some d) other col = inl (Some d)
          /\ ensure_column_after (Some d) col other = inl (Some d)
          /\ ensure_column_after (Some d) other col = inl (Some d)).
Proof.
  intros d c He Hnd Hc.
  destruct (remove_split _ _ Hc) as (p & q & Hcols & Hp & Hrem).
  assert (Hidx : PyList.index c (p ++ q) = None).
  { apply index_none. rewrite Hcols in Hnd. now apply NoDup_remove_2 in Hnd. }
  split; [|split].
  - unfold ensure_column_before. rewrite He, (mem_true _ _ Hc). cbn [andb].
    now rewrite Hrem, Hidx.
  - unfold ensure_column_after. rewrite He, (mem_true _ _ Hc). cbn [andb].
    now rewrite Hrem, Hidx.
  - intros b Hb. unfold ensure_column_before, ensure_column_after.
    rewrite He, (mem_true _ _ Hc), (mem_false _ _ Hb). now repeat split.
Qed.

Lemma ensure_column_same_label_raises_witness :
  empty Scenario.three_columns = false
  /\ ensure_column_before (Some Scenario.three_columns) "Cell" "Cell"
     = inr (not_in_list "Cell")
  /\ ensure_column_after (Some Scenario.three_columns) "Cell" "Cell"
     = inr (not_in_list "Cell").
Proof.
  split; [reflexivity|].
  assert (Hnd : NoDup (columns Scenario.three_columns)).
  { repeat constructor; cbn; intuition discriminate. }
  assert (H : In "Cell" (columns Scenario.three_columns)) by (cbn; tauto).
  destruct (@ensure_column_same_label_raises Scenario.three_columns "Cell" eq_refl Hnd H)
    as (Hb & Ha & _).
  split; [exact Hb | exact Ha].
Defined.

Lemma drop_nothing (d : DataFrame) : drop [] d = d.
Proof.
  unfold drop. destruct d as [cols recs]. cbn [columns records Py.mem existsb negb].
  rewrite filter_all by reflexivity. f_equal.
  rewrite <- (map_id recs) at 2. apply map_ext. intro r.
  now apply filter_all.
Qed.

Lemma present_labels_mem (cols unwanted : list string) (l : string) :
  In l cols ->
  Py.mem String.eqb l (filter (fun c => Py.mem String.eqb c cols) unwanted)
  = Py.mem String.eqb l unwanted.
Proof.
  intro Hl. apply Bool.eq_iff_eq_true. rewrite !string_mem_In, filter_In, string_mem_In.
  tauto.
Qed.

(** X16.  [drop_columns] on a frame with lines: the labels left are the
    labels that are not unwanted, in their order; the columns left keep their
    cells and the lines their number; dropping the same labels again changes
    nothing.  A frame without lines or without columns is returned as it is,
    with its unwanted columns. *)
Theorem drop_columns_drops_the_unwanted :
  forall (d e : DataFrame) (unwanted : list string),
    empty d = false ->
    empty e = true ->
    drop_columns (Some e) unwanted = Some e
    /\ exists d' : DataFrame,
         drop_columns (Some d) unwanted = Some d'
         /\ columns d' = filter (fun l => negb (Py.mem String.eqb l unwanted)) (columns d)
         /\ (forall l, In l (columns d') <-> In l (columns d) /\ ~ In l unwanted)
         /\ (forall l, In l (columns d') -> getitem d' l = getitem d l)
         /\ List.length (records d') = List.length (records d)
         /\ drop_columns (Some d') unwanted = Some d'.
Proof.
  intros d e unwanted Hd He. split.
  - unfold drop_columns. now rewrite He.
  - set (labels := filter (fun c => Py.mem String.eqb c (columns d)) unwanted).
    exists (drop labels d).
    assert (Hcols : columns (drop labels d)
                    = filter (fun l => negb (Py.mem String.eqb l unwanted)) (columns d)).
    { unfold drop. cbn [columns]. apply filter_ext_in. intros l Hl.
      unfold labels. now rewrite present_labels_mem. }
    assert (Hin : forall l, In l (columns (drop labels d))
                            <-> In l (columns d) /\ ~ In l unwanted).
    { intro l. rewrite Hcols, filter_In, negb_true_iff. split.
      - intros [H1 H2]. split; [exact H1|]. intro H. apply mem_true in H. congruence.
      - intros [H1 H2]. split; [exact H1 | now apply mem_false]. }
    split; [unfold drop_columns; now rewrite Hd|].
    split; [exact Hcols|]. split; [exact Hin|].
    split; [|split].
    + intros l Hl. unfold getitem, drop. cbn [records]. rewrite map_map.
      apply map_ext. intro r.
      apply (get_filter_keep (fun l => negb (Py.mem String.eqb l labels))).
      unfold drop in Hl. cbn [columns] in Hl. now apply filter_In in Hl.
    + unfold drop. cbn [records]. apply length_map.
    + unfold drop_columns. destruct (empty (drop labels d)); [reflexivity|].
      rewrite filter_none; [now rewrite drop_nothing|].
      intros c Hc. apply mem_false. intro H. apply Hin in H. tauto.
Qed.

Lemma drop_columns_drops_the_unwanted_witness :
  empty Scenario.three_columns = false
  /\ empty Scenario.three_columns_no_line = true
  /\ drop_columns (Some Scenario.three_columns_no_line) ["Comment"]
     = Some Scenario.three_columns_no_line
  /\ exists d' : DataFrame,
       drop_columns (Some Scenario.three_columns) ["Comment"; "Missing"] = Some d'
       /\ drop_columns (Some d') ["Comment"; "Missing"] = Some d'.
Proof.
  split; [reflexivity|]. split; [reflexivity|].
  destruct (@drop_columns_drops_the_unwanted Scenario.three_columns
              Scenario.three_columns_no_line ["Comment"; "Missing"] eq_refl eq_refl)
    as (_ & d' & Hd & _ & _ & _ & _ & Hagain).
  split.
  - exact (proj1 (@drop_columns_drops_the_unwanted Scenario.three_columns
                    Scenario.three_columns_no_line ["Comment"] eq_refl eq_refl)).
  - exists d'. split; [exact Hd | exact Hagain].
Defined.

Example drop_columns_sample :
  option_map columns (drop_columns (Some Scenario.three_columns) ["Comment"; "Missing"])
  = Some ["NodeId"; "Cell"]
  /\ option_map columns (drop_columns (Some Scenario.three_columns_no_line) ["Comment"])
     = Some ["NodeId"; "Cell"; "Comment"].
Proof. split; reflexivity. Qed.

(* ===================================================================== *)
(** ** [normalize_df] *)
(* ===================================================================== *)

(** What the loop of [normalize_df] does to one line. *)
Lemma get_set_cell (r : Record_) (l l' : string) (v : Cell) :
  get (set_cell r l v) l' = if String.eqb l l' then v else get r l'.
Proof.
  induction r as [|[k c] r IH]; [reflexivity|].
  cbn [set_cell]. destruct (String.eqb k l) eqn:Ekl.
  - apply String.eqb_eq in Ekl. subst k. cbn [get].
    now destruct (String.eqb l l').
  - cbn [get]. rewrite IH. destruct (String.eqb k l') eqn:Ekl'; [|reflexivity].
    destruct (String.eqb l l') eqn:Ell'; [|reflexivity].
    apply String.eqb_eq in Ekl', Ell'. subst. rewrite String.eqb_refl in Ekl.
    discriminate.
Qed.

Lemma set_cell_keys (r : Record_) (l k : string) (v : Cell) :
  In k (map fst (set_cell r l v)) <-> k = l \/ In k (map fst r).
Proof.
  induction r as [|[k' c] r IH]; cbn [set_cell map fst In].
  - intuition congruence.
  - destruct (String.eqb k' l) eqn:E; cbn [map fst In].
    + apply String.eqb_eq in E. subst. intuition congruence.
    + rewrite IH. tauto.
Qed.

Lemma set_cell_same (r : Record_) (l : string) :
  In l (map fst r) -> set_cell r l (get r l) = r.
Proof.
  induction r as [|[k c] r IH]; [intros []|].
  cbn [map fst In set_cell get]. destruct (String.eqb k l) eqn:E; [reflexivity|].
  intros [H|H]; [subst; rewrite String.eqb_refl in E; discriminate|].
  now rewrite IH.
Qed.

Lemma replace_fixed (s : string) :
  replace (Py.strip (replace (Py.strip s))) = replace (Py.strip s).
Proof.
  unfold replace at 2 3. destruct (Py.mem String.eqb (Py.strip s) blank_values) eqn:E.
  - reflexivity.
  - rewrite strip_idempotent. unfold replace. now rewrite E.
Qed.

Lemma normalize_cell_idempotent (c : Cell) :
  normalize_cell (normalize_cell c) = normalize_cell c.
Proof. unfold normalize_cell. cbn [astype_str]. now rewrite replace_fixed. Qed.

Lemma normalize_cell_clean (c : Cell) :
  exists s, normalize_cell c = CStr s /\ Py.strip s = s /\ no_space_around s
            /\ ~ In s blank_values.
Proof.
  unfold normalize_cell, replace.
  destruct (Py.mem String.eqb (Py.strip (astype_str c)) blank_values) eqn:E.
  - exists "". split; [reflexivity|]. split; [reflexivity|].
    split; [apply (strip_no_space_around "") | cbn; intuition discriminate].
  - exists (Py.strip (astype_str c)). split; [reflexivity|].
    split; [apply strip_idempotent|]. split; [apply strip_no_space_around|].
    intro H. apply mem_true in H. congruence.
Qed.

Section NormalizeRecord.

Let step (r : Record_) (c : string) : Record_ :=
  set_cell r c (normalize_cell (get r c)).

Let normalize_record (cols : list string) (r : Record_) : Record_ :=
  fold_left step cols r.

Lemma normalize_loop (cols : list string) (out : DataFrame) :
  (forall c, In c cols -> In c (columns out)) ->
  fold_left (fun out c => assign c (fun r => normalize_cell (get r c)) out) cols out
  = mkFrame (columns out) (map (normalize_record cols) (records out)).
Proof.
  revert out. induction cols as [|c cols IH]; intros out Hin.
  - cbn [fold_left]. destruct out as [cs rs]. cbn [columns records].
    f_equal. rewrite <- (map_id rs) at 1. now apply map_ext.
  - cbn [fold_left].
    assert (Ha : assign c (fun r => normalize_cell (get r c)) out
                 = mkFrame (columns out) (map (fun r => step r c) (records out))).
    { unfold assign. now rewrite (mem_true _ _ (Hin c (or_introl eq_refl))). }
    rewrite Ha, IH.
    + cbn [columns records]. f_equal. now rewrite map_map.
    + cbn [columns]. intros c' Hc'. apply Hin. now right.
Qed.

Lemma get_normalize_record (cols : list string) (r : Record_) (l : string) :
  get (normalize_record cols r) l
  = if Py.mem String.eqb l cols then normalize_cell (get r l) else get r l.
Proof.
  revert r. induction cols as [|c cols IH]; intro r; [reflexivity|].
  change (normalize_record (c :: cols) r) with (normalize_record cols (step r c)).
  rewrite IH. unfold step at 1 2. rewrite get_set_cell.
  cbn [Py.mem existsb]. fold (Py.mem String.eqb l cols).
  rewrite (String.eqb_sym l c).
  destruct (String.eqb c l) eqn:E; cbn [orb].
  - apply String.eqb_eq in E. subst c.
    destruct (Py.mem String.eqb l cols); [apply normalize_cell_idempotent | reflexivity].
  - reflexivity.
Qed.

Lemma normalize_record_keys (cols : list string) (r : Record_) (k : string) :
  In k cols \/ In k (map fst r) -> In k (map fst (normalize_record cols r)).
Proof.
  revert r. induction cols as [|c cols IH]; intros r H.
  - destruct H as [[]|H]; exact H.
  - change (normalize_record (c :: cols) r) with (normalize_record cols (step r c)).
    apply IH. unfold step. rewrite set_cell_keys.
    destruct H as [[H|H]|H]; [right; left; now symmetry | now left | right; now right].
Qed.

Lemma normalize_record_fixed (cols : list string) (r : Record_) :
  (forall c, In c cols -> In c (map fst r) /\ normalize_cell (get r c) = get r c) ->
  normalize_record cols r = r.
Proof.
  induction cols as [|c cols IH]; intro H; [reflexivity|].
  change (normalize_record (c :: cols) r) with (normalize_record cols (step r c)).
  assert (Hs : step r c = r).
  { unfold step. destruct (H c (or_introl eq_refl)) as [Hk ->]. now apply set_cell_same. }
  rewrite Hs. apply IH. intros c' Hc'. apply H. now right.
Qed.

Lemma normalize_record_idempotent (cols : list string) (r : Record_) :
  normalize_record cols (normalize_record cols r) = normalize_record cols r.
Proof.
  apply normalize_record_fixed. intros c Hc. split.
  - apply normalize_record_keys. now left.
  - rewrite get_normalize_record, (mem_true _ _ Hc). apply normalize_cell_idempotent.
Qed.

Lemma normalize_df_records (df : DataFrame) :
  normalize_df df
  = mkFrame (columns df) (map (normalize_record (columns df)) (records df)).
Proof. unfold normalize_df. now apply normalize_loop. Qed.

Lemma normalize_df_getitem (df : DataFrame) (l : string) :
  In l (columns df) ->
  getitem (normalize_df df) l = map normalize_cell (getitem df l).
Proof.
  intro Hl. rewrite normalize_df_records. unfold getitem. cbn [records].
  rewrite !map_map. apply map_ext. intro r.
  now rewrite get_normalize_record, (mem_true _ _ Hl).
Qed.

Lemma normalize_df_again (df : DataFrame) :
  normalize_df (normalize_df df) = normalize_df df.
Proof.
  rewrite (normalize_df_records df) at 2.
  rewrite (normalize_df_records (normalize_df df)).
  rewrite (normalize_df_records df). cbn [columns records].
  f_equal. rewrite map_map. apply map_ext. intro r.
  apply normalize_record_idempotent.
Qed.

End NormalizeRecord.

(** X17.  [normalize_df] keeps the labels and the number of lines; under
    every label, each cell becomes the text of the cell without the white
    space around it, or the empty text when that is one of nan, NaN, None,
    none, NULL, null.  So no cell of the result starts or ends with a
    white-space character, of ASCII or not, or is one of these six words,
    and normalizing twice is normalizing once. *)
Theorem normalize_df_normalizes_every_cell :
  forall df : DataFrame,
    columns (normalize_df df) = columns df
    /\ List.length (records (normalize_df df)) = List.length (records df)
    /\ (forall l, In l (columns df) ->
                  getitem (normalize_df df) l
                  = map (fun c => CStr (replace (Py.strip (astype_str c)))) (getitem df l))
    /\ (forall l c, In l (columns df) -> In c (getitem (normalize_df df) l) ->
                    exists s, c = CStr s /\ Py.strip s = s /\ no_space_around s
                              /\ ~ In s blank_values)
    /\ normalize_df (normalize_df df) = normalize_df df.
Proof.
  intro df.
  split; [now rewrite normalize_df_records|].
  split; [rewrite normalize_df_records; apply length_map|].
  split; [intros l Hl; now apply normalize_df_getitem|].
  split; [|apply normalize_df_again].
  intros l c Hl Hc. rewrite (normalize_df_getitem _ _ Hl) in Hc.
  apply in_map_iff in Hc. destruct Hc as [c0 [<- _]]. apply normalize_cell_clean.
Qed.

Example normalize_cell_nbsp :
  normalize_cell (CStr ("nan" ++ Scenario.nbsp)) = CStr ""
  /\ normalize_cell (CStr (Scenario.nbsp ++ " a b " ++ Scenario.nbsp)) = CStr "a b".
Proof. split; reflexivity. Qed.

Example normalize_df_sample :
  records (normalize_df Scenario.three_columns)
  = [ [("NodeId", CStr "N1"); ("Cell", CStr "7"); ("Comment", CStr "")];
      [("NodeId", CStr "N2"); ("Cell", CStr ""); ("Comment", CStr "ok")] ].
Proof. reflexivity. Qed.

(* ===================================================================== *)
(** ** [select_latest_by_date] *)
(* ===================================================================== *)

Lemma series_max_spec (dates : list (option Z)) :
  (series_max dates = None /\ forall d, In d dates -> d = None)
  \/ (exists m, series_max dates = Some m /\ In (Some m) dates
                /\ forall d, In (Some d) dates -> (d <= m)%Z).
Proof.
  induction dates as [|[a|] rest IH]; cbn [series_max].
  - left. split; [reflexivity | intros d []].
  - right. destruct IH as [[-> Hnone] | (m & -> & Hin & Hmax)].
    + exists a. split; [reflexivity|]. split; [now left|].
      intros d [[= ->]|H]; [lia|]. apply Hnone in H. discriminate.
    + exists (Z.max a m). split; [reflexivity|]. split.
      * destruct (Z.max_spec a m) as [[_ ->] | [_ ->]]; [now right | now left].
      * intros d [[= ->]|H]; [lia|]. specialize (Hmax d H). lia.
  - destruct IH as [[-> Hnone] | (m & -> & Hin & Hmax)].
    + left. split; [reflexivity|]. intros d [<-|H]; [reflexivity | now apply Hnone].
    + right. exists m. split; [reflexivity|]. split; [now right|].
      intros d [H|H]; [discriminate | now apply Hmax].
Qed.

Lemma filter_map_commute {A B} (p : B -> bool) (f : A -> B) (l : list A) :
  filter p (map f l) = map f (filter (fun a => p (f a)) l).
Proof.
  induction l as [|a l IH]; [reflexivity|].
  cbn [map filter]. destruct (p (f a)); cbn [map]; now rewrite IH.
Qed.

Lemma filter_app_last {A} (p : A -> bool) (l : list A) (x : A) :
  p x = false -> filter p (l ++ [x]) = filter p l.
Proof.
  intro H. rewrite filter_app. cbn [filter]. rewrite H. apply app_nil_r.
Qed.

Lemma forallb_not_all {A} (p : A -> bool) (l : list A) (x : A) :
  In x l -> p x = false -> forallb p l = false.
Proof.
  intros Hin Hp. apply not_true_is_false. intro H.
  rewrite forallb_forall in H. rewrite (H x Hin) in Hp. discriminate.
Qed.

(** X18.  [select_latest_by_date] on a frame with a usable Pre/Post column
    and a Date column, when the wanted side has lines and one of them has a
    date text that is not empty.  The result has the labels of the frame
    (a label __Date_dt apart).  When no line of the side has a readable
    date, the result has no line at all.  Otherwise it holds, in their order
    and with their cells, exactly the lines of the side whose date is the
    latest readable date of the side; the side is compared without regard to
    case. *)
Theorem select_latest_by_date_keeps_the_latest_day :
  forall (to_datetime : Cell -> option Z) (df : DataFrame) (side_value : string),
    In "Pre/Post" (columns df) ->
    str_accessor_ok (getitem df "Pre/Post") = true ->
    In "Date" (columns df) ->
    (exists r, In r (side_lines df side_value) /\ astype_str (get r "Date") <> "") ->
    exists out : DataFrame,
      select_latest_by_date to_datetime df side_value = inl out
      /\ columns out
         = filter (fun l => negb (Py.mem String.eqb l ["__Date_dt"])) (columns df)
      /\ ((forall r, In r (side_lines df side_value) ->
                     to_datetime (get r "Date") = None) ->
          records out = [])
      /\ (forall day : Z,
             (exists r, In r (side_lines df side_value)
                        /\ to_datetime (get r "Date") = Some day) ->
             (forall r d, In r (side_lines df side_value) ->
                          to_datetime (get r "Date") = Some d -> (d <= day)%Z) ->
             List.length (records out)
             = List.length (lines_of_day to_datetime df side_value day)
             /\ forall l, l <> "__Date_dt" ->
                          getitem out l
                          = map (fun r => get r l)
                                (lines_of_day to_datetime df side_value day)).
Proof.
  intros td df side Hpp Hok Hdate [r0 [Hr0 Htext]].
  set (subset := loc (fun r => str_lower_is (get r "Pre/Post") (Py.lower side)) df).
  set (dated := assign "__Date_dt" (fun r => date_cell (td (get r "Date"))) subset).
  set (max_date := series_max (map (fun r => td (get r "Date")) (records dated))).
  exists (drop ["__Date_dt"]
            (loc (fun r => date_is (get r "__Date_dt") max_date) dated)).
  assert (Hrecs : records subset = side_lines df side) by reflexivity.
  assert (Hdates : map (fun r => td (get r "Date")) (records dated)
                   = map (fun r => td (get r "Date")) (side_lines df side)).
  { unfold dated, assign. cbn [records]. rewrite Hrecs, map_map.
    apply map_ext. intro r. rewrite get_set_cell. reflexivity. }
  assert (Hout : forall m : option Z,
             records (drop ["__Date_dt"]
                        (loc (fun r => date_is (get r "__Date_dt") m) dated))
             = map (fun r => filter (fun lc : string * Cell =>
                                       negb (Py.mem String.eqb (fst lc) ["__Date_dt"]))
                               (set_cell r "__Date_dt" (date_cell (td (get r "Date")))))
                   (filter (fun r => date_is (date_cell (td (get r "Date"))) m)
                           (side_lines df side))).
  { intro m. unfold drop, loc, dated, assign. cbn [records]. rewrite Hrecs.
    rewrite filter_map_commute, map_map. f_equal.
    apply filter_ext. intro r. now rewrite get_set_cell, String.eqb_refl. }
  split; [|split; [|split]].
  - unfold select_latest_by_date.
    rewrite (mem_true _ _ Hpp), Hok. cbn [negb]. fold subset.
    assert (He : empty subset = false).
    { unfold empty. rewrite Hrecs. change (columns subset) with (columns df).
      destruct (columns df); [destruct Hpp|].
      destruct (side_lines df side); [destruct Hr0 | reflexivity]. }
    rewrite He.
    assert (Hall : Py.all (fun c => Nat.eqb (String.length (astype_str c)) 0)
                          (getitem subset "Date") = false).
    { apply forallb_not_all with (x := get r0 "Date").
      - unfold getitem. rewrite Hrecs.
        exact (in_map (fun r : Record_ => get r "Date") _ _ Hr0).
      - apply Nat.eqb_neq. intro Hlen. apply Htext.
        now destruct (astype_str (get r0 "Date")). }
    change (columns subset) with (columns df).
    rewrite (mem_true _ _ Hdate), Hall. reflexivity.
  - unfold drop, loc, dated, assign. cbn [columns].
    change (columns subset) with (columns df).
    destruct (Py.mem String.eqb "__Date_dt" (columns df)); [reflexivity|].
    now apply filter_app_last.
  - intro Hnone. rewrite Hout, filter_none; [reflexivity|].
    intros r Hr. now rewrite (Hnone r Hr).
  - intros day [r1 [Hr1 Hd1]] Hlatest.
    assert (Hmax : max_date = Some day).
    { unfold max_date. rewrite Hdates.
      destruct (series_max_spec (map (fun r => td (get r "Date")) (side_lines df side)))
        as [[_ Hnone] | (m & -> & Hin & Hm)].
      - assert (H : td (get r1 "Date") = None)
          by (apply Hnone, in_map_iff; now exists r1).
        congruence.
      - apply in_map_iff in Hin. destruct Hin as [r2 [Hd2 Hr2]].
        pose proof (Hlatest r2 m Hr2 Hd2) as H1.
        assert (H2 : (day <= m)%Z)
          by (apply Hm, in_map_iff; now exists r1).
        f_equal. lia. }
    assert (Hsame : filter (fun r => date_is (date_cell (td (get r "Date"))) max_date)
                           (side_lines df side)
                    = lines_of_day td df side day).
    { unfold lines_of_day. apply filter_ext. intro r. rewrite Hmax.
      now destruct (td (get r "Date")). }
    split.
    + now rewrite Hout, length_map, Hsame.
    + intros l Hl. unfold getitem. rewrite Hout, Hsame, map_map.
      apply map_ext. intro r.
      rewrite (get_filter_keep (fun l => negb (Py.mem String.eqb l ["__Date_dt"]))).
      * rewrite get_set_cell.
        destruct (String.eqb "__Date_dt" l) eqn:E; [|reflexivity].
        apply String.eqb_eq in E. now contradiction Hl.
      * cbn [Py.mem existsb orb]. apply negb_true_iff.
        rewrite orb_false_r. now apply String.eqb_neq.
Qed.

Lemma select_latest_by_date_witness :
  exists out : DataFrame,
    select_latest_by_date Scenario.day_number Scenario.pre_post "post" = inl out
    /\ List.length (records out)
       = List.length (lines_of_day Scenario.day_number Scenario.pre_post "post" 5).
Proof.
  assert (H1 : In "Pre/Post" (columns Scenario.pre_post)) by (cbn; tauto).
  assert (H2 : In "Date" (columns Scenario.pre_post)) by (cbn; tauto).
  assert (H3 : exists r, In r (side_lines Scenario.pre_post "post")
                         /\ astype_str (get r "Date") <> "").
  { eexists. split; [left; reflexivity | discriminate]. }
  destruct (@select_latest_by_date_keeps_the_latest_day Scenario.day_number
              Scenario.pre_post "post" H1 eq_refl H2 H3)
    as (out & Hout & _ & _ & Hday).
  exists out. split; [exact Hout|].
  apply (Hday 5%Z).
  - eexists. split; [right; left; reflexivity | reflexivity].
  - intros r d Hin. vm_compute in Hin.
    destruct Hin as [<-|[<-|[<-|[<-|[]]]]]; intro H; vm_compute in H;
      try discriminate; injection H as <-; lia.
Defined.

Example select_latest_by_date_sample :
  match select_latest_by_date Scenario.day_number Scenario.pre_post "post" with
  | inl out => getitem out "Node"
  | inr _ => []
  end = [CStr "N2"; CStr "N4"].
Proof. reflexivity. Qed.

(** X19.  The other ways through [select_latest_by_date].  Without a
    Pre/Post column it raises [KeyError].  With a usable one, when the frame
    has no Date column, or when every date text of the wanted side is empty,
    no line is dropped for its date: the result holds all the lines of the
    side, in their order, under the labels of the frame. *)
Theorem select_latest_by_date_without_dates :
  forall (to_datetime : Cell -> option Z) (df : DataFrame) (side_value : string),
    (~ In "Pre/Post" (columns df) ->
     select_latest_by_date to_datetime df side_value = inr (KeyError "Pre/Post"))
    /\ (In "Pre/Post" (columns df) ->
        str_accessor_ok (getitem df "Pre/Post") = true ->
        ~ In "Date" (columns df)
        \/ (forall r, In r (side_lines df side_value) -> astype_str (get r "Date") = "") ->
        exists out : DataFrame,
          select_latest_by_date to_datetime df side_value = inl out
          /\ columns out = columns df
          /\ records out = side_lines df side_value).
Proof.
  intros td df side. split.
  - intro H. unfold select_latest_by_date. now rewrite (mem_false _ _ H).
  - intros Hpp Hok Hdates.
    set (subset := loc (fun r => str_lower_is (get r "Pre/Post") (Py.lower side)) df).
    exists subset. split; [|split; reflexivity].
    unfold select_latest_by_date. rewrite (mem_true _ _ Hpp), Hok. cbn [negb].
    cbv zeta. fold subset.
    destruct (empty subset); [reflexivity|].
    change (columns subset) with (columns df).
    destruct Hdates as [Hno | Hall].
    + now rewrite (mem_false _ _ Hno).
    + assert (H : Py.all (fun c => Nat.eqb (String.length (astype_str c)) 0)
                    (getitem subset "Date") = true).
      { apply forallb_forall. intros c Hc. unfold getitem in Hc.
        apply in_map_iff in Hc. destruct Hc as [r [<- Hr]].
        change (records subset) with (side_lines df side) in Hr.
        now rewrite (Hall r Hr). }
      rewrite H. now rewrite orb_true_r.
Qed.

Lemma select_latest_by_date_without_dates_witness :
  exists out : DataFrame,
    select_latest_by_date Scenario.day_number Scenario.three_columns "post"
    = inr (KeyError "Pre/Post")
    /\ select_latest_by_date Scenario.day_number
         (drop ["Date"] Scenario.pre_post) "PRE" = inl out
    /\ records out = side_lines (drop ["Date"] Scenario.pre_post) "PRE".
Proof.
  assert (H0 : ~ In "Pre/Post" (columns Scenario.three_columns))
    by (cbn; intuition discriminate).
  assert (H1 : In "Pre/Post" (columns (drop ["Date"] Scenario.pre_post)))
    by (cbn; tauto).
  assert (H2 : ~ In "Date" (columns (drop ["Date"] Scenario.pre_post)))
    by (cbn; intuition discriminate).
  destruct (proj2 (select_latest_by_date_without_dates Scenario.day_number
                     (drop ["Date"] Scenario.pre_post) "PRE")
                  H1 eq_refl (or_introl H2))
    as (out & Hout & _ & Hrecs).
  exists out. split; [|split; [exact Hout | exact Hrecs]].
  exact (proj1 (select_latest_by_date_without_dates Scenario.day_number
                  Scenario.three_columns "post") H0).
Defined.
